(** * The Panda USB CAN driver: transmit-context pool, wire codec and
      transfer callbacks of [driver/panda.c]

    The driver is embedded as functions in a small state monad over the
    device's private data.  Calls into the kernel (queue control, echo
    buffers, logging, USB transfers) change that state and are recorded in a
    chronological trace, so that the order of effects inside one driver
    function can be stated.  A computation that dereferences a null pointer
    or leaves an array has no result.

    The host is little-endian (the driver's x86 and ARM targets): there
    [cpu_to_le32] is the identity and a [u32] field of the packed wire
    struct lies in memory least significant byte first. *)

From Stdlib Require Import ZArith Lia Bool List.
From Stdlib Require Strings.Byte.
From stdpp Require Import base list.
Import ListNotations.

Local Open Scope Z_scope.

(** ** Machine integers *)

Definition u8 (x : Z) : Z := x mod 2 ^ 8.
Definition u32 (x : Z) : Z := x mod 2 ^ 32.
(** [int], as held by an [atomic_t]. *)
Definition s32 (x : Z) : Z := (x + 2 ^ 31) mod 2 ^ 32 - 2 ^ 31.
(** [unsigned long], the type of the [net_device_stats] counters. *)
Definition ulong (x : Z) : Z := x mod 2 ^ 64.

Definition cpu_to_le32 (x : Z) : Z := x.

(** ** Constants *)

Definition PANDA_MAX_TX_URBS : nat := 20.
Definition PANDA_CTX_FREE : Z := Z.of_nat PANDA_MAX_TX_URBS.
Definition PANDA_USB_RX_BUFF_SIZE : Z := 0x40.
(** [sizeof(struct panda_usb_can_msg)]: two [u32] and eight bytes, packed. *)
Definition PANDA_USB_TX_BUFF_SIZE : Z := 16.
Definition PANDA_CAN_TRANSMIT : Z := 1.
Definition PANDA_CAN_EXTENDED : Z := 4.
Definition PANDA_DLC_MASK : Z := 0x0F.

(** From [linux/can.h]. *)
Definition CAN_EFF_FLAG : Z := 0x80000000.
Definition CAN_MAX_DLC : Z := 8.
Definition CAN_MAX_DLEN : Z := 8.

(** From [errno.h]. *)
Definition ENOENT : Z := 2.
Definition ENOMEM : Z := 12.
Definition ENODEV : Z := 19.
Definition ESHUTDOWN : Z := 108.

(** ** Data *)

(** [struct can_frame]: [can_id] is a [u32] whose bit 31 is the extended
    flag, [can_dlc] a [u8], [data] an array of eight bytes. *)
Record can_frame := mk_can_frame {
  can_id : Z;
  can_dlc : Z;
  data : list Byte.byte
}.

(** [struct panda_usb_can_msg]. *)
Record panda_usb_can_msg := mk_can_msg {
  rir : Z;
  bus_dat_len : Z;
  msg_data : list Byte.byte
}.

(** [struct panda_usb_ctx].  The model has one device, so the back pointer
    [priv] of every context is that device and is not stored. *)
Record panda_usb_ctx := mk_ctx {
  ndx : Z;
  dlc : Z
}.

(** A socket buffer handed to the driver: whether it is a classic CAN
    buffer ([protocol] is [ETH_P_CAN] and [len] is [CAN_MTU]) and the frame
    its data holds. *)
Record sk_buff := mk_skb {
  skb_is_can : bool;
  skb_frame : can_frame
}.

Record net_device_stats := mk_stats {
  rx_packets : Z;
  rx_bytes : Z;
  tx_packets : Z;
  tx_bytes : Z;
  tx_dropped : Z;
  tx_aborted_errors : Z
}.

(** The part of [struct net_device] (and of the [can_priv] echo array) the
    driver touches. *)
Record net_device := mk_netdev {
  stats : net_device_stats;
  queue_stopped : bool;
  device_present : bool;
  echo_skb : list (option sk_buff)
}.

(** A pointer to a transmit context is its index in [tx_context]; [None]
    is the null pointer. *)
Definition ctx_ptr := option nat.

(** [struct urb], as far as the callbacks read it. *)
Record urb := mk_urb {
  urb_context : ctx_ptr;
  urb_status : Z;
  actual_length : Z;
  transfer_buffer : list Byte.byte
}.

(** [struct panda_priv]. *)
Record panda_priv := mk_priv {
  tx_context : list panda_usb_ctx;
  free_ctx_cnt : Z;
  netdev : net_device;
  tx_submitted : list urb
}.

Inductive message :=
| MsgCtxNum (n : Z)
| MsgSendingTooFast
| MsgInvalidCanPacket
| MsgReceivedFromSocket (id len : Z)
| MsgTxUrbAborted (status : Z)
| MsgRxUrbAborted (status : Z)
| MsgFormatError
| MsgFailedTxUrb (err : Z)
| MsgFailedResubmit (err : Z)
| MsgEchoSkbOccupied.

(** What a driver function does to the world outside its locals, in the
    order it does it. *)
Inductive event :=
| EvStoreNdx (i : nat) (v : Z)
| EvStoreDlc (i : nat) (v : Z)
| EvAtomicSet (v : Z)
| EvAtomicDec
| EvAtomicInc
| EvAtomicRead (v : Z)
| EvLog (m : message)
| EvWarnOn
| EvNetifStopQueue
| EvNetifWakeQueue
| EvNetifDeviceDetach
| EvNetifRx (cf : can_frame)
| EvCanPutEchoSkb (idx : Z)
| EvCanGetEchoSkb (idx : Z)
| EvCanFreeEchoSkb (idx : Z)
| EvKfreeSkb (skb : sk_buff)
| EvUsbFreeCoherent
| EvUsbFreeUrb
| EvUsbSubmitUrb (buf : list Byte.byte)
| EvUsbResubmitRead
| EvStatTxPackets
| EvStatTxBytes (n : Z)
| EvStatTxDropped
| EvStatTxAborted
| EvStatRxPackets
| EvStatRxBytes (n : Z).

Record world := mk_world {
  priv : panda_priv;
  trace : list event
}.

(** ** The monad *)

Definition M (A : Type) : Type := world -> option (A * world).

Definition ret {A} (a : A) : M A := fun w => Some (a, w).

Definition bind {A B} (k : A -> M B) (m : M A) : M B :=
  fun w => match m w with
           | Some (a, w') => k a w'
           | None => None
           end.

#[global] Instance M_ret : MRet M := @ret.
#[global] Instance M_bind : MBind M := @bind.

(** Undefined behaviour: a null or out-of-bounds access. *)
Definition fault {A} : M A := fun _ => None.

Definition get_priv : M panda_priv := fun w => Some (priv w, w).

Definition modify_priv (f : panda_priv -> panda_priv) : M unit :=
  fun w => Some (tt, mk_world (f (priv w)) (trace w)).

Definition emit (e : event) : M unit :=
  fun w => Some (tt, mk_world (priv w) (trace w ++ [e])).

Definition when (b : bool) (m : M unit) : M unit :=
  if b then m else mret tt.

(** ** Field updates *)

Definition set_tx_context (l : list panda_usb_ctx) (p : panda_priv) :=
  mk_priv l (free_ctx_cnt p) (netdev p) (tx_submitted p).
Definition set_free_ctx_cnt (n : Z) (p : panda_priv) :=
  mk_priv (tx_context p) n (netdev p) (tx_submitted p).
Definition set_netdev (d : net_device) (p : panda_priv) :=
  mk_priv (tx_context p) (free_ctx_cnt p) d (tx_submitted p).
Definition set_tx_submitted (l : list urb) (p : panda_priv) :=
  mk_priv (tx_context p) (free_ctx_cnt p) (netdev p) l.

Definition set_stats (s : net_device_stats) (d : net_device) :=
  mk_netdev s (queue_stopped d) (device_present d) (echo_skb d).
Definition set_queue_stopped (b : bool) (d : net_device) :=
  mk_netdev (stats d) b (device_present d) (echo_skb d).
Definition set_device_present (b : bool) (d : net_device) :=
  mk_netdev (stats d) (queue_stopped d) b (echo_skb d).
Definition set_echo_skb (l : list (option sk_buff)) (d : net_device) :=
  mk_netdev (stats d) (queue_stopped d) (device_present d) l.

Definition modify_netdev (f : net_device -> net_device) : M unit :=
  modify_priv (fun p => set_netdev (f (netdev p)) p).

Definition modify_stats (f : net_device_stats -> net_device_stats) : M unit :=
  modify_netdev (fun d => set_stats (f (stats d)) d).

(** ** Memory and kernel primitives *)

(** [priv->tx_context[i]] read through a pointer. *)
Definition load_ctx (i : nat) : M panda_usb_ctx :=
  p ← get_priv;
  match tx_context p !! i with
  | Some c => mret c
  | None => fault
  end.

Definition store_ndx (i : nat) (v : Z) : M unit :=
  c ← load_ctx i;
  modify_priv (fun p => set_tx_context (<[i := mk_ctx v (dlc c)]> (tx_context p)) p);;
  emit (EvStoreNdx i v).

Definition store_dlc (i : nat) (v : Z) : M unit :=
  c ← load_ctx i;
  modify_priv (fun p => set_tx_context (<[i := mk_ctx (ndx c) v]> (tx_context p)) p);;
  emit (EvStoreDlc i v).

Definition atomic_set (v : Z) : M unit :=
  modify_priv (set_free_ctx_cnt v);; emit (EvAtomicSet v).

Definition atomic_dec : M unit :=
  modify_priv (fun p => set_free_ctx_cnt (s32 (free_ctx_cnt p - 1)) p);;
  emit EvAtomicDec.

Definition atomic_inc : M unit :=
  modify_priv (fun p => set_free_ctx_cnt (s32 (free_ctx_cnt p + 1)) p);;
  emit EvAtomicInc.

Definition atomic_read : M Z :=
  p ← get_priv; emit (EvAtomicRead (free_ctx_cnt p));; mret (free_ctx_cnt p).

Definition printk (m : message) : M unit := emit (EvLog m).

Definition netif_stop_queue : M unit :=
  modify_netdev (set_queue_stopped true);; emit EvNetifStopQueue.

Definition netif_wake_queue : M unit :=
  modify_netdev (set_queue_stopped false);; emit EvNetifWakeQueue.

Definition netif_device_present : M bool :=
  p ← get_priv; mret (device_present (netdev p)).

Definition netif_device_detach : M unit :=
  modify_netdev (fun d => set_queue_stopped true (set_device_present false d));;
  emit EvNetifDeviceDetach.

(** ** The transmit-context pool *)

(** The body of the [for] loop of [panda_init_ctx], [n] iterations from
    index [i]. *)
Fixpoint panda_init_ctx_loop (n i : nat) : M unit :=
  match n with
  | O => mret tt
  | S n' => store_ndx i PANDA_CTX_FREE;; panda_init_ctx_loop n' (S i)
  end.

Definition panda_init_ctx : M unit :=
  panda_init_ctx_loop PANDA_MAX_TX_URBS 0;;
  atomic_set (Z.of_nat PANDA_MAX_TX_URBS).

(** The [for] loop of [panda_usb_get_free_ctx]: [n] is the number of
    indices still to visit, [i] the current one; the result is the local
    [ctx] when the loop is left. *)
Fixpoint panda_usb_get_free_ctx_loop (n i : nat) (cf : can_frame) : M ctx_ptr :=
  match n with
  | O => mret None
  | S n' =>
      c ← load_ctx i;
      if ndx c =? PANDA_CTX_FREE then
        store_ndx i (u32 (Z.of_nat i));;
        store_dlc i (can_dlc cf);;
        atomic_dec;;
        mret (Some i)
      else panda_usb_get_free_ctx_loop n' (S i) cf
  end.

Definition panda_usb_get_free_ctx (cf : can_frame) : M ctx_ptr :=
  ctx ← panda_usb_get_free_ctx_loop PANDA_MAX_TX_URBS 0 cf;
  n ← atomic_read;
  printk (MsgCtxNum n);;
  n' ← atomic_read;
  when (n' =? 0) (printk MsgSendingTooFast;; netif_stop_queue);;
  mret ctx.

Definition panda_usb_free_ctx (ctx : ctx_ptr) : M unit :=
  match ctx with
  | None => fault
  | Some i =>
      atomic_inc;;
      store_ndx i PANDA_CTX_FREE;;
      netif_wake_queue
  end.

(** ** Bytes and the wire layout *)

Definition byte_of_Z (z : Z) : Byte.byte :=
  match Byte.of_N (Z.to_N (z mod 2 ^ 8)) with
  | Some b => b
  | None => Byte.x00
  end.

Definition Z_of_byte (b : Byte.byte) : Z := Z.of_N (Byte.to_N b).

(** A [u32] in memory on the little-endian host. *)
Definition store_u32 (x : Z) : list Byte.byte :=
  [byte_of_Z x; byte_of_Z (Z.shiftr x 8);
   byte_of_Z (Z.shiftr x 16); byte_of_Z (Z.shiftr x 24)].

Definition load_u32 (bs : list Byte.byte) : Z :=
  match bs with
  | [b0; b1; b2; b3] =>
      Z.lor (Z_of_byte b0)
        (Z.lor (Z.shiftl (Z_of_byte b1) 8)
           (Z.lor (Z.shiftl (Z_of_byte b2) 16) (Z.shiftl (Z_of_byte b3) 24)))
  | _ => 0
  end.

(** The sixteen bytes of a [struct panda_usb_can_msg] ([__packed]). *)
Definition msg_bytes (m : panda_usb_can_msg) : list Byte.byte :=
  store_u32 (rir m) ++ store_u32 (bus_dat_len m) ++ msg_data m.

(** The struct seen through a pointer to sixteen bytes. *)
Definition msg_of_bytes (bs : list Byte.byte) : panda_usb_can_msg :=
  mk_can_msg (load_u32 (take 4 bs)) (load_u32 (take 4 (drop 4 bs))) (drop 8 bs).

(** [memcpy(dst, src, n)]: the new contents of [dst]; reading or writing
    past the end of either array has no result. *)
Definition memcpy (dst src : list Byte.byte) (n : Z) : M (list Byte.byte) :=
  if (0 <=? n) && (n <=? Z.of_nat (length src)) && (n <=? Z.of_nat (length dst))
  then mret (take (Z.to_nat n) src ++ drop (Z.to_nat n) dst)
  else fault.

Definition zero_bytes (n : nat) : list Byte.byte := replicate n Byte.x00.

(** ** The codec *)

(** [get_can_dlc] of [linux/can/dev.h]: [min_t(__u8, i, CAN_MAX_DLC)]. *)
Definition get_can_dlc (i : Z) : Z := Z.min (u8 i) CAN_MAX_DLC.

(** Lines 420-428 of [panda_usb_start_xmit]: the fields of [usb_msg], which
    starts zeroed ([= {}]), with local [bus = 0]. *)
Definition panda_pack_rir (cf : can_frame) : Z :=
  if negb (Z.land (can_id cf) CAN_EFF_FLAG =? 0) then
    cpu_to_le32
      (Z.lor (Z.lor (u32 (Z.shiftl (Z.land (can_id cf) 0x1FFFFFFF) 3))
                PANDA_CAN_TRANSMIT) PANDA_CAN_EXTENDED)
  else
    cpu_to_le32
      (Z.lor (u32 (Z.shiftl (Z.land (can_id cf) 0x7FF) 21)) PANDA_CAN_TRANSMIT).

Definition panda_pack_bus_dat_len (cf : can_frame) : Z :=
  let bus := 0 in
  cpu_to_le32 (Z.lor (Z.land (can_dlc cf) 0x0F) (Z.shiftl bus 4)).

Definition panda_pack (cf : can_frame) : M panda_usb_can_msg :=
  d ← memcpy (zero_bytes 8) (data cf) (can_dlc cf);
  mret (mk_can_msg (panda_pack_rir cf) (panda_pack_bus_dat_len cf) d).

(** Lines 235-247 of [panda_usb_process_can_rx]: the fields of [cf], which
    [alloc_can_skb] hands over zeroed. *)
Definition panda_unpack_can_id (msg : panda_usb_can_msg) : Z :=
  if negb (Z.land (rir msg) PANDA_CAN_EXTENDED =? 0) then
    Z.lor (Z.shiftr (rir msg) 3) CAN_EFF_FLAG
  else
    Z.shiftr (rir msg) 21.

Definition panda_unpack_can_dlc (msg : panda_usb_can_msg) : Z :=
  get_can_dlc (Z.land (bus_dat_len msg) PANDA_DLC_MASK).

Definition panda_unpack (msg : panda_usb_can_msg) : M can_frame :=
  let id := panda_unpack_can_id msg in
  let n := panda_unpack_can_dlc msg in
  d ← memcpy (zero_bytes 8) (msg_data msg) n;
  mret (mk_can_frame id n d).

(** ** Statistics *)

Definition inc_rx_packets : M unit :=
  modify_stats (fun s => mk_stats (ulong (rx_packets s + 1)) (rx_bytes s)
                           (tx_packets s) (tx_bytes s) (tx_dropped s)
                           (tx_aborted_errors s));;
  emit EvStatRxPackets.

Definition add_rx_bytes (n : Z) : M unit :=
  modify_stats (fun s => mk_stats (rx_packets s) (ulong (rx_bytes s + n))
                           (tx_packets s) (tx_bytes s) (tx_dropped s)
                           (tx_aborted_errors s));;
  emit (EvStatRxBytes n).

Definition inc_tx_packets : M unit :=
  modify_stats (fun s => mk_stats (rx_packets s) (rx_bytes s)
                           (ulong (tx_packets s + 1)) (tx_bytes s) (tx_dropped s)
                           (tx_aborted_errors s));;
  emit EvStatTxPackets.

Definition add_tx_bytes (n : Z) : M unit :=
  modify_stats (fun s => mk_stats (rx_packets s) (rx_bytes s)
                           (tx_packets s) (ulong (tx_bytes s + n)) (tx_dropped s)
                           (tx_aborted_errors s));;
  emit (EvStatTxBytes n).

Definition inc_tx_dropped : M unit :=
  modify_stats (fun s => mk_stats (rx_packets s) (rx_bytes s)
                           (tx_packets s) (tx_bytes s) (ulong (tx_dropped s + 1))
                           (tx_aborted_errors s));;
  emit EvStatTxDropped.

Definition inc_tx_aborted_errors : M unit :=
  modify_stats (fun s => mk_stats (rx_packets s) (rx_bytes s)
                           (tx_packets s) (tx_bytes s) (tx_dropped s)
                           (ulong (tx_aborted_errors s + 1)));;
  emit EvStatTxAborted.

(** ** Echo buffers and validity check of the CAN core *)

Definition load_echo_skb (idx : Z) : M (option sk_buff) :=
  p ← get_priv;
  if idx <? 0 then fault else
  match echo_skb (netdev p) !! Z.to_nat idx with
  | Some e => mret e
  | None => fault
  end.

Definition store_echo_skb (idx : Z) (e : option sk_buff) : M unit :=
  modify_netdev (fun d => set_echo_skb (<[Z.to_nat idx := e]> (echo_skb d)) d).

(** [can_put_echo_skb] for a loopback buffer that is not shared:
    [BUG_ON(idx >= echo_skb_max)], then the buffer is kept for the echo,
    or logged and freed when the entry is occupied. *)
Definition can_put_echo_skb (skb : sk_buff) (idx : Z) : M unit :=
  emit (EvCanPutEchoSkb idx);;
  e ← load_echo_skb idx;
  match e with
  | None => store_echo_skb idx (Some skb)
  | Some _ => emit (EvLog MsgEchoSkbOccupied);; emit (EvKfreeSkb skb)
  end.

(** [can_get_echo_skb]: the stored buffer is looped back and the entry
    cleared. *)
Definition can_get_echo_skb (idx : Z) : M unit :=
  emit (EvCanGetEchoSkb idx);;
  e ← load_echo_skb idx;
  match e with
  | Some skb => emit (EvNetifRx (skb_frame skb));; store_echo_skb idx None
  | None => mret tt
  end.

(** [can_free_echo_skb]: the stored buffer is freed and the entry
    cleared. *)
Definition can_free_echo_skb (idx : Z) : M unit :=
  emit (EvCanFreeEchoSkb idx);;
  e ← load_echo_skb idx;
  match e with
  | Some skb => emit (EvKfreeSkb skb);; store_echo_skb idx None
  | None => mret tt
  end.

(** [can_flush_echo_skb] of the CAN core, which [close_candev] runs: every
    occupied entry of the echo array is freed and cleared, and counted in
    [tx_dropped] and [tx_aborted_errors].  [n] entries from index [i]; the
    array has the [echo_skb_max] entries [alloc_candev] was asked for. *)
Fixpoint can_flush_echo_skb_loop (n i : nat) : M unit :=
  match n with
  | O => mret tt
  | S n' =>
      e ← load_echo_skb (Z.of_nat i);
      match e with
      | Some skb =>
          emit (EvKfreeSkb skb);;
          store_echo_skb (Z.of_nat i) None;;
          inc_tx_dropped;;
          inc_tx_aborted_errors
      | None => mret tt
      end;;
      can_flush_echo_skb_loop n' (S i)
  end.

Definition can_flush_echo_skb : M unit :=
  p ← get_priv;
  can_flush_echo_skb_loop (length (echo_skb (netdev p))) 0.

(** [can_dropped_invalid_skb] on a classic CAN device: a buffer that is not
    a CAN buffer or whose length code exceeds [CAN_MAX_DLEN] is freed and
    counted in [tx_dropped]. *)
Definition can_dropped_invalid_skb (skb : sk_buff) : M bool :=
  if skb_is_can skb && (can_dlc (skb_frame skb) <=? CAN_MAX_DLEN) then mret false
  else emit (EvKfreeSkb skb);; inc_tx_dropped;; mret true.

(** ** Transmit *)

(** What the USB core answers to one [panda_usb_xmit]. *)
Record usb_outcome := mk_outcome {
  alloc_urb_ok : bool;
  alloc_coherent_ok : bool;
  submit_err : Z
}.

Definition usb_anchor_urb (u : urb) : M unit :=
  modify_priv (fun p => set_tx_submitted (tx_submitted p ++ [u]) p).

(** Unanchors the URB anchored last. *)
Definition usb_unanchor_urb : M unit :=
  modify_priv (fun p => set_tx_submitted (removelast (tx_submitted p)) p).

Definition panda_usb_write_bulk_callback (u : urb) : M unit :=
  let ctx := urb_context u in
  when (bool_decide (ctx = None)) (emit EvWarnOn);;
  match ctx with
  | None => fault
  | Some i =>
      emit EvUsbFreeCoherent;;
      present ← netif_device_present;
      if negb present then mret tt else
      inc_tx_packets;;
      c ← load_ctx i;
      add_tx_bytes (dlc c);;
      c' ← load_ctx i;
      can_get_echo_skb (ndx c');;
      when (negb (urb_status u =? 0)) (emit (EvLog (MsgTxUrbAborted (urb_status u))));;
      panda_usb_free_ctx ctx
  end.

Definition panda_usb_xmit (o : usb_outcome) (usb_msg : panda_usb_can_msg)
    (ctx : ctx_ptr) : M Z :=
  if negb (alloc_urb_ok o) then mret (- ENOMEM) else
  if negb (alloc_coherent_ok o) then emit EvUsbFreeUrb;; mret (- ENOMEM) else
  buf ← memcpy (zero_bytes 16) (msg_bytes usb_msg) PANDA_USB_TX_BUFF_SIZE;
  usb_anchor_urb (mk_urb ctx 0 0 buf);;
  emit (EvUsbSubmitUrb buf);;
  let err := submit_err o in
  if negb (err =? 0) then
    usb_unanchor_urb;;
    emit EvUsbFreeCoherent;;
    (if err =? - ENODEV then netif_device_detach
     else emit (EvLog (MsgFailedTxUrb err)));;
    emit EvUsbFreeUrb;;
    mret err
  else
    emit EvUsbFreeUrb;;
    mret 0.

Definition NETDEV_TX_OK : Z := 0.

Definition panda_usb_start_xmit (o : usb_outcome) (skb : sk_buff) : M Z :=
  let cf := skb_frame skb in
  dropped ← can_dropped_invalid_skb skb;
  if (dropped : bool) then printk MsgInvalidCanPacket;; mret NETDEV_TX_OK
  else (
    ctx ← panda_usb_get_free_ctx cf;
    match ctx : ctx_ptr with
    | None => fault
    | Some i =>
        c ← load_ctx i;
        can_put_echo_skb skb (ndx c);;
        usb_msg ← panda_pack cf;
        emit (EvLog (MsgReceivedFromSocket (can_id cf) (can_dlc cf)));;
        err ← panda_usb_xmit o usb_msg ctx;
        if negb (err =? 0) then
          c' ← load_ctx i;
          can_free_echo_skb (ndx c');;
          panda_usb_free_ctx ctx;;
          emit (EvKfreeSkb skb);;
          inc_tx_dropped;;
          mret NETDEV_TX_OK
        else mret NETDEV_TX_OK
    end).

(** ** Receive *)

(** [skb_ok] is whether [alloc_can_skb] returns a buffer. *)
Definition panda_usb_process_can_rx (skb_ok : bool) (msg : panda_usb_can_msg) : M unit :=
  if negb skb_ok then mret tt else
  cf ← panda_unpack msg;
  inc_rx_packets;;
  add_rx_bytes (can_dlc cf);;
  emit (EvNetifRx cf).

(** The message at byte offset [pos] of the transfer buffer. *)
Definition msg_at (buf : list Byte.byte) (pos : Z) : M panda_usb_can_msg :=
  let bs := take 16 (drop (Z.to_nat pos) buf) in
  if (0 <=? pos) && (length bs =? 16)%nat then mret (msg_of_bytes bs) else fault.

(** The [while] loop of [panda_usb_read_int_callback].  [pos] is an [int],
    compared as [u32] with [actual_length] and added to as [size_t];
    [alloc_ok k] is the outcome of the [k]-th [alloc_can_skb] of this
    call.  A loop that outlives [fuel] iterations has no result. *)
Fixpoint panda_usb_read_int_loop (fuel : nat) (alloc_ok : nat -> bool) (u : urb)
    (pos : Z) (num_recv : nat) : M unit :=
  match fuel with
  | O => fault
  | S fuel' =>
      if u32 pos <? actual_length u then
        if ulong (ulong pos + 16) >? actual_length u then
          emit (EvLog MsgFormatError)
        else
          msg ← msg_at (transfer_buffer u) pos;
          panda_usb_process_can_rx (alloc_ok num_recv) msg;;
          panda_usb_read_int_loop fuel' alloc_ok u (s32 (ulong pos + 16)) (S num_recv)
      else mret tt
  end.

(** The [resubmit_urb] tail: [retval] is what [usb_submit_urb] returns. *)
Definition panda_usb_resubmit_read (retval : Z) : M unit :=
  emit EvUsbResubmitRead;;
  if retval =? - ENODEV then netif_device_detach
  else when (negb (retval =? 0)) (emit (EvLog (MsgFailedResubmit retval))).

Definition panda_usb_read_int_callback (alloc_ok : nat -> bool) (retval : Z)
    (u : urb) : M unit :=
  present ← netif_device_present;
  if negb present then mret tt else
  if urb_status u =? 0 then
    panda_usb_read_int_loop (S (Z.to_nat (actual_length u))) alloc_ok u 0 0;;
    panda_usb_resubmit_read retval
  else if (urb_status u =? - ENOENT) || (urb_status u =? - ESHUTDOWN) then mret tt
  else
    emit (EvLog (MsgRxUrbAborted (urb_status u)));;
    panda_usb_resubmit_read retval.

(** ** The pool protocol *)

(** A pool together with the handles that were handed out by
    [panda_usb_get_free_ctx] and not yet given back, newest first.  A handle
    is the index of the context it points to. *)
Record pool_state := mk_pool {
  pool_world : world;
  live : list nat
}.

Inductive pool_op :=
| Acquire (cf : can_frame)
| Release (h : nat).

(** Gives back one handle: its first occurrence leaves the list. *)
Fixpoint remove_handle (h : nat) (l : list nat) : list nat :=
  match l with
  | [] => []
  | x :: l' => if bool_decide (x = h) then l' else x :: remove_handle h l'
  end.

(** One call.  A release of a handle that is not live is outside the
    protocol and has no successor state. *)
Definition pool_step (op : pool_op) (st : pool_state) : option pool_state :=
  match op with
  | Acquire cf =>
      match panda_usb_get_free_ctx cf (pool_world st) with
      | Some (Some h, w') => Some (mk_pool w' (h :: live st))
      | Some (None, w') => Some (mk_pool w' (live st))
      | None => None
      end
  | Release h =>
      if bool_decide (h ∈ live st) then
        match panda_usb_free_ctx (Some h) (pool_world st) with
        | Some (_, w') => Some (mk_pool w' (remove_handle h (live st)))
        | None => None
        end
      else None
  end.

(** The states a device passes through: [panda_init_ctx] on a device whose
    context array has its [PANDA_MAX_TX_URBS] entries, then calls that
    respect the protocol. *)
Inductive pool_reachable : pool_state -> Prop :=
| reach_init w0 w :
    length (tx_context (priv w0)) = PANDA_MAX_TX_URBS ->
    panda_init_ctx w0 = Some (tt, w) ->
    pool_reachable (mk_pool w [])
| reach_step op st st' :
    pool_reachable st ->
    pool_step op st = Some st' ->
    pool_reachable st'.

(** The slot index a handle references: the [ndx] field behind it. *)
Definition slot_index (w : world) (h : nat) : option Z :=
  ndx <$> tx_context (priv w) !! h.

Definition is_free (c : panda_usb_ctx) : bool := ndx c =? PANDA_CTX_FREE.

(** The world [panda_usb_get_free_ctx]'s loop leaves when it takes slot [h]. *)
Definition reserve (h : nat) (cf : can_frame) (w : world) : world :=
  mk_world
    (set_free_ctx_cnt (s32 (free_ctx_cnt (priv w) - 1))
       (set_tx_context
          (<[h := mk_ctx (u32 (Z.of_nat h)) (can_dlc cf)]> (tx_context (priv w)))
          (priv w)))
    (trace w ++ [EvStoreNdx h (u32 (Z.of_nat h)); EvStoreDlc h (can_dlc cf); EvAtomicDec]).

(** [e1] occurs in the trace and [e2] occurs later. *)
Definition occurs_before (e1 e2 : event) (t : list event) : Prop :=
  exists t1 t2 t3, t = t1 ++ e1 :: t2 ++ e2 :: t3.

(** The events a call appended to the trace. *)
Definition events_since (w w' : world) : list event :=
  drop (length (trace w)) (trace w').

(** A device as [alloc_candev] leaves it: the private data zeroed, the
    echo array of [PANDA_MAX_TX_URBS] empty entries. *)
Definition fresh_netdev : net_device :=
  mk_netdev (mk_stats 0 0 0 0 0 0) false true (replicate PANDA_MAX_TX_URBS None).

Definition probed_world : world :=
  mk_world (mk_priv (replicate PANDA_MAX_TX_URBS (mk_ctx 0 0)) 0 fresh_netdev []) [].

(** The device after [panda_init_ctx]. *)
Definition fresh_world : world :=
  match panda_init_ctx probed_world with
  | Some (_, w) => w
  | None => probed_world
  end.

(** The world after the tail of [panda_usb_get_free_ctx]: the count is read
    twice and, when it is zero, the queue is stopped. *)
Definition check_last (w : world) : world :=
  let n := free_ctx_cnt (priv w) in
  mk_world
    (set_netdev
       (set_queue_stopped (if n =? 0 then true else queue_stopped (netdev (priv w)))
          (netdev (priv w)))
       (priv w))
    (trace w ++ [EvAtomicRead n] ++ [EvLog (MsgCtxNum n)] ++ [EvAtomicRead n] ++
       (if n =? 0 then [EvLog MsgSendingTooFast; EvNetifStopQueue] else [])).

(** The world after [panda_usb_free_ctx] on slot [h], whose recorded length
    code is [d]. *)
Definition released (h : nat) (d : Z) (w : world) : world :=
  mk_world
    (set_netdev (set_queue_stopped false (netdev (priv w)))
       (set_tx_context (<[h := mk_ctx PANDA_CTX_FREE d]> (tx_context (priv w)))
          (set_free_ctx_cnt (s32 (free_ctx_cnt (priv w) + 1)) (priv w))))
    (trace w ++ [EvAtomicInc; EvStoreNdx h PANDA_CTX_FREE; EvNetifWakeQueue]).

(** What the pool protocol maintains. *)
Definition pool_inv (st : pool_state) : Prop :=
  let ctxs := tx_context (priv (pool_world st)) in
  length ctxs = PANDA_MAX_TX_URBS /\
  NoDup (live st) /\
  (forall h, h ∈ live st -> (h < PANDA_MAX_TX_URBS)%nat) /\
  (forall i c, ctxs !! i = Some c ->
     if bool_decide (i ∈ live st) then ndx c = Z.of_nat i else ndx c = PANDA_CTX_FREE) /\
  free_ctx_cnt (priv (pool_world st)) =
    Z.of_nat PANDA_MAX_TX_URBS - Z.of_nat (length (live st)).

(** A pool with slots [0] to [18] busy and slot [19] free. *)
Definition one_free_world : world :=
  mk_world
    (mk_priv (map (fun i => mk_ctx (Z.of_nat i) 0) (seq 0 19) ++ [mk_ctx PANDA_CTX_FREE 0])
       1 fresh_netdev [])
    [].

(** A pool with slot [0] busy and the others free. *)
Definition one_busy_world : world :=
  mk_world
    (mk_priv (mk_ctx 0 3 :: replicate 19 (mk_ctx PANDA_CTX_FREE 0))
       19 fresh_netdev [])
    [].

(** A sequence of calls, run from a state; [None] when a call is outside
    the protocol. *)
Fixpoint run_pool (ops : list pool_op) (st : pool_state) : option pool_state :=
  match ops with
  | [] => Some st
  | op :: ops' =>
      match pool_step op st with
      | Some st' => run_pool ops' st'
      | None => None
      end
  end.

(** The order of effects of a release as "mark free, then count, then
    wake". *)
Definition mark_then_count_then_wake (h : nat) (t : list event) : Prop :=
  occurs_before (EvStoreNdx h PANDA_CTX_FREE) EvAtomicInc t /\
  occurs_before EvAtomicInc EvNetifWakeQueue t.

(** A standard frame with identifier [0x123] and three payload bytes. *)
Definition frame_123 : can_frame :=
  mk_can_frame 0x123 3
    [Byte.x11; Byte.x22; Byte.x33; Byte.x00; Byte.x00; Byte.x00; Byte.x00; Byte.x00].

Definition sample_ops : list pool_op :=
  [Acquire frame_123; Acquire frame_123; Release 0%nat; Acquire frame_123].

(** The pool after [sample_ops] on a fresh device. *)
Definition sample_pool : pool_state :=
  match run_pool sample_ops (mk_pool fresh_world []) with
  | Some st => st
  | None => mk_pool fresh_world []
  end.

(** ** Reading a frame *)

Definition CAN_EFF_MASK : Z := 0x1FFFFFFF.
Definition CAN_SFF_MASK : Z := 0x7FF.

(** The extended flag, the arbitration identifier and the payload of a
    [struct can_frame]. *)
Definition frame_extended (cf : can_frame) : bool :=
  negb (Z.land (can_id cf) CAN_EFF_FLAG =? 0).

Definition frame_id (cf : can_frame) : Z :=
  Z.land (can_id cf) (if frame_extended cf then CAN_EFF_MASK else CAN_SFF_MASK).

Definition frame_payload (cf : can_frame) : list Byte.byte :=
  take (Z.to_nat (can_dlc cf)) (data cf).

(** The length code field of a wire message. *)
Definition msg_dlc_field (msg : panda_usb_can_msg) : Z :=
  Z.land (bus_dat_len msg) PANDA_DLC_MASK.

(** An extended frame with all eight payload bytes. *)
Definition frame_ext : can_frame :=
  mk_can_frame 0x9ABCDEF1 8
    [Byte.x01; Byte.x02; Byte.x03; Byte.x04; Byte.x05; Byte.x06; Byte.x07; Byte.x08].

(** A wire message whose length code field is 15. *)
Definition msg_dlc15 : panda_usb_can_msg :=
  mk_can_msg 0x24600001 0x0F
    [Byte.x01; Byte.x02; Byte.x03; Byte.x04; Byte.x05; Byte.x06; Byte.x07; Byte.x08].

(** A transmit URB that completed for slot [0], and a device that was
    detached while slot [0] was in flight. *)
Definition completed_urb : urb := mk_urb (Some 0%nat) 0 16 (zero_bytes 16).

Definition detached_world : world :=
  mk_world
    (set_netdev (set_device_present false (netdev (priv one_busy_world)))
       (priv one_busy_world))
    [].

(** Whether [panda_usb_xmit] fails under an answer of the USB core: no
    URB, no buffer, or a non-zero result of [usb_submit_urb]. *)
Definition xmit_fails (o : usb_outcome) : bool :=
  negb (alloc_urb_ok o) || negb (alloc_coherent_ok o) || negb (submit_err o =? 0).

(** A classic CAN buffer holding [frame_123], and answers of the USB core:
    everything succeeds, or [usb_submit_urb] answers [-ENODEV]. *)
Definition skb_123 : sk_buff := mk_skb true frame_123.
Definition usb_ok : usb_outcome := mk_outcome true true 0.
Definition usb_gone : usb_outcome := mk_outcome true true (- ENODEV).

(** A pool with every slot busy. *)
Definition full_world : world :=
  mk_world
    (mk_priv (map (fun i => mk_ctx (Z.of_nat i) 0) (seq 0 PANDA_MAX_TX_URBS))
       0 fresh_netdev [])
    [].

(** ** Reading a receive buffer *)

(** The [k]-th sixteen-byte message of a buffer. *)
Definition nth_msg (buf : list Byte.byte) (k : nat) : panda_usb_can_msg :=
  msg_of_bytes (take 16 (drop (16 * k) buf)).

(** The complete messages at the head of a received buffer: one for every
    sixteen bytes that fit in [actual_length]. *)
Definition complete_messages (u : urb) : list panda_usb_can_msg :=
  map (nth_msg (transfer_buffer u)) (seq 0 (Z.to_nat (actual_length u / 16))).

(** The frame [panda_usb_process_can_rx] builds from a message. *)
Definition unpacked (msg : panda_usb_can_msg) : can_frame :=
  mk_can_frame (panda_unpack_can_id msg) (panda_unpack_can_dlc msg)
    (take (Z.to_nat (panda_unpack_can_dlc msg)) (msg_data msg)
       ++ drop (Z.to_nat (panda_unpack_can_dlc msg)) (zero_bytes 8)).

(** [panda_usb_process_can_rx] on each message of a list in order, the
    [k]-th allocation first. *)
Fixpoint deliver_all (alloc_ok : nat -> bool) (k : nat)
    (msgs : list panda_usb_can_msg) : M unit :=
  match msgs with
  | [] => mret tt
  | m :: ms => panda_usb_process_can_rx (alloc_ok k) m;; deliver_all alloc_ok (S k) ms
  end.

(** The events of [deliver_all]. *)
Fixpoint rx_events (alloc_ok : nat -> bool) (k : nat)
    (msgs : list panda_usb_can_msg) : list event :=
  match msgs with
  | [] => []
  | m :: ms =>
      (if alloc_ok k
       then [EvStatRxPackets; EvStatRxBytes (panda_unpack_can_dlc m); EvNetifRx (unpacked m)]
       else [])
      ++ rx_events alloc_ok (S k) ms
  end.

(** The frames handed to [netif_rx], in order. *)
Definition delivered (t : list event) : list can_frame :=
  omap (fun e => match e with EvNetifRx cf => Some cf | _ => None end) t.

(** The frames of the messages that got a buffer. *)
Fixpoint expected_frames (alloc_ok : nat -> bool) (k : nat)
    (msgs : list panda_usb_can_msg) : list can_frame :=
  match msgs with
  | [] => []
  | m :: ms =>
      (if alloc_ok k then [unpacked m] else []) ++ expected_frames alloc_ok (S k) ms
  end.

(** The events of [panda_usb_resubmit_read]. *)
Definition resubmit_events (retval : Z) : list event :=
  EvUsbResubmitRead ::
  (if retval =? - ENODEV then [EvNetifDeviceDetach]
   else if retval =? 0 then [] else [EvLog (MsgFailedResubmit retval)]).

(** A received buffer of forty bytes: a message for [frame_123], a message
    with length code field 15, and eight bytes of a third. *)
Definition partial_urb : urb :=
  mk_urb None 0 40
    (msg_bytes (mk_can_msg (panda_pack_rir frame_123) 3 (data frame_123))
       ++ msg_bytes msg_dlc15 ++ replicate 32 Byte.xff).

(** ** Counting the pool *)

(** The indices of the slots whose [ndx] is [PANDA_CTX_FREE]. *)
Definition free_slots (w : world) : list nat :=
  filter (fun i => slot_index w i = Some PANDA_CTX_FREE) (seq 0 PANDA_MAX_TX_URBS).

(** From [linux/can.h]: the remote-request and error-frame flags of
    [can_id]. *)
Definition CAN_RTR_FLAG : Z := 0x40000000.
Definition CAN_ERR_FLAG : Z := 0x20000000.

(** [struct can_frame] with another [can_id]. *)
Definition with_can_id (id : Z) (cf : can_frame) : can_frame :=
  mk_can_frame id (can_dlc cf) (data cf).

(** A receive URB holding [bs] followed by padding up to the buffer size,
    of which [n] bytes were received. *)
Definition rx_urb (bs : list Byte.byte) (n : Z) : urb :=
  mk_urb None 0 n (bs ++ zero_bytes (Z.to_nat PANDA_USB_RX_BUFF_SIZE - length bs)).


(** A receive URB that completed with an error status ([-EPROTO]), and an
    empty one that completed without error. *)
Definition failed_urb : urb := mk_urb None (- 71) 16 (transfer_buffer partial_urb).
Definition empty_urb : urb := mk_urb None 0 0 (transfer_buffer partial_urb).

(** ** The device around the transfer engine *)

(** [enum can_state], as far as the driver sets it. *)
Inductive can_state := CAN_STATE_ERROR_ACTIVE | CAN_STATE_STOPPED.

Definition PANDA_BITRATE : Z := 500000.

(** What the lifecycle functions ask of the kernel, in order. *)
Inductive lifecycle_event :=
| LvAllocCandev
| LvFreeCandev
| LvRegisterCandev
| LvUnregisterCandev
| LvSetIntfdata (set : bool)
| LvOpenCandev
| LvCloseCandev
| LvNetifStartQueue
| LvSetInterface
| LvAllocUrb
| LvFreeUrb
| LvAllocCoherent
| LvFreeCoherent
| LvSubmitReadUrb
| LvKillRxUrbs
| LvKillTxUrbs
| LvControlMsg (value : Z)
| LvLog (what : Z).

#[global] Instance lifecycle_event_eq_dec : EqDecision lifecycle_event.
Proof. solve_decision. Defined.

(** The transfer engine's world together with the rest of [struct
    panda_priv] and of the network device: [can.state],
    [can.bittiming.bitrate], the [rx_submitted] anchor, the [IFF_ECHO]
    flag; and, on the kernel's side, whether the memory of the network
    device (which holds [struct panda_priv]) is allocated, whether the
    device is registered, whether the USB interface points to it, the
    requests made to the kernel, and the receive URBs the USB core holds:
    those submitted and not yet given back. *)
Record device := mk_device {
  dev_world : world;
  dev_can_state : can_state;
  dev_bitrate : Z;
  rx_submitted : list urb;
  dev_echo_flag : bool;
  dev_allocated : bool;
  dev_registered : bool;
  dev_intfdata : bool;
  dev_log : list lifecycle_event;
  rx_in_flight : list urb
}.

Definition L (A : Type) : Type := device -> option (A * device).

#[global] Instance L_ret : MRet L := fun A a d => Some (a, d).
#[global] Instance L_bind : MBind L := fun A B k m d =>
  match m d with
  | Some (a, d') => k a d'
  | None => None
  end.

Definition set_dev_world (w : world) (d : device) : device :=
  mk_device w (dev_can_state d) (dev_bitrate d) (rx_submitted d) (dev_echo_flag d)
    (dev_allocated d) (dev_registered d) (dev_intfdata d) (dev_log d) (rx_in_flight d).
Definition set_can_state (s : can_state) (d : device) : device :=
  mk_device (dev_world d) s (dev_bitrate d) (rx_submitted d) (dev_echo_flag d)
    (dev_allocated d) (dev_registered d) (dev_intfdata d) (dev_log d) (rx_in_flight d).
Definition set_bitrate (b : Z) (d : device) : device :=
  mk_device (dev_world d) (dev_can_state d) b (rx_submitted d) (dev_echo_flag d)
    (dev_allocated d) (dev_registered d) (dev_intfdata d) (dev_log d) (rx_in_flight d).
Definition set_rx_submitted (l : list urb) (d : device) : device :=
  mk_device (dev_world d) (dev_can_state d) (dev_bitrate d) l (dev_echo_flag d)
    (dev_allocated d) (dev_registered d) (dev_intfdata d) (dev_log d) (rx_in_flight d).
Definition set_echo_flag (b : bool) (d : device) : device :=
  mk_device (dev_world d) (dev_can_state d) (dev_bitrate d) (rx_submitted d) b
    (dev_allocated d) (dev_registered d) (dev_intfdata d) (dev_log d) (rx_in_flight d).
Definition set_allocated (b : bool) (d : device) : device :=
  mk_device (dev_world d) (dev_can_state d) (dev_bitrate d) (rx_submitted d)
    (dev_echo_flag d) b (dev_registered d) (dev_intfdata d) (dev_log d) (rx_in_flight d).
Definition set_registered (b : bool) (d : device) : device :=
  mk_device (dev_world d) (dev_can_state d) (dev_bitrate d) (rx_submitted d)
    (dev_echo_flag d) (dev_allocated d) b (dev_intfdata d) (dev_log d) (rx_in_flight d).
Definition set_intfdata (b : bool) (d : device) : device :=
  mk_device (dev_world d) (dev_can_state d) (dev_bitrate d) (rx_submitted d)
    (dev_echo_flag d) (dev_allocated d) (dev_registered d) b (dev_log d)
    (rx_in_flight d).
Definition set_rx_in_flight (l : list urb) (d : device) : device :=
  mk_device (dev_world d) (dev_can_state d) (dev_bitrate d) (rx_submitted d)
    (dev_echo_flag d) (dev_allocated d) (dev_registered d) (dev_intfdata d) (dev_log d) l.

(** The kernel's bookkeeping, outside the device memory. *)
Definition modify_dev (f : device -> device) : L unit := fun d => Some (tt, f d).

Definition get_dev : L device := fun d => Some (d, d).

(** Accesses to the memory of the network device.  Between [free_candev]
    and the next [alloc_candev] they are undefined behaviour. *)
Definition load_dev : L device :=
  fun d => if dev_allocated d then Some (d, d) else None.

Definition store_dev (f : device -> device) : L unit :=
  fun d => if dev_allocated d then Some (tt, f d) else None.

Definition request (e : lifecycle_event) : L unit :=
  fun d =>
    Some (tt, mk_device (dev_world d) (dev_can_state d) (dev_bitrate d) (rx_submitted d)
                (dev_echo_flag d) (dev_allocated d) (dev_registered d) (dev_intfdata d)
                (dev_log d ++ [e]) (rx_in_flight d)).

(** A computation of the transfer engine, run on the device's world; it
    works on [struct panda_priv] and the network device. *)
Definition lift {A} (m : M A) : L A :=
  fun d =>
    if dev_allocated d then
      match m (dev_world d) with
      | Some (a, w') => Some (a, set_dev_world w' d)
      | None => None
      end
    else None.

(** The requests a call appended to the log. *)
Definition log_since (d d' : device) : list lifecycle_event :=
  drop (length (dev_log d)) (dev_log d').

Definition count_event (e : lifecycle_event) (l : list lifecycle_event) : nat :=
  length (filter (fun x => x = e) l).

#[global] Instance byte_eq_dec : EqDecision Byte.byte := Byte.byte_eq_dec.

#[global] Instance urb_eq_dec : EqDecision urb.
Proof. solve_decision. Defined.

(** One URB leaves a list of URBs: its first occurrence. *)
Fixpoint remove_urb (u : urb) (l : list urb) : list urb :=
  match l with
  | [] => []
  | x :: l' => if bool_decide (x = u) then l' else x :: remove_urb u l'
  end.

Definition is_resubmit (e : event) : bool :=
  match e with
  | EvUsbResubmitRead => true
  | _ => false
  end.

(** The USB core gives a receive URB back ([usb_hcd_giveback_urb]).  [u] is
    the URB as it was submitted, [completed] the same URB with the status,
    the length and the data of the transfer.  The URB leaves the transfers
    in flight; if it is anchored, [usb_unanchor_urb] takes it off its
    anchor; then its completion handler runs.  A URB the handler submits
    again with success ([retval], the answer of its [usb_submit_urb], is
    [0]) is in flight again, and on no anchor: the handler does not call
    [usb_anchor_urb]. *)
Definition usb_giveback_rx (alloc_ok : nat -> bool) (retval : Z)
    (u completed : urb) : L unit :=
  modify_dev (fun d => set_rx_in_flight (remove_urb u (rx_in_flight d)) d);;
  d ← get_dev;
  (if bool_decide (u ∈ rx_submitted d)
   then store_dev (set_rx_submitted (remove_urb u (rx_submitted d)))
   else mret tt);;
  d1 ← get_dev;
  lift (panda_usb_read_int_callback alloc_ok retval completed);;
  d2 ← get_dev;
  if existsb is_resubmit (events_since (dev_world d1) (dev_world d2)) && (retval =? 0)
  then modify_dev (fun d => set_rx_in_flight (rx_in_flight d ++ [completed]) d)
  else mret tt.

(** [usb_kill_anchored_urbs] of the USB core, on an anchor that lies in
    [struct panda_priv]: every URB of the anchor (each is in flight) is
    cancelled, most recently anchored first; it is given back with status
    [-ENOENT] and no data. *)
Definition killed (u : urb) : urb :=
  mk_urb (urb_context u) (- ENOENT) 0 (transfer_buffer u).

Fixpoint kill_each_rx (us : list urb) : L unit :=
  match us with
  | [] => mret tt
  | u :: us' => usb_giveback_rx (fun _ => false) 0 u (killed u);; kill_each_rx us'
  end.

(** The transmit URBs of an anchor, cancelled one after the other. *)
Fixpoint complete_each (handler : urb -> M unit) (us : list urb) : M unit :=
  match us with
  | [] => mret tt
  | u :: us' => handler (killed u);; complete_each handler us'
  end.

Definition usb_kill_anchored_rx : L unit :=
  request LvKillRxUrbs;;
  d ← load_dev;
  kill_each_rx (rev (rx_submitted d)).

Definition usb_kill_anchored_tx : L unit :=
  request LvKillTxUrbs;;
  d ← load_dev;
  lift (complete_each panda_usb_write_bulk_callback
          (rev (tx_submitted (priv (dev_world d)))));;
  lift (modify_priv (set_tx_submitted [])).

(** ** The lifecycle functions *)

Definition panda_urb_unlink : L unit :=
  usb_kill_anchored_rx;;
  usb_kill_anchored_tx.

(** [ret] is what [usb_control_msg] returns. *)
Definition panda_set_output_enable (ret : Z) (enable : bool) : L Z :=
  request (LvControlMsg (if enable then 0x1337 else 0));;
  mret ret.

(** What the USB core answers during [panda_usb_start]. *)
Record start_outcome := mk_start_outcome {
  set_interface_err : Z;
  rx_alloc_urb_ok : bool;
  rx_alloc_coherent_ok : bool;
  rx_submit_err : Z
}.

(** The log messages of the lifecycle functions, by source line. *)
Definition LOG_SET_INTERFACE : Z := 321.
Definition LOG_NO_MEMORY : Z := 334.
Definition LOG_START_SUBMIT : Z := 351.
Definition LOG_ALLOC_CANDEV : Z := 467.
Definition LOG_REGISTER : Z := 498.
Definition LOG_START_FAILED : Z := 504.
Definition LOG_ENABLE_FAILED : Z := 510.
Definition LOG_CONNECTED : Z := 514.
Definition LOG_DISCONNECTED : Z := 534.

(** The receive URB [panda_usb_start] fills: the buffer of
    [PANDA_USB_RX_BUFF_SIZE] bytes, the device as context. *)
Definition rx_poll_urb : urb :=
  mk_urb None 0 0 (zero_bytes (Z.to_nat PANDA_USB_RX_BUFF_SIZE)).

Definition panda_usb_start (o : start_outcome) : L Z :=
  lift panda_init_ctx;;
  request LvSetInterface;;
  if negb (set_interface_err o =? 0) then
    request (LvLog LOG_SET_INTERFACE);; mret (set_interface_err o)
  else
  request LvAllocUrb;;
  if negb (rx_alloc_urb_ok o) then mret (- ENOMEM) else
  request LvAllocCoherent;;
  if negb (rx_alloc_coherent_ok o) then
    request (LvLog LOG_NO_MEMORY);; request LvFreeUrb;; mret (- ENOMEM)
  else
  d ← load_dev;
  store_dev (set_rx_submitted (rx_submitted d ++ [rx_poll_urb]));;
  request LvSubmitReadUrb;;
  if negb (rx_submit_err o =? 0) then
    d' ← load_dev;
    store_dev (set_rx_submitted (removelast (rx_submitted d')));;
    request LvFreeCoherent;;
    request LvFreeUrb;;
    request (LvLog LOG_START_SUBMIT);;
    mret (rx_submit_err o)
  else
  modify_dev (fun d => set_rx_in_flight (rx_in_flight d ++ [rx_poll_urb]) d);;
  request LvFreeUrb;;
  mret 0.

(** [open_err] is what [open_candev] returns. *)
Definition panda_usb_open (open_err : Z) : L Z :=
  request LvOpenCandev;;
  if negb (open_err =? 0) then mret open_err else
  store_dev (set_can_state CAN_STATE_ERROR_ACTIVE);;
  request LvNetifStartQueue;;
  lift (modify_netdev (set_queue_stopped false));;
  mret 0.

(** [close_candev] of the CAN core: the echo array is flushed. *)
Definition close_candev : L unit :=
  request LvCloseCandev;;
  lift can_flush_echo_skb.

Definition panda_usb_close : L Z :=
  store_dev (set_can_state CAN_STATE_STOPPED);;
  lift netif_stop_queue;;
  panda_urb_unlink;;
  close_candev;;
  mret 0.

(** [unregister_candev]: an interface that is up is closed first, through
    the driver's [ndo_stop], which is [panda_usb_close]. *)
Definition unregister_candev (up : bool) : L unit :=
  request LvUnregisterCandev;;
  (if up then panda_usb_close;; mret tt else mret tt);;
  modify_dev (set_registered false).

Definition free_candev : L unit :=
  request LvFreeCandev;;
  modify_dev (set_allocated false).

(** What the kernel answers during [panda_usb_probe]. *)
Record probe_outcome := mk_probe_outcome {
  alloc_candev_ok : bool;
  register_err : Z;
  start_answers : start_outcome;
  control_msg_ret : Z
}.

(** Nobody brings the interface up while [panda_usb_probe] runs. *)
Definition panda_usb_probe (o : probe_outcome) : L Z :=
  request LvAllocCandev;;
  if negb (alloc_candev_ok o) then
    request (LvLog LOG_ALLOC_CANDEV);; mret (- ENOMEM)
  else
  modify_dev (set_allocated true);;
  store_dev (set_rx_submitted []);;
  lift (modify_priv (set_tx_submitted []));;
  request (LvSetIntfdata true);;
  modify_dev (set_intfdata true);;
  store_dev (set_can_state CAN_STATE_STOPPED);;
  store_dev (set_bitrate PANDA_BITRATE);;
  store_dev (set_echo_flag true);;
  request LvRegisterCandev;;
  if negb (register_err o =? 0) then
    request (LvLog LOG_REGISTER);;
    free_candev;;
    mret (register_err o)
  else
  modify_dev (set_registered true);;
  err ← panda_usb_start (start_answers o);
  if negb (err =? 0) then
    request (LvLog LOG_START_FAILED);;
    unregister_candev false;;
    free_candev;;
    mret err
  else
  err' ← panda_set_output_enable (control_msg_ret o) true;
  if negb (err' =? 0) then
    request (LvLog LOG_ENABLE_FAILED);;
    unregister_candev false;;
    free_candev;;
    mret err'
  else
  request (LvLog LOG_CONNECTED);;
  mret 0.

(** [up]: whether the interface is up when the device is removed. *)
Definition panda_usb_disconnect (up : bool) : L unit :=
  request (LvSetIntfdata false);;
  modify_dev (set_intfdata false);;
  load_dev;;
  request (LvLog LOG_DISCONNECTED);;
  unregister_candev up;;
  free_candev;;
  panda_urb_unlink.

(** The USB interface before [panda_usb_probe]: nothing allocated; the
    memory [alloc_candev] will hand out is zeroed. *)
Definition unprobed_device : device :=
  mk_device probed_world CAN_STATE_ERROR_ACTIVE 0 [] false false false false [] [].

Definition all_ok : probe_outcome :=
  mk_probe_outcome true 0 (mk_start_outcome 0 true true 0) 0.

(** The device when [panda_usb_probe] calls [panda_usb_start]. *)
Definition registered_device : device :=
  mk_device probed_world CAN_STATE_STOPPED PANDA_BITRATE [] true true true true [] [].

(** A probed and opened device with two frames in flight. *)
Definition running_device : device :=
  match (panda_usb_probe all_ok;; panda_usb_open 0;;
         lift (panda_usb_start_xmit usb_ok skb_123);;
         lift (panda_usb_start_xmit usb_ok skb_123)) unprobed_device with
  | Some (_, d) => d
  | None => unprobed_device
  end.

(** The device refuses the output-enable request. *)
Definition enable_refused : probe_outcome :=
  mk_probe_outcome true 0 (mk_start_outcome 0 true true 0) (- 32).

Definition submit_refused : start_outcome := mk_start_outcome 0 true true (- ENODEV).

(** [running_device] after its receive URB completed empty and the
    resubmission was answered with [-ENODEV]. *)
Definition detached_device : device :=
  match usb_giveback_rx (fun _ => true) (- ENODEV) rx_poll_urb empty_urb
          running_device with
  | Some (_, d) => d
  | None => running_device
  end.

(** The device as a successful [panda_usb_probe] leaves it. *)
Definition probed_device : device :=
  match panda_usb_probe all_ok unprobed_device with
  | Some (_, d) => d
  | None => unprobed_device
  end.

(** ** The wire records of a received buffer *)

(** A 32-bit little-endian word, byte by byte. *)
Definition le32 (b0 b1 b2 b3 : Byte.byte) : Z :=
  Z_of_byte b0 + 2 ^ 8 * Z_of_byte b1 + 2 ^ 16 * Z_of_byte b2 + 2 ^ 24 * Z_of_byte b3.

(** The message a record of sixteen received bytes carries: [rir] in bytes
    0 to 3 and [bus_dat_len] in bytes 4 to 7, both little-endian, and the
    data in bytes 8 to 15. *)
Definition wire_message (r : list Byte.byte) : option panda_usb_can_msg :=
  match r with
  | [b0; b1; b2; b3; b4; b5; b6; b7; d0; d1; d2; d3; d4; d5; d6; d7] =>
      Some (mk_can_msg (le32 b0 b1 b2 b3) (le32 b4 b5 b6 b7)
              [d0; d1; d2; d3; d4; d5; d6; d7])
  | _ => None
  end.

(** The frame a wire message stands for, in arithmetic.  Bit 2 of [rir]
    tells an extended identifier, held from bit 3 up, from a standard one,
    held from bit 21 up; the low four bits of [bus_dat_len] are the length
    code, of which at most eight counts; the data beyond it are zero. *)
Definition wire_frame (m : panda_usb_can_msg) : can_frame :=
  let n := Z.min (bus_dat_len m mod 16) 8 in
  mk_can_frame
    (if Z.testbit (rir m) 2 then rir m / 8 + 2 ^ 31 else rir m / 2 ^ 21)
    n
    (take (Z.to_nat n) (msg_data m) ++ replicate (8 - Z.to_nat n) Byte.x00).

(** The frames of the messages that get a socket buffer, the [k]-th
    allocation first. *)
Fixpoint wire_frames (alloc_ok : nat -> bool) (k : nat)
    (msgs : list panda_usb_can_msg) : list can_frame :=
  match msgs with
  | [] => []
  | m :: ms =>
      (if alloc_ok k then [wire_frame m] else []) ++ wire_frames alloc_ok (S k) ms
  end.

(** The two complete records of [partial_urb], its eight trailing bytes
    and the unused rest of the buffer. *)
Definition partial_records : list (list Byte.byte) :=
  [[Byte.x01; Byte.x00; Byte.x60; Byte.x24; Byte.x03; Byte.x00; Byte.x00; Byte.x00;
    Byte.x11; Byte.x22; Byte.x33; Byte.x00; Byte.x00; Byte.x00; Byte.x00; Byte.x00];
   [Byte.x01; Byte.x00; Byte.x60; Byte.x24; Byte.x0f; Byte.x00; Byte.x00; Byte.x00;
    Byte.x01; Byte.x02; Byte.x03; Byte.x04; Byte.x05; Byte.x06; Byte.x07; Byte.x08]].
Definition partial_tail : list Byte.byte := replicate 8 Byte.xff.
Definition partial_rest : list Byte.byte := replicate 24 Byte.xff.

(** The messages the two records carry and the frames they decode to. *)
Definition partial_messages : list panda_usb_can_msg :=
  [mk_can_msg 0x24600001 3
     [Byte.x11; Byte.x22; Byte.x33; Byte.x00; Byte.x00; Byte.x00; Byte.x00; Byte.x00];
   mk_can_msg 0x24600001 0x0F
     [Byte.x01; Byte.x02; Byte.x03; Byte.x04; Byte.x05; Byte.x06; Byte.x07; Byte.x08]].

Definition partial_frames : list can_frame :=
  [mk_can_frame 0x123 3
     [Byte.x11; Byte.x22; Byte.x33; Byte.x00; Byte.x00; Byte.x00; Byte.x00; Byte.x00];
   mk_can_frame 0x123 8
     [Byte.x01; Byte.x02; Byte.x03; Byte.x04; Byte.x05; Byte.x06; Byte.x07; Byte.x08]].

(** The number of occupied entries of an echo array. *)
Definition occupied (l : list (option sk_buff)) : nat :=
  length (filter is_Some l).

(** The URBs of [us] leave the list [l] one after the other. *)
Definition remove_urbs (us l : list urb) : list urb :=
  foldl (fun acc u => remove_urb u acc) l us.

(** * Properties *)

Ltac unfold_monad :=
  unfold mbind, M_bind, bind, mret, M_ret, ret, fault, when in *.

Lemma bind_Some {A B} (m : M A) (k : A -> M B) w a w' :
  m w = Some (a, w') -> (m ≫= k) w = k a w'.
Proof. intros H. unfold_monad. by rewrite H. Qed.

Lemma bind_inv {A B} (m : M A) (k : A -> M B) w r :
  (m ≫= k) w = Some r -> exists a w', m w = Some (a, w') /\ k a w' = Some r.
Proof.
  unfold_monad. destruct (m w) as [[a w']|] eqn:E; [|done].
  intros H. by exists a, w'.
Qed.

(** ** Stores into the context array *)

Lemma load_ctx_Some i w c :
  tx_context (priv w) !! i = Some c -> load_ctx i w = Some (c, w).
Proof. intros H. unfold load_ctx, get_priv. unfold_monad. by rewrite H. Qed.

Lemma load_ctx_inv i w c w' :
  load_ctx i w = Some (c, w') -> tx_context (priv w) !! i = Some c /\ w' = w.
Proof.
  unfold load_ctx, get_priv. unfold_monad.
  destruct (tx_context (priv w) !! i); [|done]. by intros [= -> ->].
Qed.

Lemma store_ndx_Some i v w c :
  tx_context (priv w) !! i = Some c ->
  store_ndx i v w =
    Some (tt, mk_world
                (set_tx_context (<[i := mk_ctx v (dlc c)]> (tx_context (priv w))) (priv w))
                (trace w ++ [EvStoreNdx i v])).
Proof.
  intros H. unfold store_ndx. rewrite (bind_Some _ _ _ _ _ (load_ctx_Some _ _ _ H)).
  reflexivity.
Qed.

Lemma store_dlc_Some i v w c :
  tx_context (priv w) !! i = Some c ->
  store_dlc i v w =
    Some (tt, mk_world
                (set_tx_context (<[i := mk_ctx (ndx c) v]> (tx_context (priv w))) (priv w))
                (trace w ++ [EvStoreDlc i v])).
Proof.
  intros H. unfold store_dlc. rewrite (bind_Some _ _ _ _ _ (load_ctx_Some _ _ _ H)).
  reflexivity.
Qed.

(** ** The scan of [panda_usb_get_free_ctx] *)

(** The loop stops at the first free slot from [i] on and reserves it, or
    finds every slot from [i] on busy and changes nothing. *)
Lemma get_free_ctx_loop_spec n i cf w :
  (i + n)%nat = length (tx_context (priv w)) ->
  (exists h c,
      (i <= h < i + n)%nat /\
      tx_context (priv w) !! h = Some c /\ is_free c = true /\
      (forall j c', (i <= j < h)%nat -> tx_context (priv w) !! j = Some c' ->
                    is_free c' = false) /\
      panda_usb_get_free_ctx_loop n i cf w = Some (Some h, reserve h cf w))
  \/ ((forall j c', (i <= j)%nat -> tx_context (priv w) !! j = Some c' ->
                    is_free c' = false) /\
      panda_usb_get_free_ctx_loop n i cf w = Some (None, w)).
Proof.
  revert i. induction n as [|n IH]; intros i Hlen.
  - right. split; [|done].
    intros j c' Hj Hc. apply lookup_lt_Some in Hc. lia.
  - destruct (lookup_lt_is_Some_2 (tx_context (priv w)) i) as [c Hc]; [lia|].
    cbn [panda_usb_get_free_ctx_loop].
    rewrite (bind_Some _ _ _ _ _ (load_ctx_Some _ _ _ Hc)).
    destruct (ndx c =? PANDA_CTX_FREE) eqn:Hfree.
    + left. exists i, c. repeat split; [lia|lia|done|done| |].
      * intros j c' Hj. lia.
      * rewrite (bind_Some _ _ _ _ _ (store_ndx_Some _ _ _ _ Hc)).
        erewrite bind_Some; last first.
        { apply store_dlc_Some. cbn. apply list_lookup_insert_eq.
          by apply lookup_lt_Some in Hc. }
        unfold atomic_dec, modify_priv, emit, reserve, set_free_ctx_cnt, set_tx_context.
        unfold_monad. cbn.
        rewrite list_insert_insert_eq, <- !app_assoc. reflexivity.
    + destruct (IH (S i)) as [(h & c0 & Hh & Hc0 & Hf & Hbusy & Hrun)|[Hbusy Hrun]];
        [lia| |].
      * left. exists h, c0. repeat split; [lia|lia|done|done| |done].
        intros j c' Hj Hc'. destruct (decide (j = i)) as [->|].
        -- rewrite Hc in Hc'. injection Hc' as <-. done.
        -- apply (Hbusy j); [lia|done].
      * right. split; [|done].
        intros j c' Hj Hc'. destruct (decide (j = i)) as [->|].
        -- rewrite Hc in Hc'. injection Hc' as <-. done.
        -- apply (Hbusy j); [lia|done].
Qed.

Lemma get_free_ctx_loop_inv n i cf w r w1 :
  panda_usb_get_free_ctx_loop n i cf w = Some (r, w1) ->
  match r with
  | Some h => w1 = reserve h cf w /\ (i <= h < i + n)%nat /\
              exists c, tx_context (priv w) !! h = Some c /\ is_free c = true
  | None => w1 = w
  end.
Proof.
  revert i. induction n as [|n IH]; intros i; cbn [panda_usb_get_free_ctx_loop].
  - by intros [= <- <-].
  - intros H. apply bind_inv in H as (c & w0 & Hc & H).
    apply load_ctx_inv in Hc as [Hc ->].
    destruct (ndx c =? PANDA_CTX_FREE) eqn:Hfree.
    + rewrite (bind_Some _ _ _ _ _ (store_ndx_Some _ _ _ _ Hc)) in H.
      erewrite bind_Some in H; last first.
      { apply store_dlc_Some. cbn. apply list_lookup_insert_eq.
        by apply lookup_lt_Some in Hc. }
      revert H.
      unfold atomic_dec, modify_priv, emit, reserve, set_free_ctx_cnt, set_tx_context.
      unfold_monad. cbn.
      rewrite list_insert_insert_eq, <- !app_assoc. intros [= <- <-].
      split; [done|]. split; [lia|]. by exists c.
    + apply IH in H. destruct r as [h|]; [|done].
      destruct H as (-> & Hh & Hc'). split; [done|]. split; [lia|done].
Qed.

Lemma check_last_run {A} (r : A) w :
  (n ← atomic_read; printk (MsgCtxNum n);; n' ← atomic_read;
   when (n' =? 0) (printk MsgSendingTooFast;; netif_stop_queue);; mret r) w
  = Some (r, check_last w).
Proof.
  unfold atomic_read, printk, netif_stop_queue, modify_netdev, modify_priv, emit,
    get_priv, check_last.
  unfold_monad. destruct w as [[ctxs cnt [st qs present echo] subm] tr]. cbn.
  destruct (cnt =? 0); cbn; rewrite <- ?app_assoc; cbn; reflexivity.
Qed.

Lemma get_free_ctx_inv cf w r w' :
  panda_usb_get_free_ctx cf w = Some (r, w') ->
  exists w1, panda_usb_get_free_ctx_loop PANDA_MAX_TX_URBS 0 cf w = Some (r, w1) /\
             w' = check_last w1.
Proof.
  unfold panda_usb_get_free_ctx. intros H.
  apply bind_inv in H as (r1 & w1 & Hloop & H).
  rewrite check_last_run in H. injection H as <- <-. by exists w1.
Qed.

Lemma get_free_ctx_run cf w r w1 :
  panda_usb_get_free_ctx_loop PANDA_MAX_TX_URBS 0 cf w = Some (r, w1) ->
  panda_usb_get_free_ctx cf w = Some (r, check_last w1).
Proof.
  intros H. unfold panda_usb_get_free_ctx.
  rewrite (bind_Some _ _ _ _ _ H). apply check_last_run.
Qed.

Lemma free_ctx_run h c w :
  tx_context (priv w) !! h = Some c ->
  panda_usb_free_ctx (Some h) w = Some (tt, released h (dlc c) w).
Proof.
  intros Hc. unfold panda_usb_free_ctx.
  assert (Hinc : atomic_inc w =
                 Some (tt, mk_world (set_free_ctx_cnt (s32 (free_ctx_cnt (priv w) + 1)) (priv w))
                             (trace w ++ [EvAtomicInc]))) by reflexivity.
  rewrite (bind_Some _ _ _ _ _ Hinc).
  erewrite bind_Some; last by (apply store_ndx_Some; cbn; exact Hc).
  unfold netif_wake_queue, modify_netdev, modify_priv, emit, released.
  unfold_monad. cbn. rewrite <- !app_assoc. reflexivity.
Qed.

Lemma events_since_trace w w' t :
  trace w' = trace w ++ t -> events_since w w' = t.
Proof. intros H. unfold events_since. by rewrite H, drop_app_length. Qed.

Lemma events_since_app w t p :
  events_since w (mk_world p (trace w ++ t)) = t.
Proof. by apply events_since_trace. Qed.

(** ** The pool invariant *)

Lemma s32_small x : - 2 ^ 31 <= x < 2 ^ 31 -> s32 x = x.
Proof. intros H. unfold s32. rewrite Z.mod_small; lia. Qed.

Lemma u32_small x : 0 <= x < 2 ^ 32 -> u32 x = x.
Proof. intros H. unfold u32. by rewrite Z.mod_small. Qed.

Lemma remove_handle_elem h x l :
  NoDup l -> x ∈ remove_handle h l <-> x ∈ l /\ x ≠ h.
Proof.
  induction 1 as [|y l Hy Hl IH]; cbn.
  - split; [by intros ?%elem_of_nil | by intros [?%elem_of_nil _]].
  - case_bool_decide as Heq.
    + subst y. rewrite elem_of_cons. split.
      * intros Hx. split; [by right|]. by intros ->.
      * by intros [[?|?] ?].
    + rewrite !elem_of_cons, IH. split.
      * intros [->|[? ?]]; [by split; [left|] | by split; [right|]].
      * intros [[->|?] ?]; [by left | by right].
Qed.

Lemma remove_handle_NoDup h l : NoDup l -> NoDup (remove_handle h l).
Proof.
  induction 1 as [|y l Hy Hl IH]; cbn; [constructor|].
  case_bool_decide; [done|]. constructor; [|done].
  rewrite remove_handle_elem by done. by intros [? _].
Qed.

Lemma remove_handle_length h l :
  h ∈ l -> S (length (remove_handle h l)) = length l.
Proof.
  induction l as [|y l IH]; cbn; [by intros ?%elem_of_nil|].
  case_bool_decide as Heq; [done|].
  intros [?|Hin]%elem_of_cons; [congruence|]. cbn. by rewrite IH.
Qed.

(** Distinct handles below the capacity are at most [PANDA_MAX_TX_URBS]. *)
Lemma live_bounded (l : list nat) n :
  NoDup l -> (forall h, h ∈ l -> (h < n)%nat) -> (length l <= n)%nat.
Proof.
  intros Hnd Hlt.
  assert (length l <= length (seq 0 n))%nat as Hle; [|by rewrite length_seq in Hle].
  apply submseteq_length, NoDup_submseteq; [done|].
  intros h Hh. apply elem_of_seq. specialize (Hlt h Hh). lia.
Qed.

Lemma init_ctx_loop_spec n i w :
  (i + n <= length (tx_context (priv w)))%nat ->
  exists w',
    panda_init_ctx_loop n i w = Some (tt, w') /\
    length (tx_context (priv w')) = length (tx_context (priv w)) /\
    free_ctx_cnt (priv w') = free_ctx_cnt (priv w) /\
    forall j c, tx_context (priv w') !! j = Some c ->
      if bool_decide (i <= j < i + n)%nat then ndx c = PANDA_CTX_FREE
      else tx_context (priv w) !! j = Some c.
Proof.
  revert i w. induction n as [|n IH]; intros i w Hlen; cbn [panda_init_ctx_loop].
  - exists w. repeat split; [done..|].
    intros j c Hc. case_bool_decide; [lia|done].
  - destruct (lookup_lt_is_Some_2 (tx_context (priv w)) i) as [c Hc]; [lia|].
    rewrite (bind_Some _ _ _ _ _ (store_ndx_Some _ _ _ _ Hc)).
    edestruct (IH (S i)) as (w' & Hrun & Hl & Hcnt & Hslots); last first.
    + exists w'. split; [exact Hrun|]. cbn in Hl, Hcnt, Hslots.
      rewrite length_insert in Hl. repeat split; [done..|].
      intros j c' Hc'. specialize (Hslots j c' Hc').
      repeat case_bool_decide; try lia; try done.
      assert (j = i) as -> by lia.
      rewrite list_lookup_insert_eq in Hslots by (by apply lookup_lt_Some in Hc).
      by injection Hslots as <-.
      rewrite list_lookup_insert_ne in Hslots by lia. done.
    + cbn. rewrite length_insert. lia.
Qed.

Lemma init_ctx_spec w0 w :
  length (tx_context (priv w0)) = PANDA_MAX_TX_URBS ->
  panda_init_ctx w0 = Some (tt, w) ->
  length (tx_context (priv w)) = PANDA_MAX_TX_URBS /\
  free_ctx_cnt (priv w) = Z.of_nat PANDA_MAX_TX_URBS /\
  forall j c, tx_context (priv w) !! j = Some c -> ndx c = PANDA_CTX_FREE.
Proof.
  intros Hlen Hrun. unfold panda_init_ctx in Hrun.
  destruct (init_ctx_loop_spec PANDA_MAX_TX_URBS 0 w0) as (w1 & Hloop & Hl & _ & Hslots);
    [lia|].
  rewrite (bind_Some _ _ _ _ _ Hloop) in Hrun.
  injection Hrun as <-. cbn. repeat split; [congruence|].
  intros j c Hc. specialize (Hslots j c Hc).
  case_bool_decide as Hj; [done|].
  apply lookup_lt_Some in Hc. lia.
Qed.

Lemma check_last_tx_context w :
  tx_context (priv (check_last w)) = tx_context (priv w).
Proof. reflexivity. Qed.

Lemma check_last_free_ctx_cnt w :
  free_ctx_cnt (priv (check_last w)) = free_ctx_cnt (priv w).
Proof. reflexivity. Qed.

Lemma pool_inv_init w0 w :
  length (tx_context (priv w0)) = PANDA_MAX_TX_URBS ->
  panda_init_ctx w0 = Some (tt, w) ->
  pool_inv (mk_pool w []).
Proof.
  intros Hlen Hrun. destruct (init_ctx_spec _ _ Hlen Hrun) as (Hl & Hcnt & Hfree).
  unfold pool_inv. cbn. repeat split; [done|constructor| |done|lia].
  by intros h ?%elem_of_nil.
Qed.

Lemma pool_inv_step op st st' :
  pool_inv st -> pool_step op st = Some st' -> pool_inv st'.
Proof.
  destruct st as [w lv]. intros (Hlen & Hnd & Hlt & Hslots & Hcnt) Hstep.
  cbn in Hlen, Hnd, Hlt, Hslots, Hcnt.
  pose proof (live_bounded lv _ Hnd Hlt) as Hbound.
  destruct op as [cf|h]; unfold pool_step in Hstep; cbn [pool_world live] in Hstep.
  - destruct (panda_usb_get_free_ctx cf w) as [[r w']|] eqn:Hrun; [|done].
    apply get_free_ctx_inv in Hrun as (w1 & Hloop & ->).
    apply get_free_ctx_loop_inv in Hloop.
    destruct r as [h|]; injection Hstep as <-; unfold pool_inv;
      cbn [pool_world live];
      rewrite check_last_tx_context, check_last_free_ctx_cnt.
    + destruct Hloop as (-> & Hh & c & Hc & Hfree). cbn.
      assert (Hnotin : h ∉ lv).
      { intros Hin. specialize (Hslots h c Hc).
        rewrite bool_decide_eq_true_2 in Hslots by done.
        unfold is_free in Hfree. apply Z.eqb_eq in Hfree.
        unfold PANDA_CTX_FREE in Hfree. lia. }
      rewrite length_insert. repeat split; [done|by constructor| | |].
      * intros x [->|Hx]%elem_of_cons; [lia|by apply Hlt].
      * intros i c' Hc'. destruct (decide (i = h)) as [->|Hne].
        -- rewrite list_lookup_insert_eq in Hc' by (by apply lookup_lt_Some in Hc).
           injection Hc' as <-. cbn.
           rewrite bool_decide_eq_true_2 by (by left).
           apply u32_small. unfold PANDA_MAX_TX_URBS in Hh. lia.
        -- rewrite list_lookup_insert_ne in Hc' by done.
           specialize (Hslots i c' Hc').
           assert (Hiff : i ∈ h :: lv <-> i ∈ lv)
             by (rewrite elem_of_cons; tauto).
           by rewrite (bool_decide_ext _ _ Hiff).
      * rewrite s32_small; unfold PANDA_MAX_TX_URBS in *; lia.
    + subst w1. done.
  - case_bool_decide as Hin; [|done].
    assert (Hh : (h < length (tx_context (priv w)))%nat) by (rewrite Hlen; by apply Hlt).
    destruct (lookup_lt_is_Some_2 _ _ Hh) as [c Hc].
    rewrite (free_ctx_run _ _ _ Hc) in Hstep. injection Hstep as <-.
    unfold pool_inv. cbn. rewrite length_insert.
    pose proof (remove_handle_length h lv Hin) as Hrl.
    repeat split; [done|by apply remove_handle_NoDup| | |].
    + intros x [Hx _]%remove_handle_elem; [by apply Hlt|done].
    + intros i c' Hc'. destruct (decide (i = h)) as [->|Hne].
      * rewrite list_lookup_insert_eq in Hc' by done. injection Hc' as <-. cbn.
        rewrite bool_decide_eq_false_2; [done|].
        rewrite remove_handle_elem by done. by intros [_ ?].
      * rewrite list_lookup_insert_ne in Hc' by done.
        specialize (Hslots i c' Hc').
        assert (Hiff : i ∈ remove_handle h lv <-> i ∈ lv)
          by (rewrite remove_handle_elem by done; tauto).
        by rewrite (bool_decide_ext _ _ Hiff).
    + rewrite s32_small; unfold PANDA_MAX_TX_URBS in *; lia.
Qed.

Lemma pool_reachable_inv st : pool_reachable st -> pool_inv st.
Proof.
  induction 1 as [w0 w Hlen Hrun|op st st' _ IH Hstep].
  - by eapply pool_inv_init.
  - by eapply pool_inv_step.
Qed.

Lemma run_pool_reachable ops st st' :
  pool_reachable st -> run_pool ops st = Some st' -> pool_reachable st'.
Proof.
  revert st. induction ops as [|op ops IH]; intros st Hst; cbn.
  - by intros [= <-].
  - destruct (pool_step op st) as [st1|] eqn:Hstep; [|done].
    apply IH. by eapply reach_step.
Qed.

(** A call inside the protocol always returns. *)
Lemma pool_step_total op st :
  pool_reachable st ->
  match op with Acquire _ => True | Release h => h ∈ live st end ->
  is_Some (pool_step op st).
Proof.
  intros (Hlen & Hnd & Hlt & Hslots & Hcnt)%pool_reachable_inv Hop.
  destruct op as [cf|h]; unfold pool_step.
  - destruct (get_free_ctx_loop_spec PANDA_MAX_TX_URBS 0 cf (pool_world st))
      as [(h & c & _ & _ & _ & _ & Hrun)|[_ Hrun]]; [by rewrite Hlen| |];
      rewrite (get_free_ctx_run _ _ _ _ Hrun); by eexists.
  - rewrite bool_decide_eq_true_2 by done.
    destruct (lookup_lt_is_Some_2 (tx_context (priv (pool_world st))) h) as [c Hc].
    { rewrite Hlen. by apply Hlt. }
    rewrite (free_ctx_run _ _ _ Hc). by eexists.
Qed.

(** C2.  In every state reached from [panda_init_ctx] by acquire and release
    calls that respect the protocol, [free_ctx_cnt] lies between zero and
    [PANDA_MAX_TX_URBS], and two different live handles reference different
    slot indices. *)
Theorem pool_invariant st :
  pool_reachable st ->
  0 <= free_ctx_cnt (priv (pool_world st)) <= Z.of_nat PANDA_MAX_TX_URBS /\
  forall i j h1 h2,
    i ≠ j -> live st !! i = Some h1 -> live st !! j = Some h2 ->
    exists n1 n2,
      slot_index (pool_world st) h1 = Some n1 /\
      slot_index (pool_world st) h2 = Some n2 /\ n1 ≠ n2.
Proof.
  intros (Hlen & Hnd & Hlt & Hslots & Hcnt)%pool_reachable_inv.
  pose proof (live_bounded _ _ Hnd Hlt) as Hbound.
  split; [lia|].
  assert (Hidx : forall h, h ∈ live st -> slot_index (pool_world st) h = Some (Z.of_nat h)).
  { intros h Hh. unfold slot_index.
    destruct (lookup_lt_is_Some_2 (tx_context (priv (pool_world st))) h) as [c Hc].
    { rewrite Hlen. by apply Hlt. }
    rewrite Hc. cbn. specialize (Hslots h c Hc).
    rewrite bool_decide_eq_true_2 in Hslots by done. by rewrite Hslots. }
  intros i j h1 h2 Hij H1 H2.
  exists (Z.of_nat h1), (Z.of_nat h2).
  split; [apply Hidx; by eapply list_elem_of_lookup_2|].
  split; [apply Hidx; by eapply list_elem_of_lookup_2|].
  intros Heq. apply Nat2Z.inj in Heq. subst h2.
  apply Hij. by eapply NoDup_lookup.
Qed.

Lemma sample_pool_reachable : pool_reachable sample_pool.
Proof.
  apply (run_pool_reachable sample_ops (mk_pool fresh_world []));
    [|vm_compute; reflexivity].
  apply (reach_init probed_world); vm_compute; reflexivity.
Qed.

Lemma pool_invariant_witness :
  pool_reachable sample_pool /\
  0 <= free_ctx_cnt (priv (pool_world sample_pool)) <= Z.of_nat PANDA_MAX_TX_URBS /\
  forall i j h1 h2,
    i ≠ j -> live sample_pool !! i = Some h1 -> live sample_pool !! j = Some h2 ->
    exists n1 n2,
      slot_index (pool_world sample_pool) h1 = Some n1 /\
      slot_index (pool_world sample_pool) h2 = Some n2 /\ n1 ≠ n2.
Proof.
  split; [exact sample_pool_reachable|].
  apply (pool_invariant sample_pool). exact sample_pool_reachable.
Defined.

(** ** Order of effects in acquire and release *)

Lemma occurs_before_lookup e1 e2 (t : list event) :
  occurs_before e1 e2 t ->
  exists i j, (i < j)%nat /\ t !! i = Some e1 /\ t !! j = Some e2.
Proof.
  intros (t1 & t2 & t3 & ->).
  exists (length t1), (length t1 + S (length t2))%nat.
  split; [lia|]. split.
  - by apply list_lookup_middle.
  - rewrite lookup_app_r by lia.
    replace (length t1 + S (length t2) - length t1)%nat with (S (length t2)) by lia.
    cbn. by apply list_lookup_middle.
Qed.

Ltac split_trace t1 t2 t3 := exists t1, t2, t3; reflexivity.

(** C3.  When [panda_usb_get_free_ctx] returns a slot and leaves the free
    count at zero, it has stored the slot's index and length code, then
    decremented the count, then read the count as zero, then stopped the
    queue, all before returning: the decrement precedes the zero test and
    the zero test precedes [netif_stop_queue]. *)
Theorem acquire_last_slot_pauses cf w h w' :
  panda_usb_get_free_ctx cf w = Some (Some h, w') ->
  free_ctx_cnt (priv w') = 0 ->
  events_since w w' =
    [EvStoreNdx h (u32 (Z.of_nat h)); EvStoreDlc h (can_dlc cf); EvAtomicDec;
     EvAtomicRead 0; EvLog (MsgCtxNum 0); EvAtomicRead 0;
     EvLog MsgSendingTooFast; EvNetifStopQueue] /\
  occurs_before (EvStoreNdx h (u32 (Z.of_nat h))) EvAtomicDec (events_since w w') /\
  occurs_before EvAtomicDec (EvAtomicRead 0) (events_since w w') /\
  occurs_before (EvAtomicRead 0) EvNetifStopQueue (events_since w w') /\
  queue_stopped (netdev (priv w')) = true.
Proof.
  intros Hrun Hzero.
  apply get_free_ctx_inv in Hrun as (w1 & Hloop & ->).
  apply get_free_ctx_loop_inv in Hloop as (-> & _ & _).
  rewrite check_last_free_ctx_cnt in Hzero.
  unfold check_last. rewrite Hzero. cbn [Z.eqb].
  match goal with
  | |- events_since w ?w2 = ?t /\ _ =>
      assert (events_since w w2 = t) as ->
        by (apply events_since_trace; cbn; rewrite <- !app_assoc; reflexivity)
  end.
  split; [reflexivity|].
  split; [split_trace (@nil event) [EvStoreDlc h (can_dlc cf)]
            [EvAtomicRead 0; EvLog (MsgCtxNum 0); EvAtomicRead 0;
             EvLog MsgSendingTooFast; EvNetifStopQueue]|].
  split; [split_trace [EvStoreNdx h (u32 (Z.of_nat h)); EvStoreDlc h (can_dlc cf)]
            (@nil event)
            [EvLog (MsgCtxNum 0); EvAtomicRead 0; EvLog MsgSendingTooFast;
             EvNetifStopQueue]|].
  split; [split_trace
            [EvStoreNdx h (u32 (Z.of_nat h)); EvStoreDlc h (can_dlc cf); EvAtomicDec]
            [EvLog (MsgCtxNum 0); EvAtomicRead 0; EvLog MsgSendingTooFast]
            (@nil event)|].
  reflexivity.
Qed.

Lemma acquire_last_slot_pauses_witness :
  let w' := check_last (reserve 19 frame_123 one_free_world) in
  events_since one_free_world w' =
    [EvStoreNdx 19 (u32 19); EvStoreDlc 19 3; EvAtomicDec;
     EvAtomicRead 0; EvLog (MsgCtxNum 0); EvAtomicRead 0;
     EvLog MsgSendingTooFast; EvNetifStopQueue] /\
  occurs_before (EvStoreNdx 19 (u32 19)) EvAtomicDec (events_since one_free_world w') /\
  occurs_before EvAtomicDec (EvAtomicRead 0) (events_since one_free_world w') /\
  occurs_before (EvAtomicRead 0) EvNetifStopQueue (events_since one_free_world w') /\
  queue_stopped (netdev (priv w')) = true.
Proof.
  apply (acquire_last_slot_pauses frame_123 one_free_world 19); reflexivity.
Defined.

(** C4 (as the code has it).  [panda_usb_free_ctx] on a slot of the array
    first increments the free count, then marks the slot free, then wakes
    the queue, whatever the state of the pool; the wake-up comes strictly
    after the slot is marked free. *)
Theorem release_order h c w :
  tx_context (priv w) !! h = Some c ->
  exists w',
    panda_usb_free_ctx (Some h) w = Some (tt, w') /\
    events_since w w' = [EvAtomicInc; EvStoreNdx h PANDA_CTX_FREE; EvNetifWakeQueue] /\
    occurs_before EvAtomicInc (EvStoreNdx h PANDA_CTX_FREE) (events_since w w') /\
    occurs_before (EvStoreNdx h PANDA_CTX_FREE) EvNetifWakeQueue (events_since w w') /\
    slot_index w' h = Some PANDA_CTX_FREE /\
    free_ctx_cnt (priv w') = s32 (free_ctx_cnt (priv w) + 1) /\
    queue_stopped (netdev (priv w')) = false.
Proof.
  intros Hc. exists (released h (dlc c) w).
  split; [by apply free_ctx_run|].
  unfold released. rewrite events_since_app.
  split; [reflexivity|].
  split; [split_trace (@nil event) (@nil event) [EvNetifWakeQueue]|].
  split; [split_trace [EvAtomicInc] (@nil event) (@nil event)|].
  split; [|done].
  unfold slot_index. cbn.
  rewrite list_lookup_insert_eq by (by apply lookup_lt_Some in Hc). done.
Qed.

Lemma release_order_witness :
  exists w',
    panda_usb_free_ctx (Some 0%nat) one_busy_world = Some (tt, w') /\
    events_since one_busy_world w' =
      [EvAtomicInc; EvStoreNdx 0 PANDA_CTX_FREE; EvNetifWakeQueue] /\
    occurs_before EvAtomicInc (EvStoreNdx 0 PANDA_CTX_FREE) (events_since one_busy_world w') /\
    occurs_before (EvStoreNdx 0 PANDA_CTX_FREE) EvNetifWakeQueue
      (events_since one_busy_world w') /\
    slot_index w' 0 = Some PANDA_CTX_FREE /\
    free_ctx_cnt (priv w') = s32 (free_ctx_cnt (priv one_busy_world) + 1) /\
    queue_stopped (netdev (priv w')) = false.
Proof.
  apply (release_order 0 (mk_ctx 0 3) one_busy_world). reflexivity.
Defined.

(** C4 as stated fails: on a pool with slot [0] busy the release does not
    mark the slot free before it increments the count. *)
Lemma release_order_counterexample :
  panda_usb_free_ctx (Some 0%nat) one_busy_world
    = Some (tt, released 0 3 one_busy_world) /\
  ~ mark_then_count_then_wake 0
      (events_since one_busy_world (released 0 3 one_busy_world)).
Proof.
  split; [reflexivity|].
  intros [(i & j & Hij & Hi & Hj)%occurs_before_lookup _].
  vm_compute in Hi, Hj.
  destruct j as [|[|[|j]]]; try discriminate Hj; lia.
Qed.

(** ** The codec *)

Lemma testbit_high x k n :
  0 <= x < 2 ^ k -> 0 <= k <= n -> Z.testbit x n = false.
Proof.
  intros Hx Hk. rewrite <- (Z.mod_small x (2 ^ k)) by done.
  by apply Z.mod_pow2_bits_high.
Qed.

Lemma land_bit_nonzero a b n :
  Z.testbit a n = true -> Z.testbit b n = true -> Z.land a b ≠ 0.
Proof.
  intros Ha Hb H0. assert (Z.testbit (Z.land a b) n = true) as Ht
    by (by rewrite Z.land_spec, Ha, Hb).
  rewrite H0, Z.bits_0 in Ht. discriminate Ht.
Qed.

Lemma land_low_mask x k :
  0 <= k -> 0 <= x < 2 ^ k -> Z.land x (Z.ones k) = x.
Proof. intros Hk Hx. rewrite Z.land_ones by done. by apply Z.mod_small. Qed.

Lemma eff_flag_clear id : 0 <= id < 2 ^ 31 -> Z.land id CAN_EFF_FLAG = 0.
Proof.
  intros Hid. apply Z.bits_inj'. intros n Hn.
  rewrite Z.land_spec, Z.bits_0.
  change CAN_EFF_FLAG with (2 ^ 31). rewrite Z.pow2_bits_eqb by lia.
  destruct (Z.eqb_spec 31 n) as [<-|]; [|apply andb_false_r].
  rewrite (testbit_high id 31) by lia. done.
Qed.

Lemma eff_flag_set id : Z.land (Z.lor id CAN_EFF_FLAG) CAN_EFF_FLAG ≠ 0.
Proof.
  apply (land_bit_nonzero _ _ 31); [|reflexivity].
  rewrite Z.lor_spec. apply orb_true_r.
Qed.

Lemma eff_mask_id id :
  0 <= id < 2 ^ 29 -> Z.land (Z.lor id CAN_EFF_FLAG) CAN_EFF_MASK = id.
Proof.
  intros Hid. rewrite Z.land_lor_distr_l.
  change (Z.land CAN_EFF_FLAG CAN_EFF_MASK) with 0. rewrite Z.lor_0_r.
  change CAN_EFF_MASK with (Z.ones 29). by apply land_low_mask.
Qed.

(** The identifier comes back from the [rir] of an extended frame. *)
Lemma rir_extended_round_trip id :
  0 <= id < 2 ^ 29 ->
  let r := Z.lor (Z.lor (u32 (Z.shiftl id 3)) PANDA_CAN_TRANSMIT) PANDA_CAN_EXTENDED in
  Z.land r PANDA_CAN_EXTENDED ≠ 0 /\ Z.shiftr r 3 = id.
Proof.
  intros Hid r. subst r. split.
  - apply (land_bit_nonzero _ _ 2); [|reflexivity].
    rewrite Z.lor_spec. apply orb_true_r.
  - rewrite u32_small by (rewrite Z.shiftl_mul_pow2 by lia; lia).
    rewrite !Z.shiftr_lor, Z.shiftr_shiftl_l by lia.
    change (Z.shiftr PANDA_CAN_TRANSMIT 3) with 0.
    change (Z.shiftr PANDA_CAN_EXTENDED 3) with 0.
    rewrite !Z.lor_0_r. apply Z.shiftl_0_r.
Qed.

(** The identifier comes back from the [rir] of a standard frame. *)
Lemma rir_standard_round_trip id :
  0 <= id < 2 ^ 11 ->
  let r := Z.lor (u32 (Z.shiftl id 21)) PANDA_CAN_TRANSMIT in
  Z.land r PANDA_CAN_EXTENDED = 0 /\ Z.shiftr r 21 = id.
Proof.
  intros Hid r. subst r.
  rewrite u32_small by (rewrite Z.shiftl_mul_pow2 by lia; lia). split.
  - apply Z.bits_inj'. intros n Hn.
    rewrite Z.land_spec, Z.lor_spec, Z.bits_0.
    change PANDA_CAN_EXTENDED with (2 ^ 2). rewrite Z.pow2_bits_eqb by lia.
    destruct (Z.eqb_spec 2 n) as [<-|]; [|apply andb_false_r].
    rewrite Z.shiftl_spec_low by lia. reflexivity.
  - rewrite Z.shiftr_lor, Z.shiftr_shiftl_l by lia.
    change (Z.shiftr PANDA_CAN_TRANSMIT 21) with 0.
    rewrite Z.lor_0_r. apply Z.shiftl_0_r.
Qed.

Lemma dlc_field_round_trip d :
  0 <= d <= 8 ->
  get_can_dlc (Z.land (Z.lor (Z.land d 0x0F) (Z.shiftl 0 4)) PANDA_DLC_MASK) = d.
Proof.
  intros Hd. rewrite Z.shiftl_0_l, Z.lor_0_r.
  change PANDA_DLC_MASK with (Z.ones 4). change 0x0F with (Z.ones 4).
  rewrite !(land_low_mask d 4) by lia.
  unfold get_can_dlc, u8, CAN_MAX_DLC. rewrite Z.mod_small by lia. lia.
Qed.

Lemma get_can_dlc_range i : 0 <= get_can_dlc i <= 8.
Proof.
  unfold get_can_dlc, u8, CAN_MAX_DLC.
  pose proof (Z.mod_pos_bound i (2 ^ 8)). lia.
Qed.

Lemma memcpy_run dst src n w :
  0 <= n -> n <= Z.of_nat (length src) -> n <= Z.of_nat (length dst) ->
  memcpy dst src n w = Some (take (Z.to_nat n) src ++ drop (Z.to_nat n) dst, w).
Proof.
  intros H0 Hs Hd. unfold memcpy.
  rewrite !(proj2 (Z.leb_le _ _)) by done. reflexivity.
Qed.

Lemma memcpy_length (dst src : list Byte.byte) n :
  0 <= n -> n <= Z.of_nat (length src) -> n <= Z.of_nat (length dst) ->
  length (take (Z.to_nat n) src ++ drop (Z.to_nat n) dst) = length dst.
Proof. intros. rewrite length_app, length_take, length_drop. lia. Qed.

(** What the packing and unpacking compute on frames with a length code of
    at most eight and an eight-byte data array. *)
Lemma pack_run cf w :
  0 <= can_dlc cf <= 8 -> length (data cf) = 8%nat ->
  panda_pack cf w =
    Some (mk_can_msg (panda_pack_rir cf) (panda_pack_bus_dat_len cf)
            (take (Z.to_nat (can_dlc cf)) (data cf)
               ++ drop (Z.to_nat (can_dlc cf)) (zero_bytes 8)), w).
Proof.
  intros Hd Hl. unfold panda_pack.
  erewrite bind_Some; [reflexivity|].
  apply memcpy_run; [lia|rewrite Hl; lia|cbn; lia].
Qed.

Lemma unpack_run msg w :
  length (msg_data msg) = 8%nat ->
  panda_unpack msg w =
    Some (mk_can_frame (panda_unpack_can_id msg) (panda_unpack_can_dlc msg)
            (take (Z.to_nat (panda_unpack_can_dlc msg)) (msg_data msg)
               ++ drop (Z.to_nat (panda_unpack_can_dlc msg)) (zero_bytes 8)), w).
Proof.
  intros Hl. unfold panda_unpack. cbv zeta.
  pose proof (get_can_dlc_range (Z.land (bus_dat_len msg) PANDA_DLC_MASK)) as Hr.
  erewrite bind_Some; [reflexivity|].
  apply memcpy_run; unfold panda_unpack_can_dlc; [lia|rewrite Hl; lia|cbn; lia].
Qed.

(** C1.  A frame with the extended flag [extended], an identifier [id] in
    the 29-bit (extended) or 11-bit (standard) range, a length code from 0
    to 8 and an eight-byte data array is packed without fault, and unpacking
    the packed message gives a frame with the same [can_id], hence the same
    flag and identifier, the same length code and the same payload bytes. *)
Theorem codec_round_trip (extended : bool) (id : Z) cf w :
  0 <= id < (if extended then 2 ^ 29 else 2 ^ 11) ->
  can_id cf = (if extended then Z.lor id CAN_EFF_FLAG else id) ->
  0 <= can_dlc cf <= 8 ->
  length (data cf) = 8%nat ->
  exists msg cf',
    panda_pack cf w = Some (msg, w) /\
    panda_unpack msg w = Some (cf', w) /\
    can_id cf' = can_id cf /\
    frame_extended cf' = extended /\
    frame_id cf' = id /\
    can_dlc cf' = can_dlc cf /\
    frame_payload cf' = frame_payload cf.
Proof.
  intros Hid Hcan Hdlc Hlen.
  set (n := Z.to_nat (can_dlc cf)).
  set (d := take n (data cf) ++ drop n (zero_bytes 8)).
  set (msg := mk_can_msg (panda_pack_rir cf) (panda_pack_bus_dat_len cf) d).
  assert (Hn : (n <= 8)%nat) by (unfold n; lia).
  assert (Hdl : length d = 8%nat).
  { unfold d. rewrite length_app, length_take, length_drop, Hlen. cbn. lia. }
  assert (Htake : take n d = take n (data cf)).
  { unfold d. rewrite take_app_le by (rewrite length_take; lia).
    rewrite take_take. f_equal. lia. }
  assert (Hd : panda_unpack_can_dlc msg = can_dlc cf).
  { unfold panda_unpack_can_dlc, msg. cbn [bus_dat_len].
    unfold panda_pack_bus_dat_len, cpu_to_le32. cbv zeta.
    by apply dlc_field_round_trip. }
  assert (Hi : panda_unpack_can_id msg = can_id cf).
  { unfold panda_unpack_can_id, msg. cbn [rir].
    unfold panda_pack_rir, cpu_to_le32.
    destruct extended; rewrite Hcan.
    - rewrite (proj2 (Z.eqb_neq _ _) (eff_flag_set id)). cbn [negb].
      change 0x1FFFFFFF with CAN_EFF_MASK. rewrite eff_mask_id by done.
      destruct (rir_extended_round_trip id Hid) as [Hne ->].
      by rewrite (proj2 (Z.eqb_neq _ _) Hne).
    - rewrite eff_flag_clear by lia. cbn [Z.eqb negb].
      change 0x7FF with (Z.ones 11). rewrite land_low_mask by lia.
      destruct (rir_standard_round_trip id Hid) as [-> ->]. done. }
  exists msg, (mk_can_frame (can_id cf) (can_dlc cf) d).
  split; [by apply pack_run|].
  split.
  { rewrite unpack_run by done. rewrite Hd, Hi.
    change (msg_data msg) with d. fold n. rewrite Htake. reflexivity. }
  assert (Hext : frame_extended (mk_can_frame (can_id cf) (can_dlc cf) d) = extended).
  { unfold frame_extended. cbn [can_id]. destruct extended; rewrite Hcan.
    - by rewrite (proj2 (Z.eqb_neq _ _) (eff_flag_set id)).
    - by rewrite eff_flag_clear by lia. }
  split; [done|]. split; [exact Hext|]. split.
  { unfold frame_id. rewrite Hext. cbn [can_id]. destruct extended; rewrite Hcan.
    - by apply eff_mask_id.
    - change CAN_SFF_MASK with (Z.ones 11). apply land_low_mask; lia. }
  split; [done|].
  unfold frame_payload. cbn [can_dlc data]. fold n. exact Htake.
Qed.

Lemma codec_round_trip_witness :
  exists msg cf',
    panda_pack frame_ext fresh_world = Some (msg, fresh_world) /\
    panda_unpack msg fresh_world = Some (cf', fresh_world) /\
    can_id cf' = can_id frame_ext /\
    frame_extended cf' = true /\
    frame_id cf' = 0x1ABCDEF1 /\
    can_dlc cf' = can_dlc frame_ext /\
    frame_payload cf' = frame_payload frame_ext.
Proof.
  apply (codec_round_trip true 0x1ABCDEF1 frame_ext fresh_world);
    [cbn; lia | reflexivity | cbn; lia | reflexivity].
Defined.

(** C7.  Unpacking a wire message with an eight-byte data field never
    faults and yields a length code of at most eight; when the message's
    length code field is above eight (15 included) the frame's length code
    is exactly eight and its data are the eight bytes of the data field,
    none beyond. *)
Theorem unpack_clamps_dlc msg w :
  length (msg_data msg) = 8%nat ->
  8 < msg_dlc_field msg ->
  exists cf,
    panda_unpack msg w = Some (cf, w) /\
    can_dlc cf = 8 /\
    data cf = take 8 (msg_data msg) /\
    length (data cf) = 8%nat.
Proof.
  intros Hlen Hfield. eexists. split; [by apply unpack_run|].
  assert (Hd : panda_unpack_can_dlc msg = 8).
  { unfold panda_unpack_can_dlc, get_can_dlc, u8, CAN_MAX_DLC.
    unfold msg_dlc_field in Hfield.
    assert (0 <= Z.land (bus_dat_len msg) PANDA_DLC_MASK < 2 ^ 4) as Hr.
    { change PANDA_DLC_MASK with (Z.ones 4). rewrite Z.land_ones by lia.
      apply Z.mod_pos_bound. lia. }
    rewrite Z.mod_small by lia. lia. }
  cbn [can_dlc data]. rewrite Hd. split; [done|].
  change (Z.to_nat 8) with 8%nat. change (drop 8 (zero_bytes 8)) with (@nil Byte.byte).
  rewrite app_nil_r. split; [done|].
  rewrite length_take. lia.
Qed.

Lemma unpack_clamps_dlc_witness :
  exists cf,
    panda_unpack msg_dlc15 fresh_world = Some (cf, fresh_world) /\
    can_dlc cf = 8 /\
    data cf = take 8 (msg_data msg_dlc15) /\
    length (data cf) = 8%nat.
Proof.
  apply (unpack_clamps_dlc msg_dlc15 fresh_world); [reflexivity|].
  vm_compute. reflexivity.
Defined.

(** ** The transmit completion callback *)

(** C5 (as the code has it).  The completion callback of a URB whose
    context is a slot of the array always frees the transfer buffer first.
    When the device is still present it then counts the packet and the
    slot's recorded length code, finalizes the echo entry of the slot,
    logs a non-zero status and, last, releases the slot; when the device is
    no longer present it returns right after freeing the buffer. *)
Theorem write_bulk_callback_spec u i c w :
  urb_context u = Some i ->
  tx_context (priv w) !! i = Some c ->
  0 <= ndx c < Z.of_nat (length (echo_skb (netdev (priv w)))) ->
  exists w',
    panda_usb_write_bulk_callback u w = Some (tt, w') /\
    if device_present (netdev (priv w)) then
      (exists echo_events,
          events_since w w' =
            [EvUsbFreeCoherent; EvStatTxPackets; EvStatTxBytes (dlc c);
             EvCanGetEchoSkb (ndx c)] ++ echo_events ++
            (if urb_status u =? 0 then [] else [EvLog (MsgTxUrbAborted (urb_status u))]) ++
            [EvAtomicInc; EvStoreNdx i PANDA_CTX_FREE; EvNetifWakeQueue]) /\
      tx_packets (stats (netdev (priv w'))) = ulong (tx_packets (stats (netdev (priv w))) + 1) /\
      tx_bytes (stats (netdev (priv w'))) = ulong (tx_bytes (stats (netdev (priv w))) + dlc c) /\
      echo_skb (netdev (priv w')) !! Z.to_nat (ndx c) = Some None /\
      slot_index w' i = Some PANDA_CTX_FREE /\
      free_ctx_cnt (priv w') = s32 (free_ctx_cnt (priv w) + 1)
    else
      w' = mk_world (priv w) (trace w ++ [EvUsbFreeCoherent]).
Proof.
  intros Hctx Hc Hidx.
  destruct w as [[ctxs cnt [st qs present echo] subm] tr].
  cbn [priv tx_context netdev echo_skb device_present stats free_ctx_cnt trace] in Hc, Hidx |- *.
  destruct (lookup_lt_is_Some_2 echo (Z.to_nat (ndx c))) as [e He]; [lia|].
  unfold panda_usb_write_bulk_callback. rewrite Hctx.
  unfold netif_device_present, inc_tx_packets, add_tx_bytes, can_get_echo_skb,
    load_echo_skb, store_echo_skb, panda_usb_free_ctx, atomic_inc, store_ndx,
    netif_wake_queue, load_ctx, modify_stats, modify_netdev, modify_priv, emit, get_priv.
  unfold_monad.
  unfold set_netdev, set_stats, set_echo_skb, set_tx_context, set_free_ctx_cnt,
    set_queue_stopped, slot_index.
  destruct present; cbn -[ulong s32 Z.to_nat Z.ltb Z.eqb events_since];
    [|eexists; split; reflexivity].
  rewrite Hc. cbn -[ulong s32 Z.to_nat Z.ltb Z.eqb events_since].
  rewrite Hc. cbn -[ulong s32 Z.to_nat Z.ltb Z.eqb events_since].
  rewrite (proj2 (Z.ltb_ge _ _)) by lia. rewrite He.
  assert (Hi : (Z.to_nat (ndx c) < length echo)%nat) by lia.
  assert (Hl : (i < length ctxs)%nat) by (by apply lookup_lt_Some in Hc).
  destruct e as [skb|]; destruct (urb_status u =? 0);
    cbn -[ulong s32 Z.to_nat Z.ltb Z.eqb events_since];
    rewrite Hc; cbn -[ulong s32 Z.to_nat Z.ltb Z.eqb events_since];
    (eexists; split; [reflexivity|]);
    cbn -[ulong s32 Z.to_nat Z.ltb Z.eqb events_since];
    rewrite ?list_lookup_insert_eq by done;
    (split; [|by rewrite ?He]).
  - exists [EvNetifRx (skb_frame skb)].
    apply events_since_trace. cbn. rewrite <- !app_assoc. reflexivity.
  - exists [EvNetifRx (skb_frame skb)].
    apply events_since_trace. cbn. rewrite <- !app_assoc. reflexivity.
  - exists []. apply events_since_trace. cbn. rewrite <- !app_assoc. reflexivity.
  - exists []. apply events_since_trace. cbn. rewrite <- !app_assoc. reflexivity.
Qed.

Lemma write_bulk_callback_spec_witness :
  exists w',
    panda_usb_write_bulk_callback completed_urb one_busy_world = Some (tt, w') /\
    if device_present (netdev (priv one_busy_world)) then
      (exists echo_events,
          events_since one_busy_world w' =
            [EvUsbFreeCoherent; EvStatTxPackets; EvStatTxBytes (dlc (mk_ctx 0 3));
             EvCanGetEchoSkb (ndx (mk_ctx 0 3))] ++ echo_events ++
            (if urb_status completed_urb =? 0 then []
             else [EvLog (MsgTxUrbAborted (urb_status completed_urb))]) ++
            [EvAtomicInc; EvStoreNdx 0 PANDA_CTX_FREE; EvNetifWakeQueue]) /\
      tx_packets (stats (netdev (priv w')))
        = ulong (tx_packets (stats (netdev (priv one_busy_world))) + 1) /\
      tx_bytes (stats (netdev (priv w')))
        = ulong (tx_bytes (stats (netdev (priv one_busy_world))) + dlc (mk_ctx 0 3)) /\
      echo_skb (netdev (priv w')) !! Z.to_nat (ndx (mk_ctx 0 3)) = Some None /\
      slot_index w' 0 = Some PANDA_CTX_FREE /\
      free_ctx_cnt (priv w') = s32 (free_ctx_cnt (priv one_busy_world) + 1)
    else
      w' = mk_world (priv one_busy_world) (trace one_busy_world ++ [EvUsbFreeCoherent]).
Proof.
  apply (write_bulk_callback_spec completed_urb 0 (mk_ctx 0 3) one_busy_world);
    [reflexivity | reflexivity | vm_compute; split; [discriminate | reflexivity]].
Defined.

(** C5 as stated fails: for a device that is no longer present the
    callback frees the buffer and returns; the packet counter is not
    incremented and the slot stays busy. *)
Lemma write_bulk_callback_counterexample :
  exists w',
    panda_usb_write_bulk_callback completed_urb detached_world = Some (tt, w') /\
    events_since detached_world w' = [EvUsbFreeCoherent] /\
    tx_packets (stats (netdev (priv w'))) = tx_packets (stats (netdev (priv detached_world))) /\
    free_ctx_cnt (priv w') = free_ctx_cnt (priv detached_world) /\
    slot_index w' 0 = Some 0 /\ slot_index w' 0 ≠ Some PANDA_CTX_FREE.
Proof.
  eexists. split; [vm_compute; reflexivity|].
  repeat split; try reflexivity. discriminate.
Qed.

(** ** The transmit path *)

Arguments memcpy : simpl never.
Arguments zero_bytes : simpl never.
Arguments msg_bytes : simpl never.
Arguments panda_pack_rir : simpl never.
Arguments panda_pack_bus_dat_len : simpl never.

Lemma zero_bytes_length n : length (zero_bytes n) = n.
Proof. apply length_replicate. Qed.

Lemma msg_bytes_length msg :
  length (msg_data msg) = 8%nat -> length (msg_bytes msg) = 16%nat.
Proof. intros H. unfold msg_bytes. rewrite !length_app, H. reflexivity. Qed.

Ltac xsimp :=
  cbn -[ulong s32 u32 Z.to_nat Z.ltb Z.eqb events_since removelast].

(** Splits a concrete list of events before a suffix of known length. *)
Ltac split_suffix :=
  match goal with
  | |- exists t, ?l = t ++ ?s =>
      exists (take (length l - length s) l); reflexivity
  | |- exists t, ?l = t ++ ?s /\ _ =>
      exists (take (length l - length s) l); split; [reflexivity|]
  end.

Ltac known_events :=
  erewrite events_since_trace by (cbn; rewrite <- !app_assoc; reflexivity).

Lemma start_xmit_run o skb w h w1 :
  skb_is_can skb = true ->
  0 <= can_dlc (skb_frame skb) <= 8 ->
  length (data (skb_frame skb)) = 8%nat ->
  length (echo_skb (netdev (priv w))) = PANDA_MAX_TX_URBS ->
  panda_usb_get_free_ctx (skb_frame skb) w = Some (Some h, w1) ->
  exists w',
    panda_usb_start_xmit o skb w = Some (NETDEV_TX_OK, w') /\
    if xmit_fails o then
      ndx <$> tx_context (priv w') = ndx <$> tx_context (priv w) /\
      free_ctx_cnt (priv w') = s32 (s32 (free_ctx_cnt (priv w) - 1) + 1) /\
      echo_skb (netdev (priv w')) !! h = Some None /\
      tx_dropped (stats (netdev (priv w')))
        = ulong (tx_dropped (stats (netdev (priv w))) + 1) /\
      tx_submitted (priv w') = tx_submitted (priv w) /\
      exists skb' t,
        events_since w w' =
          t ++ [EvCanFreeEchoSkb (Z.of_nat h); EvKfreeSkb skb'; EvAtomicInc;
                EvStoreNdx h PANDA_CTX_FREE; EvNetifWakeQueue; EvKfreeSkb skb;
                EvStatTxDropped] /\
        (echo_skb (netdev (priv w)) !! h = Some None -> skb' = skb)
    else
      slot_index w' h = Some (Z.of_nat h) /\
      free_ctx_cnt (priv w') = s32 (free_ctx_cnt (priv w) - 1) /\
      stats (netdev (priv w')) = stats (netdev (priv w)) /\
      exists msg,
        panda_pack (skb_frame skb) w = Some (msg, w) /\
        tx_submitted (priv w')
          = tx_submitted (priv w) ++ [mk_urb (Some h) 0 0 (msg_bytes msg)] /\
        (exists t,
            events_since w w' = t ++ [EvUsbSubmitUrb (msg_bytes msg); EvUsbFreeUrb]) /\
        tx_context (priv w') !! h
          = Some (mk_ctx (Z.of_nat h) (can_dlc (skb_frame skb))) /\
        tx_context (priv w')
          = <[h := mk_ctx (Z.of_nat h) (can_dlc (skb_frame skb))]> (tx_context (priv w)) /\
        length (echo_skb (netdev (priv w'))) = length (echo_skb (netdev (priv w))) /\
        device_present (netdev (priv w')) = device_present (netdev (priv w)) /\
        (echo_skb (netdev (priv w)) !! h = Some None ->
         echo_skb (netdev (priv w')) !! h = Some (Some skb)).
Proof.
  intros Hcan Hdlc Hlen Hecho Hacq.
  pose proof Hacq as Hacq'.
  apply get_free_ctx_inv in Hacq' as (w0 & Hloop & ->).
  apply get_free_ctx_loop_inv in Hloop as (-> & Hh & c & Hc & Hfree).
  unfold panda_usb_start_xmit, can_dropped_invalid_skb.
  rewrite Hcan, (proj2 (Z.leb_le _ _)) by (unfold CAN_MAX_DLEN; lia).
  cbn [andb]. unfold_monad. rewrite Hacq.
  rewrite (pack_run _ w) by done.
  destruct w as [[ctxs cnt [st qs present echo] subm] tr].
  cbn [priv tx_context netdev echo_skb device_present stats free_ctx_cnt trace] in *.
  assert (Hl : (h < length ctxs)%nat) by (by apply lookup_lt_Some in Hc).
  assert (Hu : u32 (Z.of_nat h) = Z.of_nat h)
    by (apply u32_small; unfold PANDA_MAX_TX_URBS in Hh; lia).
  destruct (lookup_lt_is_Some_2 echo h) as [e He];
    [rewrite Hecho; unfold PANDA_MAX_TX_URBS in *; lia|].
  assert (Hhe : (h < length echo)%nat) by (by apply lookup_lt_Some in He).
  set (d := take (Z.to_nat (can_dlc (skb_frame skb))) (data (skb_frame skb))
              ++ drop (Z.to_nat (can_dlc (skb_frame skb))) (zero_bytes 8)).
  assert (Hd : length d = 8%nat).
  { unfold d. apply (memcpy_length (zero_bytes 8));
      rewrite ?Hlen, ?zero_bytes_length; lia. }
  set (msg := mk_can_msg (panda_pack_rir (skb_frame skb))
                (panda_pack_bus_dat_len (skb_frame skb)) d).
  assert (Hndx : (ndx <$> ctxs) !! h = Some PANDA_CTX_FREE).
  { rewrite list_lookup_fmap, Hc. cbn. f_equal. by apply Z.eqb_eq. }
  unfold check_last, reserve.
  unfold can_put_echo_skb, can_free_echo_skb, load_echo_skb, store_echo_skb,
    panda_pack, panda_usb_xmit, usb_anchor_urb, usb_unanchor_urb,
    netif_device_detach, panda_usb_free_ctx, atomic_inc, store_ndx, netif_wake_queue,
    inc_tx_dropped, load_ctx, modify_stats, modify_netdev, modify_priv, emit, get_priv,
    xmit_fails.
  unfold_monad.
  unfold set_netdev, set_stats, set_echo_skb, set_tx_context, set_free_ctx_cnt,
    set_queue_stopped, set_device_present, set_tx_submitted, slot_index.
  xsimp. rewrite list_lookup_insert_eq by done. xsimp.
  rewrite Hu, Nat2Z.id, (proj2 (Z.ltb_ge _ _)) by lia. rewrite He.
  destruct (s32 (cnt - 1) =? 0);
    destruct e as [occupant|]; xsimp;
    rewrite !(memcpy_run (zero_bytes 8)) by (rewrite ?Hlen, ?zero_bytes_length; lia);
    fold d; fold msg;
    destruct o as [urb_ok buf_ok err]; xsimp.
  all: destruct urb_ok; xsimp.
  all: try (destruct buf_ok; xsimp).
  all: try (rewrite memcpy_run by (rewrite ?zero_bytes_length, ?msg_bytes_length by done;
                                   unfold PANDA_USB_TX_BUFF_SIZE; lia);
            xsimp).
  all: try (rewrite (take_ge (msg_bytes msg)), (drop_ge (zero_bytes 16)), app_nil_r
              by (rewrite ?zero_bytes_length, ?msg_bytes_length by done;
                  unfold PANDA_USB_TX_BUFF_SIZE; lia)).
  all: try (destruct (err =? 0) eqn:Herr; xsimp;
            try (destruct (err =? - ENODEV); xsimp; rewrite Herr; xsimp)).
  all: change (- ENOMEM =? 0) with false; xsimp.
  all: rewrite ?list_lookup_insert_eq by done; xsimp.
  all: rewrite ?Nat2Z.id, ?(proj2 (Z.ltb_ge (Z.of_nat h) 0)) by lia;
       rewrite ?list_lookup_insert_eq by done; rewrite ?He; xsimp.
  all: rewrite ?list_lookup_insert_eq by done; xsimp.
  all: (eexists; split; [reflexivity|]); xsimp.
  all: rewrite ?list_insert_insert_eq, ?list_fmap_insert, ?removelast_last,
         ?list_lookup_insert_eq by (rewrite ?length_insert; done);
       xsimp.
  all: try (split; [by apply list_insert_id|]; split; [reflexivity|];
            split; [reflexivity|]; split; [reflexivity|]; split; [reflexivity|];
            eexists; known_events; split_suffix; congruence).
  all: (split; [reflexivity|]; split; [reflexivity|]; split; [reflexivity|]).
  all: (exists msg; split; [reflexivity|]; split; [reflexivity|]).
  all: (split; [known_events; split_suffix|]).
  all: rewrite ?length_insert, ?list_lookup_insert_eq by done.
  all: (split; [reflexivity|]; split; [reflexivity|]; split; [reflexivity|];
        split; [reflexivity|]).
  all: congruence.
Qed.

(** [panda_usb_xmit] returns a non-zero error exactly when the USB core
    refuses the URB, the buffer or the submission. *)
Lemma xmit_err_iff o msg ctx w err w' :
  panda_usb_xmit o msg ctx w = Some (err, w') ->
  err ≠ 0 <-> xmit_fails o = true.
Proof.
  unfold panda_usb_xmit, xmit_fails. destruct o as [urb_ok buf_ok e]. cbn.
  destruct urb_ok; cbn; [|by intros [= <- _]].
  destruct buf_ok; cbn.
  - intros H. apply bind_inv in H as (buf & w1 & _ & H). revert H.
    unfold usb_anchor_urb, usb_unanchor_urb, netif_device_detach, modify_netdev,
      modify_priv, emit. unfold_monad.
    destruct (e =? 0) eqn:He; cbn.
    + intros [= <- _]. split; [done|discriminate].
    + destruct (e =? - ENODEV); cbn; intros [= <- _];
        (split; [done|intros _; by apply Z.eqb_neq]).
  - unfold emit. unfold_monad. by intros [= <- _].
Qed.

(** C8.  When the submission fails for the context the transmit path
    acquired, [panda_usb_start_xmit] still returns [NETDEV_TX_OK] and, before
    it does, frees the echo entry of the slot, marks the slot free again,
    restores the free count and counts one dropped frame: every slot has
    the [ndx] it had before the call, so none is left busy. *)
Theorem start_xmit_failure_releases o skb w h w1 :
  skb_is_can skb = true ->
  0 <= can_dlc (skb_frame skb) <= 8 ->
  length (data (skb_frame skb)) = 8%nat ->
  length (echo_skb (netdev (priv w))) = PANDA_MAX_TX_URBS ->
  - 2 ^ 31 < free_ctx_cnt (priv w) < 2 ^ 31 ->
  panda_usb_get_free_ctx (skb_frame skb) w = Some (Some h, w1) ->
  xmit_fails o = true ->
  exists w',
    panda_usb_start_xmit o skb w = Some (NETDEV_TX_OK, w') /\
    ndx <$> tx_context (priv w') = ndx <$> tx_context (priv w) /\
    slot_index w' h = Some PANDA_CTX_FREE /\
    free_ctx_cnt (priv w') = free_ctx_cnt (priv w) /\
    echo_skb (netdev (priv w')) !! h = Some None /\
    tx_dropped (stats (netdev (priv w')))
      = ulong (tx_dropped (stats (netdev (priv w))) + 1) /\
    tx_submitted (priv w') = tx_submitted (priv w) /\
    exists skb' t,
      events_since w w' =
        t ++ [EvCanFreeEchoSkb (Z.of_nat h); EvKfreeSkb skb'; EvAtomicInc;
              EvStoreNdx h PANDA_CTX_FREE; EvNetifWakeQueue; EvKfreeSkb skb;
              EvStatTxDropped].
Proof.
  intros Hcan Hdlc Hlen Hecho Hcnt Hacq Hfail.
  destruct (start_xmit_run o skb w h w1 Hcan Hdlc Hlen Hecho Hacq) as (w' & Hrun & H).
  rewrite Hfail in H.
  destruct H as (Hndx & Hc & He & Hd & Hs & skb' & t & Hev & _).
  exists w'. split; [done|]. split; [done|].
  split.
  { apply get_free_ctx_inv in Hacq as (w0 & Hloop & _).
    apply get_free_ctx_loop_inv in Hloop as (_ & _ & c & Hcx & Hfree).
    unfold slot_index. rewrite <- list_lookup_fmap, Hndx, list_lookup_fmap, Hcx.
    cbn. f_equal. by apply Z.eqb_eq. }
  split.
  { rewrite Hc, (s32_small (free_ctx_cnt (priv w) - 1)) by lia.
    rewrite s32_small by lia. lia. }
  split; [done|]. split; [done|]. split; [done|].
  by exists skb', t.
Qed.

Lemma start_xmit_failure_releases_witness :
  exists w',
    panda_usb_start_xmit usb_gone skb_123 fresh_world = Some (NETDEV_TX_OK, w') /\
    ndx <$> tx_context (priv w') = ndx <$> tx_context (priv fresh_world) /\
    slot_index w' 0 = Some PANDA_CTX_FREE /\
    free_ctx_cnt (priv w') = free_ctx_cnt (priv fresh_world) /\
    echo_skb (netdev (priv w')) !! 0%nat = Some None /\
    tx_dropped (stats (netdev (priv w')))
      = ulong (tx_dropped (stats (netdev (priv fresh_world))) + 1) /\
    tx_submitted (priv w') = tx_submitted (priv fresh_world) /\
    exists skb' t,
      events_since fresh_world w' =
        t ++ [EvCanFreeEchoSkb (Z.of_nat 0); EvKfreeSkb skb'; EvAtomicInc;
              EvStoreNdx 0 PANDA_CTX_FREE; EvNetifWakeQueue; EvKfreeSkb skb_123;
              EvStatTxDropped].
Proof.
  apply (start_xmit_failure_releases usb_gone skb_123 fresh_world 0
           (check_last (reserve 0 frame_123 fresh_world)));
    [reflexivity
    | vm_compute; split; discriminate
    | reflexivity
    | vm_compute; reflexivity
    | vm_compute; split; reflexivity
    | vm_compute; reflexivity
    | reflexivity].
Defined.

(** A buffer that fails the validity check is freed and counted as
    dropped before any slot is taken. *)
Lemma start_xmit_invalid o skb w :
  skb_is_can skb && (can_dlc (skb_frame skb) <=? CAN_MAX_DLEN) = false ->
  panda_usb_start_xmit o skb w =
    Some (NETDEV_TX_OK,
          mk_world
            (set_netdev
               (set_stats
                  (mk_stats (rx_packets (stats (netdev (priv w))))
                     (rx_bytes (stats (netdev (priv w))))
                     (tx_packets (stats (netdev (priv w))))
                     (tx_bytes (stats (netdev (priv w))))
                     (ulong (tx_dropped (stats (netdev (priv w))) + 1))
                     (tx_aborted_errors (stats (netdev (priv w)))))
                  (netdev (priv w)))
               (priv w))
            (trace w ++ [EvKfreeSkb skb; EvStatTxDropped; EvLog MsgInvalidCanPacket])).
Proof.
  intros H. unfold panda_usb_start_xmit, can_dropped_invalid_skb. rewrite H.
  unfold inc_tx_dropped, printk, modify_stats, modify_netdev, modify_priv, emit.
  unfold_monad. cbn. rewrite <- !app_assoc. reflexivity.
Qed.

(** With no slot to take, the transmit path dereferences the null
    context. *)
Lemma start_xmit_null o skb w w1 :
  skb_is_can skb && (can_dlc (skb_frame skb) <=? CAN_MAX_DLEN) = true ->
  panda_usb_get_free_ctx (skb_frame skb) w = Some (None, w1) ->
  panda_usb_start_xmit o skb w = None.
Proof.
  intros H Hacq. unfold panda_usb_start_xmit, can_dropped_invalid_skb. rewrite H.
  unfold_monad. by rewrite Hacq.
Qed.

(** Under the pool invariant the free count is positive exactly when some
    slot is free. *)
Lemma pool_inv_free_slot w lv :
  pool_inv (mk_pool w lv) ->
  0 < free_ctx_cnt (priv w) <->
  exists h c, tx_context (priv w) !! h = Some c /\ is_free c = true.
Proof.
  intros (Hlen & Hnd & Hlt & Hslots & Hcnt). cbn in Hlen, Hnd, Hlt, Hslots, Hcnt.
  split.
  - intros Hpos.
    destruct (get_free_ctx_loop_spec PANDA_MAX_TX_URBS 0 (mk_can_frame 0 0 []) w)
      as [(h & c & _ & Hc & Hfree & _)|[Hbusy _]]; [by rewrite Hlen|by exists h, c|].
    exfalso.
    assert (length (seq 0 PANDA_MAX_TX_URBS) <= length lv)%nat as Hle.
    { apply submseteq_length, NoDup_submseteq; [apply NoDup_seq|].
      intros i Hi%elem_of_seq.
      destruct (lookup_lt_is_Some_2 (tx_context (priv w)) i) as [c Hc]; [lia|].
      specialize (Hslots i c Hc). specialize (Hbusy i c (Nat.le_0_l _) Hc).
      case_bool_decide as Hin; [done|].
      unfold is_free in Hbusy. rewrite Hslots, Z.eqb_refl in Hbusy. discriminate. }
    rewrite length_seq in Hle. lia.
  - intros (h & c & Hc & Hfree).
    assert (Hnotin : h ∉ lv).
    { intros Hin. specialize (Hslots h c Hc).
      rewrite bool_decide_eq_true_2 in Hslots by done.
      unfold is_free in Hfree. apply Z.eqb_eq in Hfree.
      apply lookup_lt_Some in Hc. unfold PANDA_CTX_FREE in Hfree. lia. }
    assert (length (h :: lv) <= PANDA_MAX_TX_URBS)%nat as Hle.
    { apply live_bounded; [by constructor|].
      intros x [->|Hx]%elem_of_cons; [|by apply Hlt].
      apply lookup_lt_Some in Hc. lia. }
    cbn in Hle. lia.
Qed.

(** C10.  In a pool that satisfies the invariant, with every slot busy
    [panda_usb_get_free_ctx] returns the null pointer; and for a buffer that
    passes the validity check [panda_usb_start_xmit] has a result, instead
    of dereferencing the null context, exactly when [free_ctx_cnt] is
    positive, that is when some slot is free. *)
Theorem start_xmit_needs_free_slot o skb w lv :
  pool_inv (mk_pool w lv) ->
  length (echo_skb (netdev (priv w))) = PANDA_MAX_TX_URBS ->
  skb_is_can skb = true ->
  0 <= can_dlc (skb_frame skb) <= 8 ->
  length (data (skb_frame skb)) = 8%nat ->
  (free_ctx_cnt (priv w) <= 0 ->
   panda_usb_get_free_ctx (skb_frame skb) w = Some (None, check_last w)) /\
  (is_Some (panda_usb_start_xmit o skb w) <-> 0 < free_ctx_cnt (priv w)) /\
  (0 < free_ctx_cnt (priv w) <->
   exists h c, tx_context (priv w) !! h = Some c /\ is_free c = true).
Proof.
  intros Hinv Hecho Hcan Hdlc Hlen.
  pose proof (pool_inv_free_slot w lv Hinv) as Hfree.
  assert (Hvalid : skb_is_can skb && (can_dlc (skb_frame skb) <=? CAN_MAX_DLEN) = true).
  { rewrite Hcan. apply Z.leb_le. unfold CAN_MAX_DLEN. lia. }
  assert (Hl : (0 + PANDA_MAX_TX_URBS)%nat = length (tx_context (priv w)))
    by (destruct Hinv as (Hl & _); cbn in Hl; by rewrite Hl).
  destruct (get_free_ctx_loop_spec PANDA_MAX_TX_URBS 0 (skb_frame skb) w Hl)
    as [(h & c & _ & Hc & Hf & _ & Hrun)|[Hbusy Hrun]].
  - assert (Hpos : 0 < free_ctx_cnt (priv w)) by (apply Hfree; by exists h, c).
    split; [lia|]. split; [|done].
    split; [done|]. intros _.
    apply get_free_ctx_run in Hrun.
    destruct (start_xmit_run o skb w h _ Hcan Hdlc Hlen Hecho Hrun) as (w' & -> & _).
    by eexists.
  - apply get_free_ctx_run in Hrun.
    assert (Hnone : ~ 0 < free_ctx_cnt (priv w)).
    { intros (h & c & Hc & Hf)%Hfree.
      specialize (Hbusy h c (Nat.le_0_l _) Hc). congruence. }
    split; [done|]. split; [|done].
    rewrite (start_xmit_null o skb w _ Hvalid Hrun).
    split; [by intros [? ?]|done].
Qed.

Lemma start_xmit_needs_free_slot_witness :
  (free_ctx_cnt (priv full_world) <= 0 ->
   panda_usb_get_free_ctx (skb_frame skb_123) full_world
     = Some (None, check_last full_world)) /\
  (is_Some (panda_usb_start_xmit usb_ok skb_123 full_world)
     <-> 0 < free_ctx_cnt (priv full_world)) /\
  (0 < free_ctx_cnt (priv full_world) <->
   exists h c, tx_context (priv full_world) !! h = Some c /\ is_free c = true).
Proof.
  apply (start_xmit_needs_free_slot usb_ok skb_123 full_world (seq 0 PANDA_MAX_TX_URBS));
    [|reflexivity|reflexivity|vm_compute; split; discriminate|reflexivity].
  unfold pool_inv. cbn [pool_world live].
  split; [reflexivity|]. split; [apply NoDup_seq|].
  split; [intros h Hh%elem_of_seq; lia|]. split; [|reflexivity].
  intros i c Hc.
  assert (Hi : (i < PANDA_MAX_TX_URBS)%nat).
  { apply lookup_lt_Some in Hc. cbn in Hc. done. }
  rewrite bool_decide_eq_true_2 by (apply elem_of_seq; lia).
  unfold full_world in Hc. cbn [priv tx_context] in Hc.
  rewrite list_lookup_fmap, lookup_seq_lt in Hc by done.
  by injection Hc as <-.
Defined.

(** ** Accounting of dropped frames *)

(** C9 (as the code has it).  Every buffer the transmit path drops, because
    it fails the validity check or because its submission fails, is counted
    in [tx_dropped], and a buffer that is submitted is not; a received wire
    message for which [alloc_can_skb] gives no buffer is discarded with
    nothing delivered, nothing logged and no statistic counter changed. *)
Theorem drop_accounting o skb w h w1 msg :
  0 <= can_dlc (skb_frame skb) ->
  length (data (skb_frame skb)) = 8%nat ->
  length (echo_skb (netdev (priv w))) = PANDA_MAX_TX_URBS ->
  panda_usb_get_free_ctx (skb_frame skb) w = Some (Some h, w1) ->
  (exists w',
      panda_usb_start_xmit o skb w = Some (NETDEV_TX_OK, w') /\
      tx_dropped (stats (netdev (priv w'))) =
        if negb (skb_is_can skb && (can_dlc (skb_frame skb) <=? CAN_MAX_DLEN))
           || xmit_fails o
        then ulong (tx_dropped (stats (netdev (priv w))) + 1)
        else tx_dropped (stats (netdev (priv w)))) /\
  panda_usb_process_can_rx false msg w = Some (tt, w).
Proof.
  intros Hdlc Hlen Hecho Hacq. split; [|reflexivity].
  destruct (skb_is_can skb && (can_dlc (skb_frame skb) <=? CAN_MAX_DLEN)) eqn:Hvalid.
  - apply andb_prop in Hvalid as [Hcan Hle]. apply Z.leb_le in Hle.
    unfold CAN_MAX_DLEN in Hle.
    destruct (start_xmit_run o skb w h w1 Hcan (conj Hdlc Hle) Hlen Hecho Hacq)
      as (w' & Hrun & H).
    exists w'. split; [done|]. cbn [negb orb].
    destruct (xmit_fails o).
    + by destruct H as (_ & _ & _ & -> & _).
    + by destruct H as (_ & _ & -> & _).
  - eexists. split; [by apply start_xmit_invalid|]. reflexivity.
Qed.

Lemma drop_accounting_witness :
  (exists w',
      panda_usb_start_xmit usb_gone skb_123 fresh_world = Some (NETDEV_TX_OK, w') /\
      tx_dropped (stats (netdev (priv w'))) =
        if negb (skb_is_can skb_123 && (can_dlc (skb_frame skb_123) <=? CAN_MAX_DLEN))
           || xmit_fails usb_gone
        then ulong (tx_dropped (stats (netdev (priv fresh_world))) + 1)
        else tx_dropped (stats (netdev (priv fresh_world)))) /\
  panda_usb_process_can_rx false msg_dlc15 fresh_world = Some (tt, fresh_world).
Proof.
  apply (drop_accounting usb_gone skb_123 fresh_world 0
           (check_last (reserve 0 frame_123 fresh_world)) msg_dlc15);
    [vm_compute; discriminate
    | reflexivity
    | vm_compute; reflexivity
    | vm_compute; reflexivity].
Defined.

(** C9 as stated fails: a received message for which no buffer can be
    allocated disappears with every counter as it was and no event at
    all. *)
Lemma drop_accounting_counterexample :
  exists w',
    panda_usb_process_can_rx false msg_dlc15 fresh_world = Some (tt, w') /\
    stats (netdev (priv w')) = stats (netdev (priv fresh_world)) /\
    events_since fresh_world w' = [].
Proof.
  exists fresh_world. split; [reflexivity|]. split; [reflexivity|].
  vm_compute. reflexivity.
Qed.

(** ** The receive callback *)

Lemma bind_assoc {A B C} (m : M A) (f : A -> M B) (g : B -> M C) w :
  ((m ≫= f) ≫= g) w = (m ≫= fun a => f a ≫= g) w.
Proof. unfold_monad. by destruct (m w) as [[a w']|]. Qed.

Lemma bind_ext {A B} (m : M A) (f g : A -> M B) w :
  (forall a w', f a w' = g a w') -> (m ≫= f) w = (m ≫= g) w.
Proof. intros H. unfold_monad. destruct (m w) as [[a w']|]; [apply H|done]. Qed.

Lemma nth_msg_data_length buf k :
  (16 * k + 16 <= length buf)%nat -> length (msg_data (nth_msg buf k)) = 8%nat.
Proof.
  intros H. unfold nth_msg, msg_of_bytes. cbn [msg_data].
  rewrite length_drop, length_take, length_drop. lia.
Qed.

Lemma msg_at_run buf k w :
  (16 * k + 16 <= length buf)%nat ->
  msg_at buf (16 * Z.of_nat k) w = Some (nth_msg buf k, w).
Proof.
  intros H. unfold msg_at, nth_msg.
  replace (Z.to_nat (16 * Z.of_nat k)) with (16 * k)%nat by lia.
  rewrite (proj2 (Z.leb_le 0 _)) by lia.
  rewrite length_take, length_drop.
  replace (16 `min` (length buf - 16 * k))%nat with 16%nat by lia.
  reflexivity.
Qed.

Lemma process_can_rx_run ok msg w :
  length (msg_data msg) = 8%nat ->
  panda_usb_process_can_rx ok msg w =
    Some (tt,
          if ok then
            mk_world
              (set_netdev
                 (set_stats
                    (mk_stats (ulong (rx_packets (stats (netdev (priv w))) + 1))
                       (ulong (rx_bytes (stats (netdev (priv w)))
                               + panda_unpack_can_dlc msg))
                       (tx_packets (stats (netdev (priv w))))
                       (tx_bytes (stats (netdev (priv w))))
                       (tx_dropped (stats (netdev (priv w))))
                       (tx_aborted_errors (stats (netdev (priv w)))))
                    (netdev (priv w)))
                 (priv w))
              (trace w ++ [EvStatRxPackets; EvStatRxBytes (panda_unpack_can_dlc msg);
                           EvNetifRx (unpacked msg)])
          else w).
Proof.
  intros Hl. unfold panda_usb_process_can_rx. destruct ok; [|reflexivity].
  cbn [negb]. rewrite (bind_Some _ _ _ _ _ (unpack_run msg w Hl)).
  unfold inc_rx_packets, add_rx_bytes, modify_stats, modify_netdev, modify_priv, emit.
  unfold_monad. cbn -[ulong]. rewrite <- !app_assoc. reflexivity.
Qed.

(** The loop processes the complete messages from the [k]-th on, then logs
    the format error when bytes are left over. *)
Lemma read_int_loop_spec alloc_ok u n :
  forall fuel k w,
    0 <= actual_length u < 2 ^ 31 - 16 ->
    actual_length u <= Z.of_nat (length (transfer_buffer u)) ->
    (k + n)%nat = Z.to_nat (actual_length u / 16) ->
    (n < fuel)%nat ->
    panda_usb_read_int_loop fuel alloc_ok u (16 * Z.of_nat k) k w =
      (deliver_all alloc_ok k (map (nth_msg (transfer_buffer u)) (seq k n));;
       when (negb (actual_length u mod 16 =? 0)) (emit (EvLog MsgFormatError))) w.
Proof.
  induction n as [|n IH]; intros fuel k w Hlen Hbuf Hk Hfuel;
    (destruct fuel as [|fuel]; [lia|]); cbn [panda_usb_read_int_loop seq map deliver_all].
  all: pose proof (Z.div_mod (actual_length u) 16 ltac:(lia)) as Hdm.
  all: pose proof (Z.mod_pos_bound (actual_length u) 16 ltac:(lia)) as Hmod.
  all: assert (Hq : 0 <= actual_length u / 16) by (apply Z.div_pos; lia).
  all: rewrite (u32_small (16 * Z.of_nat k)) by lia.
  all: unfold ulong;
       rewrite (Z.mod_small (16 * Z.of_nat k) (2 ^ 64)) by lia;
       rewrite (Z.mod_small (16 * Z.of_nat k + 16) (2 ^ 64)) by lia.
  - destruct (16 * Z.of_nat k <? actual_length u) eqn:Hlt.
    + apply Z.ltb_lt in Hlt.
      rewrite (proj2 (Z.gtb_gt _ _)) by lia.
      rewrite (proj2 (Z.eqb_neq _ _)) by lia. reflexivity.
    + apply Z.ltb_ge in Hlt.
      rewrite (proj2 (Z.eqb_eq _ _)) by lia. reflexivity.
  - rewrite (proj2 (Z.ltb_lt _ _)) by lia.
    assert (Hgt : (16 * Z.of_nat k + 16 >? actual_length u) = false).
    { rewrite Z.gtb_ltb. apply Z.ltb_ge. lia. }
    rewrite Hgt.
    assert (Hfit : (16 * k + 16 <= length (transfer_buffer u))%nat) by lia.
    rewrite (bind_Some _ _ _ _ _ (msg_at_run _ k w Hfit)).
    rewrite bind_assoc. apply bind_ext. intros [] w'.
    rewrite s32_small by lia.
    replace (16 * Z.of_nat k + 16) with (16 * Z.of_nat (S k)) by lia.
    apply IH; [done|done|lia|lia].
Qed.

Lemma deliver_all_run alloc_ok msgs :
  forall k w,
    Forall (fun m => length (msg_data m) = 8%nat) msgs ->
    exists w',
      deliver_all alloc_ok k msgs w = Some (tt, w') /\
      trace w' = trace w ++ rx_events alloc_ok k msgs /\
      device_present (netdev (priv w')) = device_present (netdev (priv w)) /\
      tx_context (priv w') = tx_context (priv w) /\
      free_ctx_cnt (priv w') = free_ctx_cnt (priv w).
Proof.
  induction msgs as [|m ms IH]; intros k w Hall; cbn [deliver_all rx_events].
  - exists w. by rewrite app_nil_r.
  - apply Forall_cons in Hall as [Hm Hms].
    rewrite (bind_Some _ _ _ _ _ (process_can_rx_run (alloc_ok k) m w Hm)).
    edestruct (IH (S k)) as (w' & -> & Htr & Hp & Hc & Hn); [done|].
    exists w'. split; [done|]. rewrite Htr, Hp, Hc, Hn.
    destruct (alloc_ok k); cbn; rewrite <- ?app_assoc; done.
Qed.

Lemma delivered_app t1 t2 : delivered (t1 ++ t2) = delivered t1 ++ delivered t2.
Proof. apply omap_app. Qed.

Lemma delivered_rx_events alloc_ok msgs :
  forall k, delivered (rx_events alloc_ok k msgs) = expected_frames alloc_ok k msgs.
Proof.
  induction msgs as [|m ms IH]; intros k; cbn [rx_events expected_frames]; [done|].
  rewrite delivered_app, IH. by destruct (alloc_ok k).
Qed.

Lemma delivered_resubmit_events retval : delivered (resubmit_events retval) = [].
Proof.
  unfold resubmit_events. destruct (retval =? - ENODEV); [done|].
  by destruct (retval =? 0).
Qed.

Lemma resubmit_read_run retval w :
  exists w',
    panda_usb_resubmit_read retval w = Some (tt, w') /\
    trace w' = trace w ++ resubmit_events retval.
Proof.
  unfold panda_usb_resubmit_read, resubmit_events, netif_device_detach, modify_netdev,
    modify_priv, emit. unfold_monad.
  destruct (retval =? - ENODEV); cbn; [eexists; split; [reflexivity|]|].
  - cbn. by rewrite <- app_assoc.
  - destruct (retval =? 0); cbn; eexists; (split; [reflexivity|]); cbn;
      by rewrite <- ?app_assoc.
Qed.

Lemma complete_messages_data u :
  0 <= actual_length u <= Z.of_nat (length (transfer_buffer u)) ->
  Forall (fun m => length (msg_data m) = 8%nat) (complete_messages u).
Proof.
  intros Hlen. unfold complete_messages. apply Forall_fmap, Forall_forall.
  intros k Hk%elem_of_seq. cbn. apply nth_msg_data_length.
  pose proof (Z.div_mod (actual_length u) 16 ltac:(lia)).
  pose proof (Z.mod_pos_bound (actual_length u) 16 ltac:(lia)).
  assert (0 <= actual_length u / 16) by (apply Z.div_pos; lia).
  lia.
Qed.

(** What the callback does with a successfully received buffer, whatever
    its length. *)
Lemma read_int_callback_run alloc_ok retval u w :
  device_present (netdev (priv w)) = true ->
  urb_status u = 0 ->
  0 <= actual_length u <= Z.of_nat (length (transfer_buffer u)) ->
  length (transfer_buffer u) = Z.to_nat PANDA_USB_RX_BUFF_SIZE ->
  exists w',
    panda_usb_read_int_callback alloc_ok retval u w = Some (tt, w') /\
    events_since w w' =
      rx_events alloc_ok 0 (complete_messages u)
        ++ (if actual_length u mod 16 =? 0 then [] else [EvLog MsgFormatError])
        ++ resubmit_events retval.
Proof.
  intros Hpres Hst Hlen Hbuf.
  assert (Hsmall : 0 <= actual_length u < 2 ^ 31 - 16).
  { rewrite Hbuf in Hlen. unfold PANDA_USB_RX_BUFF_SIZE in Hlen. lia. }
  pose proof (read_int_loop_spec alloc_ok u (Z.to_nat (actual_length u / 16))
                (S (Z.to_nat (actual_length u))) 0 w Hsmall (proj2 Hlen)) as Hloop.
  change (16 * Z.of_nat 0) with 0 in Hloop.
  fold (complete_messages u) in Hloop.
  destruct (deliver_all_run alloc_ok (complete_messages u) 0 w
              (complete_messages_data u Hlen)) as (w1 & Hrun & Htr & _).
  rewrite (bind_Some _ _ _ _ _ Hrun) in Hloop.
  assert (Hloop' : exists w2,
             panda_usb_read_int_loop (S (Z.to_nat (actual_length u))) alloc_ok u 0 0 w
               = Some (tt, w2) /\
             trace w2 = trace w ++ rx_events alloc_ok 0 (complete_messages u)
                          ++ (if actual_length u mod 16 =? 0 then []
                              else [EvLog MsgFormatError])).
  { rewrite Hloop; cycle 1.
    - reflexivity.
    - assert (actual_length u / 16 <= actual_length u)
        by (apply Z.div_le_upper_bound; lia).
      lia.
    - destruct (actual_length u mod 16 =? 0); cbn [negb when].
      + exists w1. split; [done|]. by rewrite app_nil_r.
      + eexists. split; [reflexivity|]. cbn [trace]. by rewrite Htr, <- app_assoc. }
  destruct Hloop' as (w2 & Hrun2 & Htr2).
  destruct (resubmit_read_run retval w2) as (w3 & Hrun3 & Htr3).
  exists w3. split.
  - unfold panda_usb_read_int_callback, netif_device_present, get_priv.
    unfold_monad. rewrite Hpres, Hst. cbn [negb Z.eqb].
    by rewrite Hrun2.
  - apply events_since_trace. by rewrite Htr3, Htr2, <- !app_assoc.
Qed.

Lemma Z_of_byte_range b : 0 <= Z_of_byte b < 2 ^ 8.
Proof.
  unfold Z_of_byte. pose proof (Byte.to_N_bounded b) as H.
  change (2 ^ 8) with 256. lia.
Qed.

Lemma lor_shiftl_add a b n :
  0 <= n -> 0 <= a < 2 ^ n -> Z.lor a (Z.shiftl b n) = a + 2 ^ n * b.
Proof.
  intros Hn Ha. rewrite Z.shiftl_mul_pow2 by done.
  rewrite <- Z.add_nocarry_lor; [lia|].
  apply Z.bits_inj'. intros i Hi. rewrite Z.land_spec, Z.bits_0.
  destruct (Z.ltb_spec i n).
  - rewrite Z.mul_pow2_bits_low by done. apply andb_false_r.
  - rewrite (testbit_high a n) by lia. done.
Qed.

Lemma load_u32_le32 b0 b1 b2 b3 : load_u32 [b0; b1; b2; b3] = le32 b0 b1 b2 b3.
Proof.
  unfold load_u32, le32.
  pose proof (Z_of_byte_range b0). pose proof (Z_of_byte_range b1).
  pose proof (Z_of_byte_range b2). pose proof (Z_of_byte_range b3).
  replace (Z.shiftl (Z_of_byte b3) 24) with (Z.shiftl (Z.shiftl (Z_of_byte b3) 8) 16)
    by (rewrite Z.shiftl_shiftl by lia; reflexivity).
  replace (Z.shiftl (Z_of_byte b2) 16) with (Z.shiftl (Z.shiftl (Z_of_byte b2) 8) 8)
    by (rewrite Z.shiftl_shiftl by lia; reflexivity).
  replace (Z.shiftl (Z.shiftl (Z_of_byte b3) 8) 16)
    with (Z.shiftl (Z.shiftl (Z.shiftl (Z_of_byte b3) 8) 8) 8)
    by (rewrite (Z.shiftl_shiftl _ 8 8) by lia; reflexivity).
  rewrite <- !Z.shiftl_lor.
  rewrite (lor_shiftl_add (Z_of_byte b2)) by lia.
  rewrite (lor_shiftl_add (Z_of_byte b1)) by lia.
  rewrite (lor_shiftl_add (Z_of_byte b0)) by lia.
  lia.
Qed.

(** The struct pointer of the receive path reads a record of sixteen
    bytes as the message the record carries. *)
Lemma wire_message_msg_of_bytes r m :
  wire_message r = Some m -> msg_of_bytes r = m /\ length r = 16%nat.
Proof.
  intros H.
  do 17 (destruct r as [|? r]; try discriminate).
  cbn in H. injection H as <-. split; [|reflexivity].
  unfold msg_of_bytes. cbn [take drop]. by rewrite !load_u32_le32.
Qed.

Lemma nth_msg_records records msgs rest :
  Forall2 (fun r m => wire_message r = Some m) records msgs ->
  map (nth_msg (concat records ++ rest)) (seq 0 (length records)) = msgs.
Proof.
  induction 1 as [|r m rs ms Hr _ IH]; [done|].
  apply wire_message_msg_of_bytes in Hr as [Hm Hl].
  cbn [length seq map concat]. f_equal.
  - unfold nth_msg. change (16 * 0)%nat with 0%nat. rewrite drop_0.
    rewrite <- app_assoc. rewrite take_app_length' by done. done.
  - rewrite <- fmap_S_seq, <- IH. rewrite <- list_fmap_compose.
    apply list_fmap_ext. intros _ k _. cbn. unfold nth_msg. do 2 f_equal.
    rewrite <- app_assoc.
    replace (16 * S k)%nat with (length r + 16 * k)%nat by lia.
    by rewrite drop_app_add.
Qed.

Lemma land_bit2 x : (Z.land x PANDA_CAN_EXTENDED =? 0) = negb (Z.testbit x 2).
Proof.
  destruct (Z.testbit x 2) eqn:Hb; cbn [negb].
  - apply Z.eqb_neq. by apply (land_bit_nonzero x PANDA_CAN_EXTENDED 2).
  - apply Z.eqb_eq. apply Z.bits_inj'. intros i Hi.
    rewrite Z.land_spec, Z.bits_0. change PANDA_CAN_EXTENDED with (2 ^ 2).
    rewrite Z.pow2_bits_eqb by lia.
    destruct (Z.eqb_spec 2 i) as [<-|_]; [by rewrite Hb|apply andb_false_r].
Qed.

(** The frame [panda_usb_process_can_rx] builds from a message is the
    frame the message stands for. *)
Lemma unpacked_wire_frame m :
  0 <= rir m < 2 ^ 32 -> unpacked m = wire_frame m.
Proof.
  intros Hr. unfold unpacked, wire_frame, panda_unpack_can_id, panda_unpack_can_dlc.
  assert (Hdlc : get_can_dlc (Z.land (bus_dat_len m) PANDA_DLC_MASK)
                 = Z.min (bus_dat_len m mod 16) 8).
  { unfold get_can_dlc, u8, CAN_MAX_DLC, PANDA_DLC_MASK.
    change 15 with (Z.ones 4). rewrite Z.land_ones by lia. change (2 ^ 4) with 16.
    pose proof (Z.mod_pos_bound (bus_dat_len m) 16 ltac:(lia)).
    by rewrite Z.mod_small by lia. }
  rewrite Hdlc, land_bit2, negb_involutive. cbv zeta.
  unfold zero_bytes. rewrite drop_replicate. f_equal.
  destruct (Z.testbit (rir m) 2).
  - rewrite Z.shiftr_div_pow2 by lia. change (2 ^ 3) with 8.
    change CAN_EFF_FLAG with (Z.shiftl 1 31).
    assert (0 <= rir m / 8 < 2 ^ 29).
    { split; [apply Z.div_pos; lia|]. apply Z.div_lt_upper_bound; lia. }
    rewrite lor_shiftl_add by lia. lia.
  - by rewrite Z.shiftr_div_pow2 by lia.
Qed.

Lemma wire_message_rir r m :
  wire_message r = Some m -> 0 <= rir m < 2 ^ 32.
Proof.
  intros H. do 17 (destruct r as [|? r]; try discriminate).
  cbn in H. injection H as <-. cbn [rir]. unfold le32.
  repeat match goal with
         | |- context [Z_of_byte ?b] =>
             lazymatch goal with
             | _ : 0 <= Z_of_byte b < 2 ^ 8 |- _ => fail
             | _ => pose proof (Z_of_byte_range b)
             end
         end.
  lia.
Qed.

Lemma expected_frames_wire alloc_ok msgs :
  forall k,
    Forall (fun m => 0 <= rir m < 2 ^ 32) msgs ->
    expected_frames alloc_ok k msgs = wire_frames alloc_ok k msgs.
Proof.
  induction msgs as [|m ms IH]; intros k Hall; [done|].
  apply Forall_cons in Hall as [Hm Hms]. cbn [expected_frames wire_frames].
  by rewrite (IH (S k)), unpacked_wire_frame.
Qed.

Lemma complete_messages_records u records msgs tail rest :
  Forall2 (fun r m => wire_message r = Some m) records msgs ->
  (length tail < 16)%nat ->
  transfer_buffer u = concat records ++ tail ++ rest ->
  actual_length u = Z.of_nat (16 * length records + length tail) ->
  complete_messages u = msgs.
Proof.
  intros Hrec Htail Hbuf Hlen. unfold complete_messages.
  rewrite Hbuf, Hlen.
  replace (Z.to_nat (Z.of_nat (16 * length records + length tail) / 16))
    with (length records).
  - by apply nth_msg_records.
  - rewrite Nat2Z.inj_add, Nat2Z.inj_mul. change (Z.of_nat 16) with 16.
    rewrite Z.mul_comm, Z.div_add_l by lia.
    rewrite Z.div_small by lia. lia.
Qed.

(** C6 (as the code has it).  For a successfully received buffer that
    holds the complete records [records], then between one and fifteen
    further bytes, the handler returns.  On a device that is still
    present it passes the message of every complete record, in buffer
    order, to [panda_usb_process_can_rx], and the frames handed to
    [netif_rx] are, in that order, the frames these messages stand for,
    one for each message that gets a socket buffer; it then logs the
    format error once, has read nothing of the trailing bytes, and
    resubmits the URB.  On a device that is no longer present it does
    nothing. *)
Theorem read_int_callback_partial alloc_ok retval u w records msgs tail rest :
  urb_status u = 0 ->
  Forall2 (fun r m => wire_message r = Some m) records msgs ->
  (0 < length tail < 16)%nat ->
  transfer_buffer u = concat records ++ tail ++ rest ->
  length (transfer_buffer u) = Z.to_nat PANDA_USB_RX_BUFF_SIZE ->
  actual_length u = Z.of_nat (16 * length records + length tail) ->
  exists w',
    panda_usb_read_int_callback alloc_ok retval u w = Some (tt, w') /\
    if device_present (netdev (priv w)) then
      exists w1,
        deliver_all alloc_ok 0 msgs w = Some (tt, w1) /\
        events_since w w1 = rx_events alloc_ok 0 msgs /\
        events_since w w' =
          events_since w w1 ++ [EvLog MsgFormatError] ++ resubmit_events retval /\
        delivered (events_since w w') = wire_frames alloc_ok 0 msgs
    else w' = w.
Proof.
  intros Hst Hrec Htail Hbuf Hlen Hact.
  destruct (device_present (netdev (priv w))) eqn:Hpres.
  - assert (Hfit : 0 <= actual_length u <= Z.of_nat (length (transfer_buffer u))).
    { rewrite Hact. split; [lia|]. apply inj_le.
      rewrite Hbuf, !length_app.
      assert (length (concat records) = 16 * length records)%nat; [|lia].
      clear -Hrec. induction Hrec as [|r m rs ms Hr _ IH]; [done|].
      apply wire_message_msg_of_bytes in Hr as [_ Hl].
      cbn [concat length]. rewrite length_app. lia. }
    assert (Hpart : actual_length u mod 16 ≠ 0).
    { rewrite Hact, Nat2Z.inj_add, Nat2Z.inj_mul. change (Z.of_nat 16) with 16.
      rewrite Z.add_comm, Z.mul_comm, Z.mod_add by lia.
      rewrite Z.mod_small by lia. lia. }
    destruct (read_int_callback_run alloc_ok retval u w Hpres Hst Hfit Hlen)
      as (w' & Hrun & Hev).
    rewrite (proj2 (Z.eqb_neq _ _) Hpart) in Hev.
    rewrite (complete_messages_records u records msgs tail rest) in Hev by (done || lia).
    assert (Hdata : Forall (fun m => length (msg_data m) = 8%nat) msgs).
    { clear -Hrec. induction Hrec as [|r m rs ms Hr _ IH]; constructor; [|done].
      do 17 (destruct r as [|? r]; try discriminate).
      cbn in Hr. by injection Hr as <-. }
    destruct (deliver_all_run alloc_ok msgs 0 w Hdata) as (w1 & Hdel & Htr & _).
    exists w'. split; [done|]. exists w1. split; [done|].
    assert (Hev1 : events_since w w1 = rx_events alloc_ok 0 msgs)
      by (by apply events_since_trace).
    split; [done|]. split; [by rewrite Hev1|].
    rewrite Hev, !delivered_app, delivered_rx_events, delivered_resubmit_events.
    cbn. rewrite app_nil_r. apply expected_frames_wire.
    clear -Hrec. induction Hrec as [|r m rs ms Hr _ IH]; constructor; [|done].
    by apply wire_message_rir in Hr.
  - exists w. split; [|done].
    unfold panda_usb_read_int_callback, netif_device_present, get_priv. unfold_monad.
    by rewrite Hpres.
Qed.

Lemma read_int_callback_partial_witness :
  exists w',
    panda_usb_read_int_callback (fun _ => true) 0 partial_urb fresh_world
      = Some (tt, w') /\
    exists w1,
      deliver_all (fun _ => true) 0 partial_messages fresh_world = Some (tt, w1) /\
      events_since fresh_world w1 = rx_events (fun _ => true) 0 partial_messages /\
      events_since fresh_world w' =
        events_since fresh_world w1 ++ [EvLog MsgFormatError] ++ resubmit_events 0 /\
      delivered (events_since fresh_world w') = partial_frames.
Proof.
  apply (read_int_callback_partial (fun _ => true) 0 partial_urb fresh_world
           partial_records partial_messages partial_tail partial_rest);
    [reflexivity
    | repeat constructor
    | vm_compute; lia
    | vm_compute; reflexivity
    | vm_compute; reflexivity
    | vm_compute; reflexivity].
Defined.

(** C6 as stated fails: on a device that is no longer present the handler
    returns at once.  Of a received buffer of forty bytes, two complete
    records and eight more bytes, it delivers no frame and logs no format
    error. *)
Lemma read_int_callback_partial_counterexample :
  urb_status partial_urb = 0 /\
  actual_length partial_urb = 40 /\
  transfer_buffer partial_urb = concat partial_records ++ partial_tail ++ partial_rest /\
  Forall2 (fun r m => wire_message r = Some m) partial_records partial_messages /\
  exists w',
    panda_usb_read_int_callback (fun _ => true) 0 partial_urb detached_world = Some (tt, w') /\
    events_since detached_world w' = [] /\
    delivered (events_since detached_world w') ≠
      wire_frames (fun _ => true) 0 partial_messages.
Proof.
  split; [reflexivity|]. split; [reflexivity|].
  split; [vm_compute; reflexivity|]. split; [repeat constructor|].
  exists detached_world. split; [vm_compute; reflexivity|].
  split; [vm_compute; reflexivity|]. vm_compute. discriminate.
Qed.

(** ** More on the pool *)

(** [panda_usb_get_free_ctx] is first-fit and total on a device with its
    [PANDA_MAX_TX_URBS] contexts: it returns the free slot of lowest index,
    writes that slot only and decrements the count; or, with every slot
    busy, returns the null pointer and leaves slots and count alone. *)
Theorem acquire_first_fit cf w :
  length (tx_context (priv w)) = PANDA_MAX_TX_URBS ->
  exists r w',
    panda_usb_get_free_ctx cf w = Some (r, w') /\
    match r with
    | Some h =>
        slot_index w h = Some PANDA_CTX_FREE /\
        (forall j, (j < h)%nat -> slot_index w j ≠ Some PANDA_CTX_FREE) /\
        tx_context (priv w')
          = <[h := mk_ctx (Z.of_nat h) (can_dlc cf)]> (tx_context (priv w)) /\
        free_ctx_cnt (priv w') = s32 (free_ctx_cnt (priv w) - 1)
    | None =>
        (forall j, slot_index w j ≠ Some PANDA_CTX_FREE) /\
        tx_context (priv w') = tx_context (priv w) /\
        free_ctx_cnt (priv w') = free_ctx_cnt (priv w)
    end.
Proof.
  intros Hlen.
  destruct (get_free_ctx_loop_spec PANDA_MAX_TX_URBS 0 cf w)
    as [(h & c & Hh & Hc & Hfree & Hbusy & Hrun)|[Hbusy Hrun]]; [by rewrite Hlen| |];
    apply get_free_ctx_run in Hrun; eexists _, _; (split; [exact Hrun|]).
  - rewrite check_last_tx_context, check_last_free_ctx_cnt. cbn.
    split. { unfold slot_index. rewrite Hc. cbn. f_equal. by apply Z.eqb_eq. }
    split.
    { intros j Hj. unfold slot_index.
      destruct (tx_context (priv w) !! j) as [c'|] eqn:Hc'; [|done].
      cbn. intros [= Heq]. specialize (Hbusy j c' ltac:(lia) Hc').
      unfold is_free in Hbusy. rewrite Heq, Z.eqb_refl in Hbusy. discriminate. }
    split; [|done]. rewrite u32_small; [done|]. unfold PANDA_MAX_TX_URBS in Hh. lia.
  - rewrite check_last_tx_context, check_last_free_ctx_cnt.
    split; [|done].
    intros j. unfold slot_index.
    destruct (tx_context (priv w) !! j) as [c'|] eqn:Hc'; [|done].
    cbn. intros [= Heq]. specialize (Hbusy j c' ltac:(lia) Hc').
    unfold is_free in Hbusy. rewrite Heq, Z.eqb_refl in Hbusy. discriminate.
Qed.

Lemma acquire_first_fit_witness :
  exists r w',
    panda_usb_get_free_ctx frame_123 one_busy_world = Some (r, w') /\
    match r with
    | Some h =>
        slot_index one_busy_world h = Some PANDA_CTX_FREE /\
        (forall j, (j < h)%nat -> slot_index one_busy_world j ≠ Some PANDA_CTX_FREE) /\
        tx_context (priv w')
          = <[h := mk_ctx (Z.of_nat h) (can_dlc frame_123)]>
              (tx_context (priv one_busy_world)) /\
        free_ctx_cnt (priv w') = s32 (free_ctx_cnt (priv one_busy_world) - 1)
    | None =>
        (forall j, slot_index one_busy_world j ≠ Some PANDA_CTX_FREE) /\
        tx_context (priv w') = tx_context (priv one_busy_world) /\
        free_ctx_cnt (priv w') = free_ctx_cnt (priv one_busy_world)
    end.
Proof. apply (acquire_first_fit frame_123 one_busy_world). reflexivity. Defined.

Lemma filter_ext_in {A} (P Q : A -> Prop)
    `{!forall x, Decision (P x), !forall x, Decision (Q x)} (l : list A) :
  (forall x, x ∈ l -> P x <-> Q x) -> filter P l = filter Q l.
Proof.
  induction l as [|a l IH]; intros Hext; [done|].
  assert (Ha : P a <-> Q a) by (apply Hext; by left).
  assert (Hl : filter P l = filter Q l)
    by (apply IH; intros x Hx; apply Hext; by right).
  destruct (decide (P a)).
  - rewrite !filter_cons_True by tauto. by rewrite Hl.
  - rewrite !filter_cons_False by tauto. done.
Qed.

Lemma free_slots_spec w lv :
  pool_inv (mk_pool w lv) ->
  free_slots w = filter (fun i => i ∉ lv) (seq 0 PANDA_MAX_TX_URBS).
Proof.
  intros (Hlen & Hnd & Hlt & Hslots & Hcnt). cbn in Hlen, Hslots.
  unfold free_slots. apply filter_ext_in.
  intros i Hi%elem_of_seq. unfold slot_index.
  destruct (lookup_lt_is_Some_2 (tx_context (priv w)) i) as [c Hc]; [lia|].
  rewrite Hc. cbn. specialize (Hslots i c Hc).
  case_bool_decide as Hin; rewrite Hslots; split.
  - intros [= Heq] _. unfold PANDA_CTX_FREE in Heq. lia.
  - done.
  - done.
  - done.
Qed.

Lemma length_filter_not_in (lv l : list nat) :
  NoDup lv -> NoDup l -> (forall h, h ∈ lv -> h ∈ l) ->
  (length (filter (fun i => i ∉ lv) l) + length lv = length l)%nat.
Proof.
  intros Hnd Hl Hsub.
  assert (filter (fun i => i ∈ lv) l ≡ₚ lv) as Hperm.
  { apply NoDup_Permutation; [by apply NoDup_filter|done|].
    intros x. rewrite list_elem_of_filter. split; [by intros [? _]|].
    intros Hx. split; [done|by apply Hsub]. }
  rewrite <- Hperm.
  rewrite <- (length_app (filter (fun i => i ∉ lv) l)).
  apply Permutation_length.
  rewrite (Permutation_app_comm _ _). apply filter_app_complement.
Qed.

(** In every state the protocol reaches, [free_ctx_cnt] is the number of
    slots whose [ndx] is [PANDA_CTX_FREE]. *)
Theorem free_count_exact st :
  pool_reachable st ->
  free_ctx_cnt (priv (pool_world st)) = Z.of_nat (length (free_slots (pool_world st))).
Proof.
  intros Hinv%pool_reachable_inv. destruct st as [w lv]. cbn [pool_world].
  rewrite (free_slots_spec w lv Hinv).
  destruct Hinv as (Hlen & Hnd & Hlt & Hslots & Hcnt). cbn [pool_world live] in *.
  assert (Hsub : forall h, h ∈ lv -> h ∈ seq 0 PANDA_MAX_TX_URBS).
  { intros h Hh. apply elem_of_seq. specialize (Hlt h Hh). lia. }
  pose proof (length_filter_not_in lv (seq 0 PANDA_MAX_TX_URBS) Hnd
                (NoDup_seq _ _) Hsub) as Hcount.
  rewrite length_seq in Hcount. rewrite Hcnt. lia.
Qed.

Lemma free_count_exact_witness :
  pool_reachable sample_pool /\
  free_ctx_cnt (priv (pool_world sample_pool))
    = Z.of_nat (length (free_slots (pool_world sample_pool))).
Proof.
  split; [exact sample_pool_reachable|].
  apply (free_count_exact sample_pool). exact sample_pool_reachable.
Defined.

(** ** More on the transmit path *)

(** A transmit whose submission succeeds keeps the slot busy with the
    frame's length code recorded, decrements the free count, keeps the
    buffer in the slot's echo entry (when that entry was empty), anchors one
    URB whose context is the slot and whose buffer is the sixteen bytes of
    the packed frame, and counts no drop. *)
Theorem start_xmit_success o skb w h w1 :
  skb_is_can skb = true ->
  0 <= can_dlc (skb_frame skb) <= 8 ->
  length (data (skb_frame skb)) = 8%nat ->
  length (echo_skb (netdev (priv w))) = PANDA_MAX_TX_URBS ->
  panda_usb_get_free_ctx (skb_frame skb) w = Some (Some h, w1) ->
  xmit_fails o = false ->
  exists w' msg,
    panda_usb_start_xmit o skb w = Some (NETDEV_TX_OK, w') /\
    panda_pack (skb_frame skb) w = Some (msg, w) /\
    tx_context (priv w') !! h = Some (mk_ctx (Z.of_nat h) (can_dlc (skb_frame skb))) /\
    free_ctx_cnt (priv w') = s32 (free_ctx_cnt (priv w) - 1) /\
    stats (netdev (priv w')) = stats (netdev (priv w)) /\
    tx_submitted (priv w')
      = tx_submitted (priv w) ++ [mk_urb (Some h) 0 0 (msg_bytes msg)] /\
    length (msg_bytes msg) = 16%nat /\
    (echo_skb (netdev (priv w)) !! h = Some None ->
     echo_skb (netdev (priv w')) !! h = Some (Some skb)) /\
    exists t, events_since w w' = t ++ [EvUsbSubmitUrb (msg_bytes msg); EvUsbFreeUrb].
Proof.
  intros Hcan Hdlc Hlen Hecho Hacq Hok.
  destruct (start_xmit_run o skb w h w1 Hcan Hdlc Hlen Hecho Hacq) as (w' & Hrun & H).
  rewrite Hok in H.
  destruct H as (_ & Hcnt & Hst & msg & Hpack & Hsub & Hev & Hc & _ & _ & _ & He).
  exists w', msg. repeat (split; [done|]).
  split; [|by split].
  rewrite pack_run in Hpack by done. injection Hpack as <-.
  apply msg_bytes_length. cbn [msg_data].
  apply (memcpy_length (zero_bytes 8)); rewrite ?Hlen, ?zero_bytes_length; lia.
Qed.

Lemma start_xmit_success_witness :
  exists w' msg,
    panda_usb_start_xmit usb_ok skb_123 fresh_world = Some (NETDEV_TX_OK, w') /\
    panda_pack (skb_frame skb_123) fresh_world = Some (msg, fresh_world) /\
    tx_context (priv w') !! 0%nat
      = Some (mk_ctx (Z.of_nat 0) (can_dlc (skb_frame skb_123))) /\
    free_ctx_cnt (priv w') = s32 (free_ctx_cnt (priv fresh_world) - 1) /\
    stats (netdev (priv w')) = stats (netdev (priv fresh_world)) /\
    tx_submitted (priv w')
      = tx_submitted (priv fresh_world) ++ [mk_urb (Some 0%nat) 0 0 (msg_bytes msg)] /\
    length (msg_bytes msg) = 16%nat /\
    (echo_skb (netdev (priv fresh_world)) !! 0%nat = Some None ->
     echo_skb (netdev (priv w')) !! 0%nat = Some (Some skb_123)) /\
    exists t,
      events_since fresh_world w' = t ++ [EvUsbSubmitUrb (msg_bytes msg); EvUsbFreeUrb].
Proof.
  apply (start_xmit_success usb_ok skb_123 fresh_world 0
           (check_last (reserve 0 frame_123 fresh_world)));
    [reflexivity
    | vm_compute; split; discriminate
    | reflexivity
    | vm_compute; reflexivity
    | vm_compute; reflexivity
    | reflexivity].
Defined.

(** When the submission fails and the slot's echo entry was empty, the
    buffer handed to [panda_usb_start_xmit] is freed twice: once by
    [can_free_echo_skb], which frees the buffer [can_put_echo_skb] stored,
    and once more by the [dev_kfree_skb] that follows the release of the
    slot. *)
Theorem start_xmit_failure_frees_twice o skb w h w1 :
  skb_is_can skb = true ->
  0 <= can_dlc (skb_frame skb) <= 8 ->
  length (data (skb_frame skb)) = 8%nat ->
  length (echo_skb (netdev (priv w))) = PANDA_MAX_TX_URBS ->
  panda_usb_get_free_ctx (skb_frame skb) w = Some (Some h, w1) ->
  echo_skb (netdev (priv w)) !! h = Some None ->
  xmit_fails o = true ->
  exists w' t,
    panda_usb_start_xmit o skb w = Some (NETDEV_TX_OK, w') /\
    events_since w w' =
      t ++ [EvCanFreeEchoSkb (Z.of_nat h); EvKfreeSkb skb; EvAtomicInc;
            EvStoreNdx h PANDA_CTX_FREE; EvNetifWakeQueue; EvKfreeSkb skb;
            EvStatTxDropped].
Proof.
  intros Hcan Hdlc Hlen Hecho Hacq Hempty Hfail.
  destruct (start_xmit_run o skb w h w1 Hcan Hdlc Hlen Hecho Hacq) as (w' & Hrun & H).
  rewrite Hfail in H.
  destruct H as (_ & _ & _ & _ & _ & skb' & t & Hev & Hsame).
  rewrite (Hsame Hempty) in Hev. by exists w', t.
Qed.

Lemma start_xmit_failure_frees_twice_witness :
  exists w' t,
    panda_usb_start_xmit usb_gone skb_123 fresh_world = Some (NETDEV_TX_OK, w') /\
    events_since fresh_world w' =
      t ++ [EvCanFreeEchoSkb (Z.of_nat 0); EvKfreeSkb skb_123; EvAtomicInc;
            EvStoreNdx 0 PANDA_CTX_FREE; EvNetifWakeQueue; EvKfreeSkb skb_123;
            EvStatTxDropped].
Proof.
  apply (start_xmit_failure_frees_twice usb_gone skb_123 fresh_world 0
           (check_last (reserve 0 frame_123 fresh_world)));
    [reflexivity
    | vm_compute; split; discriminate
    | reflexivity
    | vm_compute; reflexivity
    | vm_compute; reflexivity
    | vm_compute; reflexivity
    | reflexivity].
Defined.

(** A buffer that is not a classic CAN buffer, or whose length code exceeds
    eight, is dropped before the pool is touched: it is freed and counted in
    [tx_dropped], no slot is taken, no echo entry is written, nothing is
    submitted, and the transmit still reports [NETDEV_TX_OK]; this holds
    with a full pool too. *)
Theorem start_xmit_rejects_invalid o skb w :
  skb_is_can skb = false \/ CAN_MAX_DLEN < can_dlc (skb_frame skb) ->
  exists w',
    panda_usb_start_xmit o skb w = Some (NETDEV_TX_OK, w') /\
    tx_context (priv w') = tx_context (priv w) /\
    free_ctx_cnt (priv w') = free_ctx_cnt (priv w) /\
    echo_skb (netdev (priv w')) = echo_skb (netdev (priv w)) /\
    tx_submitted (priv w') = tx_submitted (priv w) /\
    tx_dropped (stats (netdev (priv w')))
      = ulong (tx_dropped (stats (netdev (priv w))) + 1) /\
    events_since w w' = [EvKfreeSkb skb; EvStatTxDropped; EvLog MsgInvalidCanPacket].
Proof.
  intros Hbad.
  assert (H : skb_is_can skb && (can_dlc (skb_frame skb) <=? CAN_MAX_DLEN) = false).
  { destruct Hbad as [->|Hd]; [done|].
    apply andb_false_iff. right. by apply Z.leb_gt. }
  eexists. split; [by apply start_xmit_invalid|].
  repeat (split; [reflexivity|]). by apply events_since_trace.
Qed.

Lemma start_xmit_rejects_invalid_witness :
  let skb := mk_skb true (mk_can_frame 0x123 9 (zero_bytes 8)) in
  exists w',
    panda_usb_start_xmit usb_ok skb full_world = Some (NETDEV_TX_OK, w') /\
    tx_context (priv w') = tx_context (priv full_world) /\
    free_ctx_cnt (priv w') = free_ctx_cnt (priv full_world) /\
    echo_skb (netdev (priv w')) = echo_skb (netdev (priv full_world)) /\
    tx_submitted (priv w') = tx_submitted (priv full_world) /\
    tx_dropped (stats (netdev (priv w')))
      = ulong (tx_dropped (stats (netdev (priv full_world))) + 1) /\
    events_since full_world w' = [EvKfreeSkb skb; EvStatTxDropped; EvLog MsgInvalidCanPacket].
Proof.
  intros skb. apply (start_xmit_rejects_invalid usb_ok skb full_world).
  right. reflexivity.
Defined.

Lemma pool_inv_count w lv :
  pool_inv (mk_pool w lv) ->
  free_ctx_cnt (priv w) = Z.of_nat (length (free_slots w)) /\
  (length lv <= PANDA_MAX_TX_URBS)%nat.
Proof.
  intros Hinv. rewrite (free_slots_spec w lv Hinv).
  destruct Hinv as (Hlen & Hnd & Hlt & Hslots & Hcnt). cbn [pool_world live] in *.
  assert (Hsub : forall h, h ∈ lv -> h ∈ seq 0 PANDA_MAX_TX_URBS).
  { intros h Hh. apply elem_of_seq. specialize (Hlt h Hh). lia. }
  pose proof (length_filter_not_in lv (seq 0 PANDA_MAX_TX_URBS) Hnd
                (NoDup_seq _ _) Hsub) as Hcount.
  rewrite length_seq in Hcount. rewrite Hcnt. lia.
Qed.

(** [panda_usb_free_ctx] does not check that the slot is busy: releasing a
    slot that is already free (a second release, or a handle never
    acquired) still increments the count and wakes the queue, while no slot
    changes state, so from then on [free_ctx_cnt] is one more than the
    number of free slots. *)
Theorem release_unchecked w lv h c :
  pool_inv (mk_pool w lv) ->
  tx_context (priv w) !! h = Some c ->
  is_free c = true ->
  exists w',
    panda_usb_free_ctx (Some h) w = Some (tt, w') /\
    free_slots w' = free_slots w /\
    free_ctx_cnt (priv w') = free_ctx_cnt (priv w) + 1 /\
    free_ctx_cnt (priv w') = Z.of_nat (length (free_slots w')) + 1 /\
    queue_stopped (netdev (priv w')) = false.
Proof.
  intros Hinv Hc Hfree.
  destruct (pool_inv_count w lv Hinv) as [Hcount Hbound].
  exists (released h (dlc c) w). split; [by apply free_ctx_run|].
  assert (Hslots : free_slots (released h (dlc c) w) = free_slots w).
  { unfold free_slots. apply filter_ext_in. intros i _. unfold slot_index, released.
    cbn. destruct (decide (i = h)) as [->|Hne].
    - rewrite list_lookup_insert_eq by (by apply lookup_lt_Some in Hc).
      rewrite Hc. cbn. unfold is_free in Hfree. apply Z.eqb_eq in Hfree.
      by rewrite Hfree.
    - by rewrite list_lookup_insert_ne. }
  assert (Hcnt : free_ctx_cnt (priv (released h (dlc c) w)) = free_ctx_cnt (priv w) + 1).
  { cbn. apply s32_small.
    destruct Hinv as (_ & _ & _ & _ & Hcnt). cbn [pool_world live] in Hcnt.
    unfold PANDA_MAX_TX_URBS in *. lia. }
  split; [done|]. split; [done|]. split; [|done].
  rewrite Hcnt, Hslots, Hcount. done.
Qed.

Lemma release_unchecked_witness :
  exists w',
    panda_usb_free_ctx (Some 0%nat) fresh_world = Some (tt, w') /\
    free_slots w' = free_slots fresh_world /\
    free_ctx_cnt (priv w') = free_ctx_cnt (priv fresh_world) + 1 /\
    free_ctx_cnt (priv w') = Z.of_nat (length (free_slots w')) + 1 /\
    queue_stopped (netdev (priv w')) = false.
Proof.
  apply (release_unchecked fresh_world [] 0 (mk_ctx PANDA_CTX_FREE 0));
    [|vm_compute; reflexivity|reflexivity].
  apply (pool_inv_init probed_world); vm_compute; reflexivity.
Defined.

(** The completion of a URB whose slot holds an echo buffer. *)
Lemma write_bulk_callback_echo u i c skb w :
  urb_context u = Some i ->
  tx_context (priv w) !! i = Some c ->
  ndx c = Z.of_nat i ->
  device_present (netdev (priv w)) = true ->
  echo_skb (netdev (priv w)) !! i = Some (Some skb) ->
  exists w',
    panda_usb_write_bulk_callback u w = Some (tt, w') /\
    tx_context (priv w') = <[i := mk_ctx PANDA_CTX_FREE (dlc c)]> (tx_context (priv w)) /\
    free_ctx_cnt (priv w') = s32 (free_ctx_cnt (priv w) + 1) /\
    tx_packets (stats (netdev (priv w'))) = ulong (tx_packets (stats (netdev (priv w))) + 1) /\
    tx_bytes (stats (netdev (priv w'))) = ulong (tx_bytes (stats (netdev (priv w))) + dlc c) /\
    tx_dropped (stats (netdev (priv w'))) = tx_dropped (stats (netdev (priv w))) /\
    echo_skb (netdev (priv w')) = <[i := None]> (echo_skb (netdev (priv w))) /\
    delivered (events_since w w') = [skb_frame skb].
Proof.
  intros Hctx Hc Hndx Hpres He.
  destruct w as [[ctxs cnt [st qs present echo] subm] tr].
  cbn [priv tx_context netdev echo_skb device_present stats free_ctx_cnt trace] in *.
  subst present.
  unfold panda_usb_write_bulk_callback. rewrite Hctx.
  unfold netif_device_present, inc_tx_packets, add_tx_bytes, can_get_echo_skb,
    load_echo_skb, store_echo_skb, panda_usb_free_ctx, atomic_inc, store_ndx,
    netif_wake_queue, load_ctx, modify_stats, modify_netdev, modify_priv, emit, get_priv.
  unfold_monad.
  unfold set_netdev, set_stats, set_echo_skb, set_tx_context, set_free_ctx_cnt,
    set_queue_stopped.
  xsimp. rewrite Hc. xsimp. rewrite Hc. xsimp.
  rewrite Hndx, Nat2Z.id, (proj2 (Z.ltb_ge _ _)) by lia. rewrite He. xsimp.
  destruct (urb_status u =? 0); xsimp; rewrite Hc; xsimp;
    (eexists; split; [reflexivity|]); xsimp;
    repeat (split; [reflexivity|]);
    known_events; reflexivity.
Qed.

(** A transmit whose submission succeeds, followed by the completion of the
    URB it anchored (with any status), puts the pool back as it was: every
    slot has its former [ndx] and the count its former value.  The
    completion counts one packet and the frame's length code in bytes, and
    hands the transmitted frame, and nothing else, to [netif_rx] as the
    echo. *)
Theorem transmit_then_complete o skb w h w1 status :
  skb_is_can skb = true ->
  0 <= can_dlc (skb_frame skb) <= 8 ->
  length (data (skb_frame skb)) = 8%nat ->
  length (echo_skb (netdev (priv w))) = PANDA_MAX_TX_URBS ->
  echo_skb (netdev (priv w)) !! h = Some None ->
  device_present (netdev (priv w)) = true ->
  - 2 ^ 31 < free_ctx_cnt (priv w) < 2 ^ 31 ->
  panda_usb_get_free_ctx (skb_frame skb) w = Some (Some h, w1) ->
  xmit_fails o = false ->
  exists w' u w'',
    panda_usb_start_xmit o skb w = Some (NETDEV_TX_OK, w') /\
    last (tx_submitted (priv w')) = Some u /\
    panda_usb_write_bulk_callback
      (mk_urb (urb_context u) status 16 (transfer_buffer u)) w' = Some (tt, w'') /\
    ndx <$> tx_context (priv w'') = ndx <$> tx_context (priv w) /\
    free_ctx_cnt (priv w'') = free_ctx_cnt (priv w) /\
    tx_packets (stats (netdev (priv w'')))
      = ulong (tx_packets (stats (netdev (priv w))) + 1) /\
    tx_bytes (stats (netdev (priv w'')))
      = ulong (tx_bytes (stats (netdev (priv w))) + can_dlc (skb_frame skb)) /\
    tx_dropped (stats (netdev (priv w''))) = tx_dropped (stats (netdev (priv w))) /\
    echo_skb (netdev (priv w'')) !! h = Some None /\
    delivered (events_since w' w'') = [skb_frame skb].
Proof.
  intros Hcan Hdlc Hlen Hecho Hempty Hpres Hrange Hacq Hok.
  destruct (start_xmit_run o skb w h w1 Hcan Hdlc Hlen Hecho Hacq) as (w' & Hrun & H).
  rewrite Hok in H.
  destruct H as (_ & Hcnt & Hst & msg & _ & Hsub & _ & Hc & Hall & Hel & Hp & He).
  specialize (He Hempty).
  set (u := mk_urb (Some h) 0 0 (msg_bytes msg)).
  destruct (write_bulk_callback_echo (mk_urb (urb_context u) status 16 (transfer_buffer u))
              h _ skb w' eq_refl Hc eq_refl ltac:(congruence) He)
    as (w'' & Hcb & Hctx & Hcnt2 & Hpk & Hby & Hdr & Hecho2 & Hdel).
  exists w', u, w''. split; [done|].
  split; [by rewrite Hsub, last_snoc|]. split; [done|].
  apply get_free_ctx_inv in Hacq as (w0 & Hloop & _).
  apply get_free_ctx_loop_inv in Hloop as (_ & _ & c & Hcx & Hfree).
  assert (Hl : (h < length (tx_context (priv w)))%nat) by (by apply lookup_lt_Some in Hcx).
  split.
  { rewrite Hctx, Hall, list_insert_insert_eq, list_fmap_insert. cbn.
    apply list_insert_id. rewrite list_lookup_fmap, Hcx. cbn. f_equal.
    by apply Z.eqb_eq. }
  split.
  { rewrite Hcnt2, Hcnt, (s32_small (free_ctx_cnt (priv w) - 1)) by lia.
    rewrite s32_small by lia. lia. }
  split; [by rewrite Hpk, Hst|]. split; [by rewrite Hby, Hst|].
  split; [by rewrite Hdr, Hst|].
  split; [|done].
  rewrite Hecho2. apply list_lookup_insert_eq. rewrite Hel.
  by apply lookup_lt_Some in Hempty.
Qed.

Lemma transmit_then_complete_witness :
  exists w' u w'',
    panda_usb_start_xmit usb_ok skb_123 fresh_world = Some (NETDEV_TX_OK, w') /\
    last (tx_submitted (priv w')) = Some u /\
    panda_usb_write_bulk_callback
      (mk_urb (urb_context u) (- 71) 16 (transfer_buffer u)) w' = Some (tt, w'') /\
    ndx <$> tx_context (priv w'') = ndx <$> tx_context (priv fresh_world) /\
    free_ctx_cnt (priv w'') = free_ctx_cnt (priv fresh_world) /\
    tx_packets (stats (netdev (priv w'')))
      = ulong (tx_packets (stats (netdev (priv fresh_world))) + 1) /\
    tx_bytes (stats (netdev (priv w'')))
      = ulong (tx_bytes (stats (netdev (priv fresh_world))) + can_dlc (skb_frame skb_123)) /\
    tx_dropped (stats (netdev (priv w''))) = tx_dropped (stats (netdev (priv fresh_world))) /\
    echo_skb (netdev (priv w'')) !! 0%nat = Some None /\
    delivered (events_since w' w'') = [skb_frame skb_123].
Proof.
  apply (transmit_then_complete usb_ok skb_123 fresh_world 0
           (check_last (reserve 0 frame_123 fresh_world)) (- 71));
    [reflexivity
    | vm_compute; split; discriminate
    | reflexivity
    | vm_compute; reflexivity
    | vm_compute; reflexivity
    | vm_compute; reflexivity
    | vm_compute; split; reflexivity
    | vm_compute; reflexivity
    | reflexivity].
Defined.

(** ** The wire bytes *)

Lemma Z_of_byte_of_Z z : Z_of_byte (byte_of_Z z) = z mod 2 ^ 8.
Proof.
  unfold Z_of_byte, byte_of_Z.
  pose proof (Z.mod_pos_bound z (2 ^ 8) ltac:(lia)) as Hr.
  destruct (Byte.of_N (Z.to_N (z mod 2 ^ 8))) as [b|] eqn:E.
  - apply Byte.to_of_N in E. rewrite E. lia.
  - apply Byte.of_N_None_iff in E. lia.
Qed.

Lemma byte_field_bits x k n :
  0 <= k -> 0 <= n ->
  Z.testbit (Z.shiftl (Z.shiftr x k mod 2 ^ 8) k) n =
    if (k <=? n) && (n <? k + 8) then Z.testbit x n else false.
Proof.
  intros Hk Hn. rewrite Z.shiftl_spec by done.
  destruct (Z.leb_spec k n) as [Hle|Hlt]; cbn [andb].
  - destruct (Z.ltb_spec n (k + 8)) as [Hlt|Hge].
    + rewrite Z.mod_pow2_bits_low by lia. rewrite Z.shiftr_spec by lia.
      f_equal. lia.
    + apply Z.mod_pow2_bits_high. lia.
  - apply Z.testbit_neg_r. lia.
Qed.

(** A [u32] stored on the little-endian host and loaded again. *)
Lemma load_store_u32 x : 0 <= x < 2 ^ 32 -> load_u32 (store_u32 x) = x.
Proof.
  intros Hx. unfold load_u32, store_u32. rewrite !Z_of_byte_of_Z.
  apply Z.bits_inj'. intros n Hn.
  rewrite <- (Z.shiftr_0_r x) at 1. rewrite <- (Z.shiftl_0_r (Z.shiftr x 0 mod 2 ^ 8)).
  rewrite !Z.lor_spec, !byte_field_bits by lia.
  destruct (Z.ltb_spec n 8); [by rewrite !(proj2 (Z.leb_le _ _)), ?(proj2 (Z.leb_gt _ _)),
      ?(proj2 (Z.ltb_lt _ _)) by lia; cbn; rewrite ?orb_false_r|].
  destruct (Z.ltb_spec n 16).
  { rewrite (proj2 (Z.leb_le 0 n)), (proj2 (Z.leb_le 8 n)), (proj2 (Z.leb_gt 16 n)),
      (proj2 (Z.leb_gt 24 n)), (proj2 (Z.ltb_ge n (0 + 8))), (proj2 (Z.ltb_lt n (8 + 8)))
      by lia. cbn. by rewrite orb_false_r. }
  destruct (Z.ltb_spec n 24).
  { rewrite (proj2 (Z.leb_le 0 n)), (proj2 (Z.leb_le 8 n)), (proj2 (Z.leb_le 16 n)),
      (proj2 (Z.leb_gt 24 n)), (proj2 (Z.ltb_ge n (0 + 8))), (proj2 (Z.ltb_ge n (8 + 8))),
      (proj2 (Z.ltb_lt n (16 + 8))) by lia. cbn. by rewrite orb_false_r. }
  destruct (Z.ltb_spec n 32).
  { rewrite (proj2 (Z.leb_le 0 n)), (proj2 (Z.leb_le 8 n)), (proj2 (Z.leb_le 16 n)),
      (proj2 (Z.leb_le 24 n)), (proj2 (Z.ltb_ge n (0 + 8))), (proj2 (Z.ltb_ge n (8 + 8))),
      (proj2 (Z.ltb_ge n (16 + 8))), (proj2 (Z.ltb_lt n (24 + 8))) by lia. done. }
  rewrite (proj2 (Z.leb_le 0 n)), (proj2 (Z.leb_le 8 n)), (proj2 (Z.leb_le 16 n)),
    (proj2 (Z.leb_le 24 n)), (proj2 (Z.ltb_ge n (0 + 8))), (proj2 (Z.ltb_ge n (8 + 8))),
    (proj2 (Z.ltb_ge n (16 + 8))), (proj2 (Z.ltb_ge n (24 + 8))) by lia.
  cbn. symmetry. apply (testbit_high x 32); lia.
Qed.

(** The sixteen bytes [panda_usb_xmit] copies out of a message, read back
    through the struct pointer of the receive path, are the message again:
    the two [u32] fields keep their values and the data bytes their
    order. *)
Theorem wire_bytes_round_trip msg :
  0 <= rir msg < 2 ^ 32 ->
  0 <= bus_dat_len msg < 2 ^ 32 ->
  length (msg_bytes msg) = (8 + length (msg_data msg))%nat /\
  msg_of_bytes (msg_bytes msg) = msg.
Proof.
  intros Hr Hb. split; [unfold msg_bytes; by rewrite !length_app|].
  unfold msg_of_bytes, msg_bytes. destruct msg as [r b d]. cbn [rir bus_dat_len msg_data] in *.
  change (take 4 (store_u32 r ++ store_u32 b ++ d)) with (store_u32 r).
  change (take 4 (drop 4 (store_u32 r ++ store_u32 b ++ d))) with (store_u32 b).
  change (drop 8 (store_u32 r ++ store_u32 b ++ d)) with d.
  by rewrite !load_store_u32.
Qed.

Lemma wire_bytes_round_trip_witness :
  length (msg_bytes msg_dlc15) = (8 + length (msg_data msg_dlc15))%nat /\
  msg_of_bytes (msg_bytes msg_dlc15) = msg_dlc15.
Proof.
  apply (wire_bytes_round_trip msg_dlc15); vm_compute; split; congruence.
Defined.

(** ** More on the codec *)

Lemma land_high_bit_clear a k :
  0 <= k -> 0 <= a < 2 ^ k -> Z.land a (2 ^ k) = 0.
Proof.
  intros Hk Ha. apply Z.bits_inj'. intros n Hn.
  rewrite Z.land_spec, Z.bits_0, Z.pow2_bits_eqb by done.
  destruct (Z.eqb_spec k n) as [<-|]; [|apply andb_false_r].
  by rewrite (testbit_high a k) by lia.
Qed.

Lemma shiftr_bound x k j :
  0 <= j -> 0 <= k -> 0 <= x < 2 ^ (k + j) -> 0 <= Z.shiftr x j < 2 ^ k.
Proof.
  intros Hj Hk Hx. rewrite Z.shiftr_div_pow2 by done. split.
  - apply Z.div_pos; lia.
  - apply Z.div_lt_upper_bound; [lia|]. rewrite <- Z.pow_add_r by lia.
    rewrite (Z.add_comm j k). apply Hx.
Qed.

(** Whatever sixteen bytes arrive, the frame built from them is well
    formed: a length code of at most eight, eight data bytes of which those
    past the length code are zero, and a [can_id] that is an 11-bit
    identifier, or a 29-bit identifier with the extended flag, never with
    the remote-request or error flag. *)
Theorem unpack_yields_valid_frame msg w :
  0 <= rir msg < 2 ^ 32 ->
  length (msg_data msg) = 8%nat ->
  exists cf,
    panda_unpack msg w = Some (cf, w) /\
    0 <= can_dlc cf <= 8 /\
    length (data cf) = 8%nat /\
    (forall i, (Z.to_nat (can_dlc cf) <= i < 8)%nat -> data cf !! i = Some Byte.x00) /\
    frame_payload cf = take (Z.to_nat (can_dlc cf)) (msg_data msg) /\
    frame_extended cf = negb (Z.land (rir msg) PANDA_CAN_EXTENDED =? 0) /\
    0 <= frame_id cf < (if frame_extended cf then 2 ^ 29 else 2 ^ 11) /\
    can_id cf = (if frame_extended cf then Z.lor (frame_id cf) CAN_EFF_FLAG
                 else frame_id cf) /\
    Z.land (can_id cf) CAN_RTR_FLAG = 0 /\
    Z.land (can_id cf) CAN_ERR_FLAG = 0.
Proof.
  intros Hr Hl. eexists. split; [by apply unpack_run|].
  pose proof (get_can_dlc_range (Z.land (bus_dat_len msg) PANDA_DLC_MASK)) as Hd.
  fold (panda_unpack_can_dlc msg) in Hd.
  set (n := Z.to_nat (panda_unpack_can_dlc msg)).
  assert (Hn : (n <= 8)%nat) by (unfold n; lia).
  cbn [can_dlc data can_id]. fold n.
  split; [done|].
  split. { rewrite length_app, length_take, length_drop, zero_bytes_length, Hl. lia. }
  split.
  { intros i Hi. rewrite lookup_app_r by (rewrite length_take; lia).
    rewrite length_take, Hl, lookup_drop.
    apply lookup_replicate_2. lia. }
  split.
  { unfold frame_payload. cbn [can_dlc data]. fold n.
    rewrite take_app_le by (rewrite length_take; lia).
    rewrite take_take. f_equal. lia. }
  unfold frame_id, frame_extended, panda_unpack_can_id. cbn [can_id].
  destruct (Z.land (rir msg) PANDA_CAN_EXTENDED =? 0) eqn:Hext; cbn [negb].
  - pose proof (shiftr_bound (rir msg) 11 21 ltac:(lia) ltac:(lia) Hr) as Hid.
    rewrite eff_flag_clear by lia. cbn [Z.eqb negb].
    change CAN_SFF_MASK with (Z.ones 11). rewrite land_low_mask by lia.
    repeat (split; [done|]).
    split; [apply (land_high_bit_clear _ 30); lia|apply (land_high_bit_clear _ 29); lia].
  - pose proof (shiftr_bound (rir msg) 29 3 ltac:(lia) ltac:(lia) Hr) as Hid.
    rewrite (proj2 (Z.eqb_neq _ _) (eff_flag_set _)). cbn [negb].
    rewrite eff_mask_id by done.
    repeat (split; [done|]).
    rewrite !Z.land_lor_distr_l.
    change (Z.land CAN_EFF_FLAG CAN_RTR_FLAG) with 0.
    change (Z.land CAN_EFF_FLAG CAN_ERR_FLAG) with 0.
    rewrite !Z.lor_0_r.
    split; [apply (land_high_bit_clear _ 30); lia|apply (land_high_bit_clear _ 29); lia].
Qed.

Lemma unpack_yields_valid_frame_witness :
  exists cf,
    panda_unpack msg_dlc15 fresh_world = Some (cf, fresh_world) /\
    0 <= can_dlc cf <= 8 /\
    length (data cf) = 8%nat /\
    (forall i, (Z.to_nat (can_dlc cf) <= i < 8)%nat -> data cf !! i = Some Byte.x00) /\
    frame_payload cf = take (Z.to_nat (can_dlc cf)) (msg_data msg_dlc15) /\
    frame_extended cf = negb (Z.land (rir msg_dlc15) PANDA_CAN_EXTENDED =? 0) /\
    0 <= frame_id cf < (if frame_extended cf then 2 ^ 29 else 2 ^ 11) /\
    can_id cf = (if frame_extended cf then Z.lor (frame_id cf) CAN_EFF_FLAG
                 else frame_id cf) /\
    Z.land (can_id cf) CAN_RTR_FLAG = 0 /\
    Z.land (can_id cf) CAN_ERR_FLAG = 0.
Proof.
  apply (unpack_yields_valid_frame msg_dlc15 fresh_world);
    [vm_compute; split; congruence | reflexivity].
Defined.

(** The packed [rir] of any frame is a [u32] with the transmit bit set and
    bit 1 clear, whose bit 2 is the frame's extended flag and whose higher
    bits hold the identifier masked to 29 bits (shifted by 3) or to 11 bits
    (shifted by 21): identifier bits beyond the mask and the remote-request
    flag of [can_id] do not reach the wire. *)
Theorem pack_rir_layout cf :
  0 <= can_id cf ->
  let r := panda_pack_rir cf in
  0 <= r < 2 ^ 32 /\
  Z.testbit r 0 = true /\
  Z.testbit r 1 = false /\
  Z.testbit r 2 = frame_extended cf /\
  (if frame_extended cf
   then Z.shiftr r 3 = Z.land (can_id cf) CAN_EFF_MASK
   else Z.shiftr r 21 = Z.land (can_id cf) CAN_SFF_MASK) /\
  panda_pack_rir (with_can_id (Z.lor (can_id cf) CAN_RTR_FLAG) cf) = r.
Proof.
  intros Hid r. subst r.
  assert (Hrtr : panda_pack_rir (with_can_id (Z.lor (can_id cf) CAN_RTR_FLAG) cf)
                 = panda_pack_rir cf).
  { unfold panda_pack_rir, with_can_id. cbn [can_id].
    rewrite !Z.land_lor_distr_l.
    change (Z.land CAN_RTR_FLAG CAN_EFF_FLAG) with 0.
    change (Z.land CAN_RTR_FLAG 0x1FFFFFFF) with 0.
    change (Z.land CAN_RTR_FLAG 0x7FF) with 0.
    by rewrite !Z.lor_0_r. }
  rewrite Hrtr. clear Hrtr.
  cut (0 <= panda_pack_rir cf < 2 ^ 32 /\
       Z.testbit (panda_pack_rir cf) 0 = true /\
       Z.testbit (panda_pack_rir cf) 1 = false /\
       Z.testbit (panda_pack_rir cf) 2 = frame_extended cf /\
       (if frame_extended cf
        then Z.shiftr (panda_pack_rir cf) 3 = Z.land (can_id cf) CAN_EFF_MASK
        else Z.shiftr (panda_pack_rir cf) 21 = Z.land (can_id cf) CAN_SFF_MASK));
    [tauto|].
  unfold panda_pack_rir, frame_extended, cpu_to_le32.
  destruct (Z.land (can_id cf) CAN_EFF_FLAG =? 0); cbn [negb].
  - set (id := Z.land (can_id cf) 0x7FF).
    assert (Hr : 0 <= id < 2 ^ 11).
    { unfold id. change 0x7FF with (Z.ones 11). rewrite Z.land_ones by lia.
      apply Z.mod_pos_bound. lia. }
    destruct (rir_standard_round_trip id Hr) as [Hflag Hshift].
    rewrite u32_small in * by (rewrite Z.shiftl_mul_pow2 by lia; lia).
    assert (Hb : forall n, 0 <= n < 21 ->
               Z.testbit (Z.lor (Z.shiftl id 21) PANDA_CAN_TRANSMIT) n
               = Z.testbit PANDA_CAN_TRANSMIT n).
    { intros n Hn. by rewrite Z.lor_spec, Z.shiftl_spec_low by lia. }
    split.
    { rewrite Z.shiftl_mul_pow2 by lia. split.
      - apply Z.lor_nonneg. unfold PANDA_CAN_TRANSMIT. lia.
      - rewrite <- Z.add_nocarry_lor.
        + unfold PANDA_CAN_TRANSMIT. lia.
        + rewrite <- Z.shiftl_mul_pow2 by lia. apply Z.bits_inj'. intros n Hn.
          rewrite Z.land_spec, Z.bits_0.
          destruct (Z.ltb_spec n 21).
          * by rewrite Z.shiftl_spec_low by lia.
          * change PANDA_CAN_TRANSMIT with (2 ^ 0). rewrite Z.pow2_bits_eqb by lia.
            rewrite (proj2 (Z.eqb_neq 0 n)) by lia. apply andb_false_r. }
    rewrite !Hb by lia. repeat (split; [done|]). done.
  - set (id := Z.land (can_id cf) 0x1FFFFFFF).
    assert (Hr : 0 <= id < 2 ^ 29).
    { unfold id. change 0x1FFFFFFF with (Z.ones 29). rewrite Z.land_ones by lia.
      apply Z.mod_pos_bound. lia. }
    destruct (rir_extended_round_trip id Hr) as [_ Hshift].
    rewrite u32_small in * by (rewrite Z.shiftl_mul_pow2 by lia; lia).
    assert (Hb : forall n, 0 <= n < 3 ->
               Z.testbit (Z.lor (Z.lor (Z.shiftl id 3) PANDA_CAN_TRANSMIT)
                            PANDA_CAN_EXTENDED) n
               = Z.testbit (Z.lor PANDA_CAN_TRANSMIT PANDA_CAN_EXTENDED) n).
    { intros n Hn. by rewrite !Z.lor_spec, Z.shiftl_spec_low by lia. }
    split.
    { rewrite Z.shiftl_mul_pow2 by lia.
      rewrite <- Z.lor_assoc.
      change (Z.lor PANDA_CAN_TRANSMIT PANDA_CAN_EXTENDED) with 5. split.
      - apply Z.lor_nonneg. lia.
      - rewrite <- Z.add_nocarry_lor; [lia|].
        rewrite <- Z.shiftl_mul_pow2 by lia. apply Z.bits_inj'. intros n Hn.
        rewrite Z.land_spec, Z.bits_0.
        destruct (Z.ltb_spec n 3).
        * by rewrite Z.shiftl_spec_low by lia.
        * rewrite (testbit_high 5 3 n) by lia. apply andb_false_r. }
    rewrite !Hb by lia. repeat (split; [done|]). done.
Qed.

Lemma pack_rir_layout_witness :
  let r := panda_pack_rir frame_ext in
  0 <= r < 2 ^ 32 /\
  Z.testbit r 0 = true /\
  Z.testbit r 1 = false /\
  Z.testbit r 2 = frame_extended frame_ext /\
  (if frame_extended frame_ext
   then Z.shiftr r 3 = Z.land (can_id frame_ext) CAN_EFF_MASK
   else Z.shiftr r 21 = Z.land (can_id frame_ext) CAN_SFF_MASK) /\
  panda_pack_rir (with_can_id (Z.lor (can_id frame_ext) CAN_RTR_FLAG) frame_ext) = r.
Proof. apply (pack_rir_layout frame_ext). vm_compute. discriminate. Defined.

(** ** More on the receive path *)

Lemma ulong_add_l a b : ulong (ulong a + b) = ulong (a + b).
Proof. unfold ulong. by rewrite Z.add_mod_idemp_l by lia. Qed.

Lemma ulong_small a : 0 <= a < 2 ^ 64 -> ulong a = a.
Proof. intros H. unfold ulong. by apply Z.mod_small. Qed.

Lemma ulong_range a : 0 <= ulong a < 2 ^ 64.
Proof. unfold ulong. apply Z.mod_pos_bound. lia. Qed.


Lemma resubmit_read_stats retval w w' :
  panda_usb_resubmit_read retval w = Some (tt, w') ->
  stats (netdev (priv w')) = stats (netdev (priv w)) /\
  tx_context (priv w') = tx_context (priv w) /\
  free_ctx_cnt (priv w') = free_ctx_cnt (priv w) /\
  device_present (netdev (priv w'))
    = (if retval =? - ENODEV then false else device_present (netdev (priv w))).
Proof.
  unfold panda_usb_resubmit_read, netif_device_detach, modify_netdev, modify_priv, emit.
  unfold_monad. destruct (retval =? - ENODEV); cbn; [by intros [= <-]|].
  destruct (retval =? 0); cbn; by intros [= <-].
Qed.




Lemma format_error_not_in_rx_events alloc_ok msgs :
  forall k, EvLog MsgFormatError ∉ rx_events alloc_ok k msgs.
Proof.
  induction msgs as [|m ms IH]; intros k; cbn [rx_events].
  - apply not_elem_of_nil.
  - rewrite elem_of_app. intros [Hin|Hin]; [|by apply (IH (S k))].
    destruct (alloc_ok k); [|by apply elem_of_nil in Hin].
    repeat (apply elem_of_cons in Hin as [Hin|Hin]; [discriminate Hin|]).
    by apply elem_of_nil in Hin.
Qed.

Lemma format_error_not_in_resubmit_events retval :
  EvLog MsgFormatError ∉ resubmit_events retval.
Proof.
  unfold resubmit_events. intros Hin.
  apply elem_of_cons in Hin as [Hin|Hin]; [discriminate Hin|].
  destruct (retval =? - ENODEV).
  - apply elem_of_cons in Hin as [Hin|Hin]; [discriminate Hin|by apply elem_of_nil in Hin].
  - destruct (retval =? 0); [by apply elem_of_nil in Hin|].
    apply elem_of_cons in Hin as [Hin|Hin]; [discriminate Hin|by apply elem_of_nil in Hin].
Qed.

(** A successfully received buffer whose length is a multiple of sixteen,
    the empty buffer included, is processed message by message with no
    format error logged, and is resubmitted; an empty buffer causes the
    resubmission and nothing else. *)
Theorem read_int_callback_aligned alloc_ok retval u w :
  device_present (netdev (priv w)) = true ->
  urb_status u = 0 ->
  0 <= actual_length u <= Z.of_nat (length (transfer_buffer u)) ->
  length (transfer_buffer u) = Z.to_nat PANDA_USB_RX_BUFF_SIZE ->
  actual_length u mod 16 = 0 ->
  exists w',
    panda_usb_read_int_callback alloc_ok retval u w = Some (tt, w') /\
    events_since w w' = rx_events alloc_ok 0 (complete_messages u) ++ resubmit_events retval /\
    (EvLog MsgFormatError ∉ events_since w w') /\
    delivered (events_since w w') = expected_frames alloc_ok 0 (complete_messages u) /\
    Z.of_nat (length (complete_messages u)) * 16 = actual_length u /\
    (actual_length u = 0 -> events_since w w' = resubmit_events retval).
Proof.
  intros Hpres Hst Hlen Hbuf Hal.
  destruct (read_int_callback_run alloc_ok retval u w Hpres Hst Hlen Hbuf)
    as (w' & Hrun & Hev).
  rewrite Hal in Hev. cbn [Z.eqb app] in Hev.
  exists w'. split; [done|]. split; [done|]. rewrite Hev. split.
  { rewrite elem_of_app. intros [Hin|Hin].
    - by apply format_error_not_in_rx_events in Hin.
    - by apply format_error_not_in_resubmit_events in Hin. }
  split.
  { rewrite delivered_app, delivered_rx_events, delivered_resubmit_events.
    by rewrite app_nil_r. }
  split.
  { unfold complete_messages. rewrite length_map, length_seq.
    pose proof (Z.div_mod (actual_length u) 16 ltac:(lia)) as Hdm.
    assert (0 <= actual_length u / 16) by (apply Z.div_pos; lia). lia. }
  intros H0. unfold complete_messages. by rewrite H0.
Qed.

Lemma read_int_callback_aligned_witness :
  exists w',
    panda_usb_read_int_callback (fun _ => true) 0 empty_urb fresh_world = Some (tt, w') /\
    events_since fresh_world w'
      = rx_events (fun _ => true) 0 (complete_messages empty_urb) ++ resubmit_events 0 /\
    (EvLog MsgFormatError ∉ events_since fresh_world w') /\
    delivered (events_since fresh_world w')
      = expected_frames (fun _ => true) 0 (complete_messages empty_urb) /\
    Z.of_nat (length (complete_messages empty_urb)) * 16 = actual_length empty_urb /\
    (actual_length empty_urb = 0 -> events_since fresh_world w' = resubmit_events 0).
Proof.
  apply (read_int_callback_aligned (fun _ => true) 0 empty_urb fresh_world);
    [vm_compute; reflexivity
    | reflexivity
    | vm_compute; split; discriminate
    | vm_compute; reflexivity
    | reflexivity].
Defined.

(** A receive completion on a device that is gone, or with a non-zero
    status, processes no message and changes no counter.  With the device
    gone, or status [-ENOENT] or [-ESHUTDOWN], the callback does nothing at
    all and the URB is not resubmitted; with any other status it logs the
    abort and resubmits. *)
Theorem read_int_callback_skips alloc_ok retval u w :
  device_present (netdev (priv w)) = false \/ urb_status u ≠ 0 ->
  exists w',
    panda_usb_read_int_callback alloc_ok retval u w = Some (tt, w') /\
    events_since w w' =
      (if negb (device_present (netdev (priv w)))
          || (urb_status u =? - ENOENT) || (urb_status u =? - ESHUTDOWN)
       then []
       else EvLog (MsgRxUrbAborted (urb_status u)) :: resubmit_events retval) /\
    ((negb (device_present (netdev (priv w)))
        || (urb_status u =? - ENOENT) || (urb_status u =? - ESHUTDOWN)) = true -> w' = w) /\
    delivered (events_since w w') = [] /\
    stats (netdev (priv w')) = stats (netdev (priv w)).
Proof.
  intros Hskip.
  unfold panda_usb_read_int_callback, netif_device_present, get_priv. unfold_monad.
  destruct (device_present (netdev (priv w))) eqn:Hpres; cbn [negb orb].
  - destruct Hskip as [?|Hst]; [done|].
    rewrite (proj2 (Z.eqb_neq _ _) Hst).
    destruct ((urb_status u =? - ENOENT) || (urb_status u =? - ESHUTDOWN)) eqn:Hgone.
    + exists w. split; [done|]. split; [by apply events_since_trace; rewrite app_nil_r|].
      split; [done|]. split; [|done].
      erewrite events_since_trace by (by rewrite app_nil_r). done.
    + unfold emit at 1.
      destruct (resubmit_read_run retval
                  (mk_world (priv w) (trace w ++ [EvLog (MsgRxUrbAborted (urb_status u))])))
        as (w' & Hrun & Htr).
      pose proof (resubmit_read_stats _ _ _ Hrun) as (Hs & _).
      exists w'. split; [done|].
      assert (Hev : events_since w w'
                    = EvLog (MsgRxUrbAborted (urb_status u)) :: resubmit_events retval).
      { apply events_since_trace. rewrite Htr. cbn [trace]. by rewrite <- app_assoc. }
      split; [done|]. split; [done|]. split; [|done].
      rewrite Hev. change (delivered (?e :: ?l)) with (delivered l).
      apply delivered_resubmit_events.
  - exists w. split; [done|]. split; [by apply events_since_trace; rewrite app_nil_r|].
    split; [done|]. split; [|done].
    erewrite events_since_trace by (by rewrite app_nil_r). done.
Qed.

Lemma read_int_callback_skips_witness :
  exists w',
    panda_usb_read_int_callback (fun _ => true) 0 failed_urb fresh_world = Some (tt, w') /\
    events_since fresh_world w' =
      (if negb (device_present (netdev (priv fresh_world)))
          || (urb_status failed_urb =? - ENOENT) || (urb_status failed_urb =? - ESHUTDOWN)
       then []
       else EvLog (MsgRxUrbAborted (urb_status failed_urb)) :: resubmit_events 0) /\
    ((negb (device_present (netdev (priv fresh_world)))
        || (urb_status failed_urb =? - ENOENT) || (urb_status failed_urb =? - ESHUTDOWN)) = true
     -> w' = fresh_world) /\
    delivered (events_since fresh_world w') = [] /\
    stats (netdev (priv w')) = stats (netdev (priv fresh_world)).
Proof.
  apply (read_int_callback_skips (fun _ => true) 0 failed_urb fresh_world).
  right. vm_compute. discriminate.
Defined.

(** ** From the transmit buffer to the receive path *)

Lemma lor_shift_range id k j m :
  0 <= k -> 0 <= id < 2 ^ j -> 0 <= m < 2 ^ k ->
  0 <= Z.lor (Z.shiftl id k) m < 2 ^ (j + k).
Proof.
  intros Hk Hid Hm.
  assert (Hj : 0 <= j).
  { destruct (Z.lt_ge_cases j 0) as [Hneg|]; [|done].
    rewrite Z.pow_neg_r in Hid by done. lia. }
  rewrite <- Z.add_nocarry_lor.
  - rewrite Z.shiftl_mul_pow2, Z.pow_add_r by done.
    assert (0 < 2 ^ k) by (apply Z.pow_pos_nonneg; lia). nia.
  - apply Z.bits_inj'. intros n Hn. rewrite Z.land_spec, Z.bits_0.
    destruct (Z.ltb_spec n k).
    + by rewrite Z.shiftl_spec_low by lia.
    + rewrite (testbit_high m k n) by lia. apply andb_false_r.
Qed.

Lemma unpacked_pack (extended : bool) (id : Z) cf :
  0 <= id < (if extended then 2 ^ 29 else 2 ^ 11) ->
  can_id cf = (if extended then Z.lor id CAN_EFF_FLAG else id) ->
  0 <= can_dlc cf <= 8 ->
  length (data cf) = 8%nat ->
  let d := take (Z.to_nat (can_dlc cf)) (data cf)
             ++ drop (Z.to_nat (can_dlc cf)) (zero_bytes 8) in
  unpacked (mk_can_msg (panda_pack_rir cf) (panda_pack_bus_dat_len cf) d)
    = mk_can_frame (can_id cf) (can_dlc cf) d.
Proof.
  intros Hid Hcan Hdlc Hlen d.
  set (msg := mk_can_msg (panda_pack_rir cf) (panda_pack_bus_dat_len cf) d).
  assert (Hd : panda_unpack_can_dlc msg = can_dlc cf).
  { unfold panda_unpack_can_dlc, msg. cbn [bus_dat_len].
    unfold panda_pack_bus_dat_len, cpu_to_le32. cbv zeta.
    by apply dlc_field_round_trip. }
  assert (Hi : panda_unpack_can_id msg = can_id cf).
  { unfold panda_unpack_can_id, msg. cbn [rir].
    unfold panda_pack_rir, cpu_to_le32.
    destruct extended; rewrite Hcan.
    - rewrite (proj2 (Z.eqb_neq _ _) (eff_flag_set id)). cbn [negb].
      change 0x1FFFFFFF with CAN_EFF_MASK. rewrite eff_mask_id by done.
      destruct (rir_extended_round_trip id Hid) as [Hne ->].
      by rewrite (proj2 (Z.eqb_neq _ _) Hne).
    - rewrite eff_flag_clear by lia. cbn [Z.eqb negb].
      change 0x7FF with (Z.ones 11). rewrite land_low_mask by lia.
      destruct (rir_standard_round_trip id Hid) as [-> ->]. done. }
  unfold unpacked. rewrite Hd, Hi. change (msg_data msg) with d. f_equal.
  unfold d at 1. rewrite take_app_le by (rewrite length_take; lia).
  rewrite take_take. unfold d. f_equal. f_equal. lia.
Qed.

(** The sixteen bytes a transmit hands to the USB core for a valid frame,
    received back at the head of a read buffer of length sixteen, make the
    receive callback deliver exactly one frame, with the [can_id], the
    length code and the payload of the frame that was sent. *)
Theorem loopback_round_trip (extended : bool) (id : Z) cf msg retval w0 w :
  0 <= id < (if extended then 2 ^ 29 else 2 ^ 11) ->
  can_id cf = (if extended then Z.lor id CAN_EFF_FLAG else id) ->
  0 <= can_dlc cf <= 8 ->
  length (data cf) = 8%nat ->
  panda_pack cf w0 = Some (msg, w0) ->
  device_present (netdev (priv w)) = true ->
  exists w' cf',
    panda_usb_read_int_callback (fun _ => true) retval (rx_urb (msg_bytes msg) 16) w
      = Some (tt, w') /\
    delivered (events_since w w') = [cf'] /\
    can_id cf' = can_id cf /\
    can_dlc cf' = can_dlc cf /\
    frame_payload cf' = frame_payload cf.
Proof.
  intros Hid Hcan Hdlc Hlen Hpack Hpres.
  rewrite pack_run in Hpack by done. injection Hpack as <-.
  set (d := take (Z.to_nat (can_dlc cf)) (data cf)
              ++ drop (Z.to_nat (can_dlc cf)) (zero_bytes 8)).
  set (msg := mk_can_msg (panda_pack_rir cf) (panda_pack_bus_dat_len cf) d).
  assert (Hd : length d = 8%nat).
  { unfold d. apply (memcpy_length (zero_bytes 8));
      rewrite ?Hlen, ?zero_bytes_length; lia. }
  assert (Hmb : length (msg_bytes msg) = 16%nat) by (by apply msg_bytes_length).
  assert (Hrir : 0 <= rir msg < 2 ^ 32 /\ 0 <= bus_dat_len msg < 2 ^ 32).
  { cbn [msg rir bus_dat_len]. unfold panda_pack_rir, panda_pack_bus_dat_len, cpu_to_le32.
    cbv zeta. rewrite Z.shiftl_0_l, Z.lor_0_r. change 0x0F with (Z.ones 4).
    rewrite land_low_mask by lia. split; [|lia].
    rewrite Hcan. destruct extended.
    - rewrite (proj2 (Z.eqb_neq _ _) (eff_flag_set id)). cbn [negb].
      change 0x1FFFFFFF with CAN_EFF_MASK. rewrite eff_mask_id by done.
      rewrite u32_small by (rewrite Z.shiftl_mul_pow2 by lia; lia).
      rewrite <- Z.lor_assoc.
      apply (lor_shift_range id 3 29 (Z.lor PANDA_CAN_TRANSMIT PANDA_CAN_EXTENDED));
        [lia|done|vm_compute; split; congruence].
    - rewrite eff_flag_clear by lia. cbn [Z.eqb negb].
      change 0x7FF with (Z.ones 11). rewrite land_low_mask by lia.
      rewrite u32_small by (rewrite Z.shiftl_mul_pow2 by lia; lia).
      apply (lor_shift_range id 21 11 PANDA_CAN_TRANSMIT);
        [lia|done|vm_compute; split; congruence]. }
  assert (Hback : msg_of_bytes (msg_bytes msg) = msg).
  { unfold msg_of_bytes, msg_bytes. cbn [msg rir bus_dat_len msg_data] in *.
    change (take 4 (store_u32 ?r ++ store_u32 ?b ++ d)) with (store_u32 r).
    change (take 4 (drop 4 (store_u32 ?r ++ store_u32 ?b ++ d))) with (store_u32 b).
    change (drop 8 (store_u32 ?r ++ store_u32 ?b ++ d)) with d.
    by rewrite !load_store_u32 by apply Hrir. }
  set (u := rx_urb (msg_bytes msg) 16).
  assert (Hbuf : length (transfer_buffer u) = Z.to_nat PANDA_USB_RX_BUFF_SIZE).
  { unfold u, rx_urb. cbn [transfer_buffer].
    rewrite length_app, zero_bytes_length, Hmb. reflexivity. }
  assert (Hmsgs : complete_messages u = [msg]).
  { unfold complete_messages, u, rx_urb. cbn [actual_length transfer_buffer].
    change (Z.to_nat (16 / 16)) with 1%nat. cbn [seq map]. unfold nth_msg.
    change (16 * 0)%nat with 0%nat. rewrite drop_0.
    rewrite take_app_length' by done. by rewrite Hback. }
  destruct (read_int_callback_run (fun _ => true) retval u w Hpres eq_refl)
    as (w' & Hrun & Hev);
    [rewrite Hbuf; change (actual_length u) with 16; vm_compute; split; discriminate
    |done|].
  exists w', (mk_can_frame (can_id cf) (can_dlc cf) d). split; [done|].
  split.
  { rewrite Hev, !delivered_app, delivered_rx_events, delivered_resubmit_events, Hmsgs.
    change (actual_length u mod 16 =? 0) with true. cbn [expected_frames app delivered omap].
    f_equal. by apply (unpacked_pack extended id). }
  split; [done|]. split; [done|].
  unfold frame_payload. cbn [can_dlc data]. unfold d.
  rewrite take_app_le by (rewrite length_take; lia).
  rewrite take_take. f_equal. lia.
Qed.

Lemma loopback_round_trip_witness :
  exists w' cf',
    panda_usb_read_int_callback (fun _ => true) 0
      (rx_urb (msg_bytes (mk_can_msg (panda_pack_rir frame_ext)
                            (panda_pack_bus_dat_len frame_ext) (data frame_ext))) 16)
      fresh_world = Some (tt, w') /\
    delivered (events_since fresh_world w') = [cf'] /\
    can_id cf' = can_id frame_ext /\
    can_dlc cf' = can_dlc frame_ext /\
    frame_payload cf' = frame_payload frame_ext.
Proof.
  apply (loopback_round_trip true 0x1ABCDEF1 frame_ext _ 0 fresh_world fresh_world);
    [vm_compute; split; congruence
    | reflexivity
    | vm_compute; split; discriminate
    | reflexivity
    | vm_compute; reflexivity
    | vm_compute; reflexivity].
Defined.

(** What [panda_usb_xmit] answers and leaves behind, case by case: the
    error is [-ENOMEM] when the URB or the buffer cannot be allocated and
    the result of [usb_submit_urb] otherwise; the pool, the statistics and
    the echo array are never touched; the URB stays anchored only when it
    was submitted; and the device is detached exactly when the submission
    answers [-ENODEV]. *)
Theorem xmit_outcomes o msg ctx w :
  length (msg_data msg) = 8%nat ->
  exists err w',
    panda_usb_xmit o msg ctx w = Some (err, w') /\
    err = (if alloc_urb_ok o && alloc_coherent_ok o then submit_err o else - ENOMEM) /\
    tx_context (priv w') = tx_context (priv w) /\
    free_ctx_cnt (priv w') = free_ctx_cnt (priv w) /\
    stats (netdev (priv w')) = stats (netdev (priv w)) /\
    echo_skb (netdev (priv w')) = echo_skb (netdev (priv w)) /\
    tx_submitted (priv w')
      = (if xmit_fails o then tx_submitted (priv w)
         else tx_submitted (priv w) ++ [mk_urb ctx 0 0 (msg_bytes msg)]) /\
    device_present (netdev (priv w'))
      = (if alloc_urb_ok o && alloc_coherent_ok o && (submit_err o =? - ENODEV)
         then false else device_present (netdev (priv w))).
Proof.
  intros Hl.
  assert (Hbuf : take (Z.to_nat PANDA_USB_TX_BUFF_SIZE) (msg_bytes msg)
                   ++ drop (Z.to_nat PANDA_USB_TX_BUFF_SIZE) (zero_bytes 16)
                 = msg_bytes msg).
  { rewrite take_ge, drop_ge, app_nil_r;
      rewrite ?zero_bytes_length, ?msg_bytes_length by done;
      unfold PANDA_USB_TX_BUFF_SIZE; done || lia. }
  destruct w as [[ctxs cnt [st qs present echo] subm] tr].
  destruct o as [urb_ok buf_ok err].
  unfold panda_usb_xmit, xmit_fails, usb_anchor_urb, usb_unanchor_urb,
    netif_device_detach, modify_netdev, modify_priv, emit.
  unfold_monad.
  unfold set_netdev, set_queue_stopped, set_device_present, set_tx_submitted.
  destruct urb_ok; xsimp; [|eexists _, _; repeat split; reflexivity].
  destruct buf_ok; xsimp; [|eexists _, _; repeat split; reflexivity].
  rewrite memcpy_run by (rewrite ?zero_bytes_length, ?msg_bytes_length by done;
                         unfold PANDA_USB_TX_BUFF_SIZE; lia).
  rewrite Hbuf. xsimp.
  destruct (err =? 0) eqn:Herr; xsimp.
  - apply Z.eqb_eq in Herr. subst err. eexists _, _. repeat split; reflexivity.
  - destruct (err =? - ENODEV); xsimp; rewrite ?removelast_last;
      eexists _, _; repeat split; reflexivity.
Qed.

Lemma xmit_outcomes_witness :
  exists err w',
    panda_usb_xmit usb_gone msg_dlc15 (Some 0%nat) fresh_world = Some (err, w') /\
    err = (if alloc_urb_ok usb_gone && alloc_coherent_ok usb_gone
           then submit_err usb_gone else - ENOMEM) /\
    tx_context (priv w') = tx_context (priv fresh_world) /\
    free_ctx_cnt (priv w') = free_ctx_cnt (priv fresh_world) /\
    stats (netdev (priv w')) = stats (netdev (priv fresh_world)) /\
    echo_skb (netdev (priv w')) = echo_skb (netdev (priv fresh_world)) /\
    tx_submitted (priv w')
      = (if xmit_fails usb_gone then tx_submitted (priv fresh_world)
         else tx_submitted (priv fresh_world) ++ [mk_urb (Some 0%nat) 0 0 (msg_bytes msg_dlc15)]) /\
    device_present (netdev (priv w'))
      = (if alloc_urb_ok usb_gone && alloc_coherent_ok usb_gone
            && (submit_err usb_gone =? - ENODEV)
         then false else device_present (netdev (priv fresh_world))).
Proof. apply (xmit_outcomes usb_gone msg_dlc15 (Some 0%nat) fresh_world). reflexivity. Defined.

(** ** The device lifecycle *)

Ltac unfold_life :=
  unfold mbind, L_bind, mret, L_ret, request, modify_dev, get_dev, load_dev, store_dev,
    lift, set_dev_world, set_can_state, set_bitrate, set_rx_submitted, set_echo_flag,
    set_allocated, set_registered, set_intfdata, set_rx_in_flight.

Lemma init_ctx_loop_frame n i w w' :
  panda_init_ctx_loop n i w = Some (tt, w') ->
  netdev (priv w') = netdev (priv w) /\
  tx_submitted (priv w') = tx_submitted (priv w).
Proof.
  revert i w. induction n as [|n IH]; intros i w; cbn [panda_init_ctx_loop].
  - by intros [= <-].
  - intros H. apply bind_inv in H as ([] & w1 & Hs & Hrest).
    apply IH in Hrest as [-> ->].
    unfold store_ndx in Hs. apply bind_inv in Hs as (c & w0 & Hl & Hs).
    apply load_ctx_inv in Hl as [_ ->].
    injection Hs as <-. done.
Qed.

Lemma init_ctx_run w :
  length (tx_context (priv w)) = PANDA_MAX_TX_URBS ->
  exists w',
    panda_init_ctx w = Some (tt, w') /\
    pool_inv (mk_pool w' []) /\
    netdev (priv w') = netdev (priv w) /\
    tx_submitted (priv w') = tx_submitted (priv w).
Proof.
  intros Hlen.
  destruct (init_ctx_loop_spec PANDA_MAX_TX_URBS 0 w) as (w1 & Hloop & _); [lia|].
  assert (Hrun : panda_init_ctx w =
                 Some (tt, mk_world (set_free_ctx_cnt (Z.of_nat PANDA_MAX_TX_URBS) (priv w1))
                             (trace w1 ++ [EvAtomicSet (Z.of_nat PANDA_MAX_TX_URBS)]))).
  { unfold panda_init_ctx. rewrite (bind_Some _ _ _ _ _ Hloop). reflexivity. }
  eexists. split; [exact Hrun|]. split; [by eapply pool_inv_init|].
  apply init_ctx_loop_frame in Hloop as [Hn Hs]. by cbn.
Qed.

Lemma pool_inv_ext w1 w2 lv :
  tx_context (priv w2) = tx_context (priv w1) ->
  free_ctx_cnt (priv w2) = free_ctx_cnt (priv w1) ->
  pool_inv (mk_pool w1 lv) -> pool_inv (mk_pool w2 lv).
Proof. unfold pool_inv. cbn. by intros -> ->. Qed.

Lemma pool_inv_all_free w :
  pool_inv (mk_pool w []) ->
  length (tx_context (priv w)) = PANDA_MAX_TX_URBS /\
  free_ctx_cnt (priv w) = Z.of_nat PANDA_MAX_TX_URBS /\
  forall i c, tx_context (priv w) !! i = Some c -> ndx c = PANDA_CTX_FREE.
Proof.
  intros (Hlen & _ & _ & Hslots & Hcnt). cbn in *.
  repeat split; [done|lia|].
  intros i c Hc. specialize (Hslots i c Hc).
  rewrite bool_decide_eq_false_2 in Hslots; [done|]. apply not_elem_of_nil.
Qed.

(** The completion of a transmit URB whose slot is busy releases the slot,
    whatever the echo entry holds. *)
Lemma write_bulk_callback_release u i c w :
  urb_context u = Some i ->
  tx_context (priv w) !! i = Some c ->
  ndx c = Z.of_nat i ->
  device_present (netdev (priv w)) = true ->
  (i < length (echo_skb (netdev (priv w))))%nat ->
  exists w',
    panda_usb_write_bulk_callback u w = Some (tt, w') /\
    tx_context (priv w') = <[i := mk_ctx PANDA_CTX_FREE (dlc c)]> (tx_context (priv w)) /\
    free_ctx_cnt (priv w') = s32 (free_ctx_cnt (priv w) + 1) /\
    tx_packets (stats (netdev (priv w'))) = ulong (tx_packets (stats (netdev (priv w))) + 1) /\
    device_present (netdev (priv w')) = true /\
    length (echo_skb (netdev (priv w'))) = length (echo_skb (netdev (priv w))) /\
    queue_stopped (netdev (priv w')) = false /\
    tx_submitted (priv w') = tx_submitted (priv w).
Proof.
  intros Hctx Hc Hndx Hpres Hlt.
  destruct (lookup_lt_is_Some_2 _ _ Hlt) as [e He].
  destruct w as [[ctxs cnt [st qs present echo] subm] tr].
  cbn [priv tx_context netdev echo_skb device_present stats free_ctx_cnt trace] in *.
  subst present.
  unfold panda_usb_write_bulk_callback. rewrite Hctx.
  unfold netif_device_present, inc_tx_packets, add_tx_bytes, can_get_echo_skb,
    load_echo_skb, store_echo_skb, panda_usb_free_ctx, atomic_inc, store_ndx,
    netif_wake_queue, load_ctx, modify_stats, modify_netdev, modify_priv, emit, get_priv.
  unfold_monad.
  unfold set_netdev, set_stats, set_echo_skb, set_tx_context, set_free_ctx_cnt,
    set_queue_stopped.
  xsimp. rewrite Hc. xsimp. rewrite Hc. xsimp.
  rewrite Hndx, Nat2Z.id, (proj2 (Z.ltb_ge _ _)) by lia. rewrite He.
  destruct e as [skb|]; xsimp;
    (destruct (urb_status u =? 0); xsimp; rewrite Hc; xsimp;
     (eexists; split; [reflexivity|]); xsimp;
     rewrite ?length_insert; done).
Qed.

(** Cancelling the transmit URBs in flight, newest first: the handles
    [hs] they carry are released one after the other. *)
Lemma complete_each_tx us hs lv w :
  urb_context <$> us = Some <$> hs ->
  pool_inv (mk_pool w (hs ++ lv)) ->
  device_present (netdev (priv w)) = true ->
  length (echo_skb (netdev (priv w))) = PANDA_MAX_TX_URBS ->
  0 <= tx_packets (stats (netdev (priv w))) < 2 ^ 64 ->
  exists w',
    complete_each panda_usb_write_bulk_callback us w = Some (tt, w') /\
    pool_inv (mk_pool w' lv) /\
    tx_packets (stats (netdev (priv w'))) =
      ulong (tx_packets (stats (netdev (priv w))) + Z.of_nat (length hs)) /\
    device_present (netdev (priv w')) = true /\
    length (echo_skb (netdev (priv w'))) = PANDA_MAX_TX_URBS /\
    queue_stopped (netdev (priv w')) =
      (if hs is [] then queue_stopped (netdev (priv w)) else false) /\
    tx_submitted (priv w') = tx_submitted (priv w).
Proof.
  revert hs w. induction us as [|u us IH]; intros hs w Hus Hinv Hpres Hecho Hrange.
  - destruct hs as [|h hs]; [|done]. exists w. cbn in *.
    split_and!; try done.
    rewrite Z.add_0_r. symmetry. by apply ulong_small.
  - destruct hs as [|h hs]; [done|]. cbn in Hus. injection Hus as Hu Hus.
    pose proof Hinv as (Hlen & Hnd & Hlt & Hslots & Hcnt).
    cbn [pool_world live] in Hlen, Hnd, Hlt, Hslots, Hcnt.
    assert (Hin : h ∈ (h :: hs) ++ lv) by (cbn; left).
    assert (Hh : (h < length (tx_context (priv w)))%nat) by (rewrite Hlen; by apply Hlt).
    destruct (lookup_lt_is_Some_2 _ _ Hh) as [c Hc].
    pose proof (Hslots h c Hc) as Hndx.
    rewrite bool_decide_eq_true_2 in Hndx by done.
    destruct (write_bulk_callback_release (killed u) h c w) as
      (w1 & Hrun & Hctxs & Hcnt1 & Htp & Hpres1 & Hecho1 & Hq1 & Hsub1);
      [done|done|done|done|rewrite Hecho; by apply Hlt|].
    assert (Hinv1 : pool_inv (mk_pool w1 (hs ++ lv))).
    { apply (pool_inv_ext (released h (dlc c) w)); [done|done|].
      apply (pool_inv_step (Release h) (mk_pool w ((h :: hs) ++ lv))); [done|].
      unfold pool_step. cbn [pool_world live].
      rewrite bool_decide_eq_true_2 by done.
      rewrite (free_ctx_run _ _ _ Hc). cbn.
      by rewrite bool_decide_eq_true_2. }
    destruct (IH hs w1) as (w' & Hrest & Hinv' & Htp' & Hpres' & Hecho' & Hq' & Hsub');
      [done|done|done|congruence|rewrite Htp; apply ulong_range|].
    exists w'. cbn [complete_each].
    rewrite (bind_Some _ _ _ _ _ Hrun). split; [exact Hrest|].
    split_and!; try done.
    + rewrite Htp', Htp, ulong_add_l. f_equal. cbn [length]. lia.
    + rewrite Hq'. destruct hs; done.
    + congruence.
Qed.

(** ** Cancelled and completed receive URBs *)

(** A cancelled receive URB: its handler does nothing. *)
Lemma read_int_callback_killed alloc_ok retval u w :
  panda_usb_read_int_callback alloc_ok retval (killed u) w = Some (tt, w).
Proof.
  unfold panda_usb_read_int_callback, netif_device_present, get_priv. unfold_monad.
  cbn. by destruct (device_present (netdev (priv w))).
Qed.

Lemma remove_urb_notin u l : u ∉ l -> remove_urb u l = l.
Proof.
  induction l as [|x l IH]; [done|]. intros Hn. cbn.
  apply not_elem_of_cons in Hn as [Hne Hn].
  rewrite bool_decide_eq_false_2 by done. by rewrite IH.
Qed.

Lemma remove_urb_perm u l : u ∈ l -> l ≡ₚ u :: remove_urb u l.
Proof.
  induction l as [|x l IH]; [by intros ?%elem_of_nil|].
  intros Hin. cbn. case_bool_decide as Hx; [by subst|].
  apply elem_of_cons in Hin as [->|Hin]; [done|].
  rewrite (IH Hin) at 1. apply Permutation_swap.
Qed.

Lemma remove_urbs_all us l : us ≡ₚ l -> remove_urbs us l = [].
Proof.
  unfold remove_urbs. revert l. induction us as [|u us IH]; intros l Hp; cbn.
  - symmetry in Hp. by apply Permutation_nil_r in Hp.
  - apply IH.
    assert (Hin : u ∈ l) by (rewrite <- Hp; left).
    rewrite (remove_urb_perm u l Hin) in Hp. by apply Permutation_cons_inv in Hp.
Qed.

(** Giving back a cancelled receive URB takes it off the anchor and out
    of the transfers in flight, and nothing else. *)
Lemma giveback_killed_run u w cs br rx ef rg intf lg fl :
  usb_giveback_rx (fun _ => false) 0 u (killed u)
    (mk_device w cs br rx ef true rg intf lg fl) =
  Some (tt, mk_device w cs br (remove_urb u rx) ef true rg intf lg (remove_urb u fl)).
Proof.
  unfold usb_giveback_rx. unfold_life.
  cbn -[panda_usb_read_int_callback events_since].
  destruct (bool_decide (u ∈ rx)) eqn:Hin;
    cbn -[panda_usb_read_int_callback events_since];
    rewrite read_int_callback_killed;
    cbn -[events_since]; unfold events_since; rewrite drop_all; cbn.
  - reflexivity.
  - apply bool_decide_eq_false in Hin. by rewrite (remove_urb_notin u rx).
Qed.

Lemma kill_each_rx_run us : forall w cs br rx ef rg intf lg fl,
  kill_each_rx us (mk_device w cs br rx ef true rg intf lg fl) =
  Some (tt, mk_device w cs br (remove_urbs us rx) ef true rg intf lg (remove_urbs us fl)).
Proof.
  induction us as [|u us IH]; intros; [reflexivity|].
  cbn [kill_each_rx]. unfold mbind, L_bind.
  rewrite giveback_killed_run. apply IH.
Qed.

Lemma kill_anchored_rx_run w cs br rx ef rg intf lg fl :
  usb_kill_anchored_rx (mk_device w cs br rx ef true rg intf lg fl) =
  Some (tt, mk_device w cs br [] ef true rg intf (lg ++ [LvKillRxUrbs])
              (remove_urbs (rev rx) fl)).
Proof.
  unfold usb_kill_anchored_rx. unfold_life. cbn -[kill_each_rx].
  rewrite kill_each_rx_run. rewrite remove_urbs_all; [done|].
  symmetry. apply Permutation_rev.
Qed.

(** ** The echo flush of [close_candev] *)

Lemma load_echo_skb_Some i e w :
  echo_skb (netdev (priv w)) !! i = Some e ->
  load_echo_skb (Z.of_nat i) w = Some (e, w).
Proof.
  intros H. unfold load_echo_skb, get_priv. unfold_monad.
  rewrite (proj2 (Z.ltb_ge _ _)) by lia. by rewrite Nat2Z.id, H.
Qed.

(** One occupied entry: the buffer is freed, the entry cleared, and both
    counters grow by one. *)
Lemma flush_entry_run i skb w :
  (i < length (echo_skb (netdev (priv w))))%nat ->
  exists w',
    (emit (EvKfreeSkb skb);; store_echo_skb (Z.of_nat i) None;;
     inc_tx_dropped;; inc_tx_aborted_errors) w = Some (tt, w') /\
    tx_context (priv w') = tx_context (priv w) /\
    free_ctx_cnt (priv w') = free_ctx_cnt (priv w) /\
    tx_submitted (priv w') = tx_submitted (priv w) /\
    queue_stopped (netdev (priv w')) = queue_stopped (netdev (priv w)) /\
    device_present (netdev (priv w')) = device_present (netdev (priv w)) /\
    rx_packets (stats (netdev (priv w'))) = rx_packets (stats (netdev (priv w))) /\
    rx_bytes (stats (netdev (priv w'))) = rx_bytes (stats (netdev (priv w))) /\
    tx_packets (stats (netdev (priv w'))) = tx_packets (stats (netdev (priv w))) /\
    tx_bytes (stats (netdev (priv w'))) = tx_bytes (stats (netdev (priv w))) /\
    echo_skb (netdev (priv w')) = <[i := None]> (echo_skb (netdev (priv w))) /\
    tx_dropped (stats (netdev (priv w')))
      = ulong (tx_dropped (stats (netdev (priv w))) + 1) /\
    tx_aborted_errors (stats (netdev (priv w')))
      = ulong (tx_aborted_errors (stats (netdev (priv w))) + 1).
Proof.
  intros Hlt. destruct w as [[ctxs cnt [st qs present echo] subm] tr].
  unfold store_echo_skb, inc_tx_dropped, inc_tx_aborted_errors, modify_stats,
    modify_netdev, modify_priv, emit.
  unfold_monad. eexists. split; [reflexivity|].
  cbn -[ulong]. rewrite Nat2Z.id. done.
Qed.

(** The flush of a stretch [mid] of the echo array, between [pre] and
    [post]: it always returns, keeps the pool, the anchor, the queue and
    the other counters, clears the stretch and counts its occupied
    entries. *)
Lemma flush_loop_run mid : forall pre post w,
  echo_skb (netdev (priv w)) = pre ++ mid ++ post ->
  exists w',
    can_flush_echo_skb_loop (length mid) (length pre) w = Some (tt, w') /\
    tx_context (priv w') = tx_context (priv w) /\
    free_ctx_cnt (priv w') = free_ctx_cnt (priv w) /\
    tx_submitted (priv w') = tx_submitted (priv w) /\
    queue_stopped (netdev (priv w')) = queue_stopped (netdev (priv w)) /\
    device_present (netdev (priv w')) = device_present (netdev (priv w)) /\
    rx_packets (stats (netdev (priv w'))) = rx_packets (stats (netdev (priv w))) /\
    rx_bytes (stats (netdev (priv w'))) = rx_bytes (stats (netdev (priv w))) /\
    tx_packets (stats (netdev (priv w'))) = tx_packets (stats (netdev (priv w))) /\
    tx_bytes (stats (netdev (priv w'))) = tx_bytes (stats (netdev (priv w))) /\
    echo_skb (netdev (priv w')) = pre ++ replicate (length mid) None ++ post /\
    tx_dropped (stats (netdev (priv w')))
      = Nat.iter (occupied mid) (fun x => ulong (x + 1))
          (tx_dropped (stats (netdev (priv w)))) /\
    tx_aborted_errors (stats (netdev (priv w')))
      = Nat.iter (occupied mid) (fun x => ulong (x + 1))
          (tx_aborted_errors (stats (netdev (priv w)))).
Proof.
  induction mid as [|e mid IH]; intros pre post w Hecho;
    cbn [can_flush_echo_skb_loop length].
  - exists w. split; [done|]. unfold occupied. cbn. done.
  - assert (He : echo_skb (netdev (priv w)) !! length pre = Some e)
      by (rewrite Hecho; apply list_lookup_middle; done).
    rewrite (bind_Some _ _ _ _ _ (load_echo_skb_Some _ e w He)).
    destruct e as [skb|].
    + destruct (flush_entry_run (length pre) skb w) as
        (w1 & Hrun & Hc & Hcnt & Hsub & Hq & Hp & Hrp & Hrb & Htp & Htb & Hecho1 & Htd & Hta);
        [by apply lookup_lt_Some in He|].
      rewrite (bind_Some _ _ _ _ _ Hrun).
      destruct (IH (pre ++ [None]) post w1) as
        (w' & Hrest & Hc' & Hcnt' & Hsub' & Hq' & Hp' & Hrp' & Hrb' & Htp' & Htb' & Hecho'
         & Htd' & Hta').
      { rewrite Hecho1, Hecho, insert_app_r_alt, Nat.sub_diag by done.
        cbn. by rewrite <- app_assoc. }
      rewrite length_app, Nat.add_comm in Hrest. cbn [length Nat.add] in Hrest.
      exists w'. split; [done|].
      rewrite Hc', Hcnt', Hsub', Hq', Hp', Hrp', Hrb', Htp', Htb', Hecho', Htd', Hta'.
      rewrite Hc, Hcnt, Hsub, Hq, Hp, Hrp, Hrb, Htp, Htb, Htd, Hta.
      split_and!; try done.
      * by rewrite <- app_assoc.
      * unfold occupied. rewrite filter_cons_True by done. cbn [length].
        by rewrite Nat.iter_succ_r.
      * unfold occupied. rewrite filter_cons_True by done. cbn [length].
        by rewrite Nat.iter_succ_r.
    + change ((mret tt ≫= fun _ => can_flush_echo_skb_loop (length mid) (S (length pre))) w)
        with (can_flush_echo_skb_loop (length mid) (S (length pre)) w).
      destruct (IH (pre ++ [None]) post w) as
        (w' & Hrest & Hc' & Hcnt' & Hsub' & Hq' & Hp' & Hrp' & Hrb' & Htp' & Htb' & Hecho'
         & Htd' & Hta'); [by rewrite Hecho, <- app_assoc|].
      rewrite length_app, Nat.add_comm in Hrest. cbn [length Nat.add] in Hrest.
      exists w'. split; [done|].
      split_and!; try done.
      by rewrite Hecho', <- app_assoc.
Qed.

(** [can_flush_echo_skb] on the whole array. *)
Lemma flush_run w :
  exists w',
    can_flush_echo_skb w = Some (tt, w') /\
    tx_context (priv w') = tx_context (priv w) /\
    free_ctx_cnt (priv w') = free_ctx_cnt (priv w) /\
    tx_submitted (priv w') = tx_submitted (priv w) /\
    queue_stopped (netdev (priv w')) = queue_stopped (netdev (priv w)) /\
    device_present (netdev (priv w')) = device_present (netdev (priv w)) /\
    rx_packets (stats (netdev (priv w'))) = rx_packets (stats (netdev (priv w))) /\
    rx_bytes (stats (netdev (priv w'))) = rx_bytes (stats (netdev (priv w))) /\
    tx_packets (stats (netdev (priv w'))) = tx_packets (stats (netdev (priv w))) /\
    tx_bytes (stats (netdev (priv w'))) = tx_bytes (stats (netdev (priv w))) /\
    echo_skb (netdev (priv w'))
      = replicate (length (echo_skb (netdev (priv w)))) None /\
    tx_dropped (stats (netdev (priv w')))
      = Nat.iter (occupied (echo_skb (netdev (priv w)))) (fun x => ulong (x + 1))
          (tx_dropped (stats (netdev (priv w)))) /\
    tx_aborted_errors (stats (netdev (priv w')))
      = Nat.iter (occupied (echo_skb (netdev (priv w)))) (fun x => ulong (x + 1))
          (tx_aborted_errors (stats (netdev (priv w)))).
Proof.
  destruct (flush_loop_run (echo_skb (netdev (priv w))) [] [] w) as (w' & Hrun & H);
    [by rewrite app_nil_r|].
  exists w'. split.
  - unfold can_flush_echo_skb, get_priv. unfold_monad. exact Hrun.
  - cbn [app] in H. by rewrite app_nil_r in H.
Qed.

Lemma iter_ulong n x :
  0 <= x < 2 ^ 64 -> Nat.iter n (fun y => ulong (y + 1)) x = ulong (x + Z.of_nat n).
Proof.
  intros Hx. induction n as [|n IH].
  - cbn. rewrite Z.add_0_r. symmetry. by apply ulong_small.
  - rewrite Nat.iter_succ, IH, ulong_add_l. f_equal. lia.
Qed.

(** ** Closing and starting *)

(** [panda_usb_close] on a present device with the transmit URBs of the
    handles [hs] in flight. *)
Lemma close_run d hs :
  dev_allocated d = true ->
  device_present (netdev (priv (dev_world d))) = true ->
  length (echo_skb (netdev (priv (dev_world d)))) = PANDA_MAX_TX_URBS ->
  0 <= tx_packets (stats (netdev (priv (dev_world d)))) < 2 ^ 64 ->
  pool_inv (mk_pool (dev_world d) hs) ->
  urb_context <$> rev (tx_submitted (priv (dev_world d))) = Some <$> hs ->
  exists d',
    panda_usb_close d = Some (0, d') /\
    dev_can_state d' = CAN_STATE_STOPPED /\
    rx_submitted d' = [] /\
    tx_submitted (priv (dev_world d')) = [] /\
    pool_inv (mk_pool (dev_world d') []) /\
    tx_packets (stats (netdev (priv (dev_world d')))) =
      ulong (tx_packets (stats (netdev (priv (dev_world d)))) + Z.of_nat (length hs)) /\
    queue_stopped (netdev (priv (dev_world d'))) = (if hs is [] then true else false) /\
    dev_allocated d' = true /\
    dev_log d' = dev_log d ++ [LvKillRxUrbs; LvKillTxUrbs; LvCloseCandev] /\
    rx_in_flight d' = remove_urbs (rev (rx_submitted d)) (rx_in_flight d) /\
    device_present (netdev (priv (dev_world d'))) = true /\
    echo_skb (netdev (priv (dev_world d'))) = replicate PANDA_MAX_TX_URBS None.
Proof.
  destruct d as [w cs br rx ef al rg intf lg fl]. cbn [dev_world dev_allocated].
  intros -> Hpres Hecho Hrange Hinv Hus.
  set (w1 := mk_world (set_netdev (set_queue_stopped true (netdev (priv w))) (priv w))
               (trace w ++ [EvNetifStopQueue])).
  destruct (complete_each_tx (rev (tx_submitted (priv w))) hs [] w1)
    as (w2 & Hrun & Hinv2 & Htp & Hpres2 & Hecho2 & Hq & Hsub);
    [done|rewrite app_nil_r; by apply (pool_inv_ext w)|done|done|done|].
  unfold panda_usb_close, panda_urb_unlink, usb_kill_anchored_tx, close_candev.
  unfold_life.
  cbn -[complete_each netif_stop_queue usb_kill_anchored_rx can_flush_echo_skb].
  change (netif_stop_queue w) with (Some (tt, w1)).
  cbn -[complete_each usb_kill_anchored_rx can_flush_echo_skb].
  rewrite kill_anchored_rx_run.
  cbn -[complete_each can_flush_echo_skb]. rewrite Hrun.
  cbn -[can_flush_echo_skb].
  match goal with
  | |- context [can_flush_echo_skb ?w3] =>
      destruct (flush_run w3)
        as (w4 & Hflush & Hc & Hcnt & Hsub4 & Hq4 & Hp4 & _ & _ & Htp4 & _ & Hecho4 & _);
      rewrite Hflush
  end.
  cbn in Hc, Hcnt, Hsub4, Hq4, Hp4, Htp4, Hecho4.
  eexists. split; [reflexivity|]. cbn.
  split_and!; try done.
  - by apply (pool_inv_ext w2).
  - by rewrite Htp4.
  - by rewrite Hq4.
  - by rewrite <- !app_assoc.
  - by rewrite Hp4.
  - by rewrite Hecho4, Hecho2.
Qed.

(** [panda_usb_start], path by path. *)
Lemma start_run o d :
  dev_allocated d = true ->
  length (tx_context (priv (dev_world d))) = PANDA_MAX_TX_URBS ->
  exists d',
    panda_usb_start o d =
      Some (if negb (set_interface_err o =? 0) then set_interface_err o
            else if negb (rx_alloc_urb_ok o && rx_alloc_coherent_ok o) then - ENOMEM
            else rx_submit_err o, d') /\
    pool_inv (mk_pool (dev_world d') []) /\
    netdev (priv (dev_world d')) = netdev (priv (dev_world d)) /\
    tx_submitted (priv (dev_world d')) = tx_submitted (priv (dev_world d)) /\
    rx_submitted d' =
      (if (set_interface_err o =? 0) && rx_alloc_urb_ok o && rx_alloc_coherent_ok o &&
          (rx_submit_err o =? 0)
       then rx_submitted d ++ [rx_poll_urb] else rx_submitted d) /\
    count_event LvFreeUrb (log_since d d') =
      (if (set_interface_err o =? 0) && rx_alloc_urb_ok o then 1%nat else 0%nat) /\
    count_event LvFreeCoherent (log_since d d') =
      (if (set_interface_err o =? 0) && rx_alloc_urb_ok o && rx_alloc_coherent_ok o &&
          negb (rx_submit_err o =? 0)
       then 1%nat else 0%nat) /\
    dev_can_state d' = dev_can_state d /\
    dev_bitrate d' = dev_bitrate d /\
    dev_echo_flag d' = dev_echo_flag d /\
    dev_allocated d' = true /\
    dev_registered d' = dev_registered d /\
    dev_intfdata d' = dev_intfdata d /\
    rx_in_flight d' =
      (if (set_interface_err o =? 0) && rx_alloc_urb_ok o && rx_alloc_coherent_ok o &&
          (rx_submit_err o =? 0)
       then rx_in_flight d ++ [rx_poll_urb] else rx_in_flight d).
Proof.
  destruct d as [w cs br rx ef al rg intf lg fl]. cbn [dev_world dev_allocated].
  intros -> Hlen.
  destruct (init_ctx_run w Hlen) as (w1 & Hinit & Hinv & Hnet & Hsub).
  destruct o as [sie uok cok serr].
  unfold panda_usb_start. unfold_life. cbn -[panda_init_ctx Z.eqb].
  rewrite Hinit. cbn -[Z.eqb].
  destruct (sie =? 0); cbn -[Z.eqb].
  2: { eexists. split; [reflexivity|]. cbn. split_and!; try done.
       all: unfold log_since, count_event; cbn; rewrite <- ?app_assoc, drop_app_length; done. }
  destruct uok; cbn -[Z.eqb].
  2: { eexists. split; [reflexivity|]. cbn. split_and!; try done.
       all: unfold log_since, count_event; cbn; rewrite <- ?app_assoc, drop_app_length; done. }
  destruct cok; cbn -[Z.eqb].
  2: { eexists. split; [reflexivity|]. cbn. split_and!; try done.
       all: unfold log_since, count_event; cbn; rewrite <- ?app_assoc, drop_app_length; done. }
  destruct (serr =? 0) eqn:E; cbn -[Z.eqb].
  - apply Z.eqb_eq in E as ->. eexists. split; [reflexivity|]. cbn. split_and!; try done.
    all: unfold log_since, count_event; cbn; rewrite <- ?app_assoc, drop_app_length; done.
  - eexists. split; [reflexivity|]. cbn. split_and!; try done.
    + by rewrite removelast_last.
    + unfold log_since, count_event; cbn; rewrite <- ?app_assoc, drop_app_length; done.
    + unfold log_since, count_event; cbn; rewrite <- ?app_assoc, drop_app_length; done.
Qed.

(** [panda_usb_start] on an allocated device with its
    [PANDA_MAX_TX_URBS] contexts always returns.  It returns the error of
    [usb_set_interface], else [-ENOMEM] when the URB or its buffer cannot
    be allocated, else what [usb_submit_urb] returned.  Whatever it
    returns, the pool has been reset: every slot is free and the count is
    [PANDA_MAX_TX_URBS].  The receive URB is in the [rx_submitted] anchor
    exactly when the call returns with every step succeeded; on every
    path the URB reference is dropped once if it was taken, and the
    buffer is freed exactly when it was allocated and the submission
    failed. *)
Theorem start_resets_pool o d :
  dev_allocated d = true ->
  length (tx_context (priv (dev_world d))) = PANDA_MAX_TX_URBS ->
  exists d',
    panda_usb_start o d =
      Some (if negb (set_interface_err o =? 0) then set_interface_err o
            else if negb (rx_alloc_urb_ok o && rx_alloc_coherent_ok o) then - ENOMEM
            else rx_submit_err o, d') /\
    free_ctx_cnt (priv (dev_world d')) = Z.of_nat PANDA_MAX_TX_URBS /\
    (forall i c, tx_context (priv (dev_world d')) !! i = Some c -> ndx c = PANDA_CTX_FREE) /\
    length (tx_context (priv (dev_world d'))) = PANDA_MAX_TX_URBS /\
    netdev (priv (dev_world d')) = netdev (priv (dev_world d)) /\
    rx_submitted d' =
      (if (set_interface_err o =? 0) && rx_alloc_urb_ok o && rx_alloc_coherent_ok o &&
          (rx_submit_err o =? 0)
       then rx_submitted d ++ [rx_poll_urb] else rx_submitted d) /\
    count_event LvFreeUrb (log_since d d') =
      (if (set_interface_err o =? 0) && rx_alloc_urb_ok o then 1%nat else 0%nat) /\
    count_event LvFreeCoherent (log_since d d') =
      (if (set_interface_err o =? 0) && rx_alloc_urb_ok o && rx_alloc_coherent_ok o &&
          negb (rx_submit_err o =? 0)
       then 1%nat else 0%nat).
Proof.
  intros Hal Hlen.
  destruct (start_run o d Hal Hlen)
    as (d' & Hrun & Hinv & Hnet & _ & Hrx & Hfu & Hfc & _).
  apply pool_inv_all_free in Hinv as (Hl & Hcnt & Hfree).
  exists d'. split_and!; done.
Qed.

Lemma start_resets_pool_witness :
  exists d',
    panda_usb_start submit_refused registered_device = Some (- ENODEV, d') /\
    free_ctx_cnt (priv (dev_world d')) = Z.of_nat PANDA_MAX_TX_URBS /\
    (forall i c, tx_context (priv (dev_world d')) !! i = Some c -> ndx c = PANDA_CTX_FREE) /\
    length (tx_context (priv (dev_world d'))) = PANDA_MAX_TX_URBS /\
    netdev (priv (dev_world d')) = netdev (priv (dev_world registered_device)) /\
    rx_submitted d' = [] /\
    count_event LvFreeUrb (log_since registered_device d') = 1%nat /\
    count_event LvFreeCoherent (log_since registered_device d') = 1%nat.
Proof.
  apply (start_resets_pool submit_refused registered_device);
    [reflexivity | vm_compute; reflexivity].
Defined.

(** [panda_usb_close] on a present device whose busy slots are
    exactly those of the transmit URBs in flight: every such URB is
    cancelled, and its completion handler counts it in [tx_packets] as if
    it had been sent and releases its slot.  When close returns [0] the
    device is stopped, both anchors are empty and every slot is free with
    the count at [PANDA_MAX_TX_URBS]; but the queue that close stopped at
    its start has been woken again by the releases, unless nothing was in
    flight. *)
Theorem close_completes_in_flight d hs :
  dev_allocated d = true ->
  device_present (netdev (priv (dev_world d))) = true ->
  length (echo_skb (netdev (priv (dev_world d)))) = PANDA_MAX_TX_URBS ->
  0 <= tx_packets (stats (netdev (priv (dev_world d)))) < 2 ^ 64 ->
  pool_inv (mk_pool (dev_world d) hs) ->
  urb_context <$> rev (tx_submitted (priv (dev_world d))) = Some <$> hs ->
  exists d',
    panda_usb_close d = Some (0, d') /\
    dev_can_state d' = CAN_STATE_STOPPED /\
    rx_submitted d' = [] /\
    tx_submitted (priv (dev_world d')) = [] /\
    free_ctx_cnt (priv (dev_world d')) = Z.of_nat PANDA_MAX_TX_URBS /\
    (forall i c, tx_context (priv (dev_world d')) !! i = Some c -> ndx c = PANDA_CTX_FREE) /\
    tx_packets (stats (netdev (priv (dev_world d')))) =
      ulong (tx_packets (stats (netdev (priv (dev_world d)))) + Z.of_nat (length hs)) /\
    queue_stopped (netdev (priv (dev_world d'))) = (if hs is [] then true else false) /\
    log_since d d' = [LvKillRxUrbs; LvKillTxUrbs; LvCloseCandev].
Proof.
  intros Hal Hpres Hecho Hrange Hinv Hus.
  destruct (close_run d hs Hal Hpres Hecho Hrange Hinv Hus)
    as (d' & Hrun & Hcs & Hrx & Htx & Hinv' & Htp & Hq & _ & Hlog & _).
  apply pool_inv_all_free in Hinv' as (_ & Hcnt & Hfree).
  exists d'. split_and!; try done.
  unfold log_since. by rewrite Hlog, drop_app_length.
Qed.

Lemma running_device_pool :
  pool_inv (mk_pool (dev_world running_device) [1%nat; 0%nat]).
Proof.
  assert (Hreach : pool_reachable
            (mk_pool (check_last (reserve 1 frame_123 (check_last (reserve 0 frame_123 fresh_world))))
               [1%nat; 0%nat])).
  { apply (run_pool_reachable [Acquire frame_123; Acquire frame_123] (mk_pool fresh_world []));
      [|vm_compute; reflexivity].
    apply (reach_init probed_world); vm_compute; reflexivity. }
  apply pool_reachable_inv in Hreach.
  eapply pool_inv_ext; [| |exact Hreach]; vm_compute; reflexivity.
Qed.

Lemma close_completes_in_flight_witness :
  exists d',
    panda_usb_close running_device = Some (0, d') /\
    dev_can_state d' = CAN_STATE_STOPPED /\
    rx_submitted d' = [] /\
    tx_submitted (priv (dev_world d')) = [] /\
    free_ctx_cnt (priv (dev_world d')) = Z.of_nat PANDA_MAX_TX_URBS /\
    (forall i c, tx_context (priv (dev_world d')) !! i = Some c -> ndx c = PANDA_CTX_FREE) /\
    tx_packets (stats (netdev (priv (dev_world d')))) =
      ulong (tx_packets (stats (netdev (priv (dev_world running_device)))) + 2) /\
    queue_stopped (netdev (priv (dev_world d'))) = false /\
    log_since running_device d' = [LvKillRxUrbs; LvKillTxUrbs; LvCloseCandev].
Proof.
  apply (close_completes_in_flight running_device [1%nat; 0%nat]);
    [vm_compute; reflexivity
    | vm_compute; reflexivity
    | vm_compute; reflexivity
    | vm_compute; split; [discriminate|reflexivity]
    | exact running_device_pool
    | vm_compute; reflexivity].
Defined.

(** [panda_usb_disconnect] never completes within defined
    behaviour: it calls [free_candev], which frees the network device
    and with it [struct panda_priv], and only then [panda_urb_unlink],
    which works on the two anchors inside that structure.  This holds
    whether the interface is up or down and whatever is in flight. *)
Theorem disconnect_uses_freed_device up d :
  panda_usb_disconnect up d = None.
Proof.
  destruct d as [w cs br rx ef al rg intf lg fl].
  unfold panda_usb_disconnect, free_candev, panda_urb_unlink, usb_kill_anchored_rx.
  unfold_life. cbn -[unregister_candev].
  destruct al; [|done].
  match goal with
  | |- context [unregister_candev up ?d0] =>
      destruct (unregister_candev up d0) as [[[] d1]|]; [|done]
  end.
  reflexivity.
Qed.

(** [panda_usb_probe] on an interface without a device returns the
    first failure among [alloc_candev], [register_candev],
    [panda_usb_start] and the output-enable request, or [0].  The device
    stays allocated and registered exactly when it returns [0]; then it
    is stopped, at [PANDA_BITRATE], echoing, with the receive URB
    submitted, no transmit URB and every slot free.  Once the device was
    allocated the interface data points to it, also after a failure has
    freed it.  When only the output-enable request fails, the device is
    unregistered and freed while the receive URB that [panda_usb_start]
    submitted is still in flight: its completion handler would run on
    freed memory. *)
Theorem probe_outcomes o d :
  dev_allocated d = false ->
  dev_registered d = false ->
  length (tx_context (priv (dev_world d))) = PANDA_MAX_TX_URBS ->
  let s := start_answers o in
  let start_err :=
    if negb (set_interface_err s =? 0) then set_interface_err s
    else if negb (rx_alloc_urb_ok s && rx_alloc_coherent_ok s) then - ENOMEM
    else rx_submit_err s in
  let err :=
    if negb (alloc_candev_ok o) then - ENOMEM
    else if negb (register_err o =? 0) then register_err o
    else if negb (start_err =? 0) then start_err
    else control_msg_ret o in
  exists d',
    panda_usb_probe o d = Some (err, d') /\
    dev_allocated d' = (err =? 0) /\
    dev_registered d' = (err =? 0) /\
    (alloc_candev_ok o = true -> dev_intfdata d' = true) /\
    (err = 0 ->
       dev_can_state d' = CAN_STATE_STOPPED /\
       dev_bitrate d' = PANDA_BITRATE /\
       dev_echo_flag d' = true /\
       rx_submitted d' = [rx_poll_urb] /\
       tx_submitted (priv (dev_world d')) = [] /\
       free_ctx_cnt (priv (dev_world d')) = Z.of_nat PANDA_MAX_TX_URBS /\
       (forall i c, tx_context (priv (dev_world d')) !! i = Some c ->
                    ndx c = PANDA_CTX_FREE) /\
       last (removelast (dev_log d')) = Some (LvControlMsg 0x1337)) /\
    (alloc_candev_ok o = true -> register_err o = 0 -> start_err = 0 ->
     control_msg_ret o ≠ 0 ->
       rx_submitted d' = [rx_poll_urb] /\
       forall alloc_ok retval u,
         lift (panda_usb_read_int_callback alloc_ok retval u) d' = None).
Proof.
  destruct d as [w cs br rx ef al rg intf lg fl].
  destruct o as [aok rerr [sie uok cok serr] cret].
  cbn [dev_allocated dev_registered dev_world start_answers set_interface_err
         rx_alloc_urb_ok rx_alloc_coherent_ok rx_submit_err alloc_candev_ok
         register_err control_msg_ret].
  intros -> -> Hlen. cbv zeta.
  unfold panda_usb_probe, free_candev, unregister_candev, panda_set_output_enable.
  unfold_life. cbn -[panda_usb_start Z.eqb].
  destruct aok; cbn -[panda_usb_start Z.eqb].
  2: { eexists. split; [reflexivity|]. cbn. split_and!; done. }
  destruct (rerr =? 0) eqn:Er; cbn -[panda_usb_start Z.eqb].
  2: { eexists. split; [reflexivity|]. cbn. rewrite Er. split_and!; try done.
       - intros ->. done.
       - intros _ ->. done. }
  apply Z.eqb_eq in Er as ->.
  match goal with
  | |- context [panda_usb_start ?o ?d1] =>
      destruct (start_run o d1 eq_refl Hlen)
        as (d2 & Hrun & Hinv & Hnet & Hsub & Hrx & _ & _ & Hcs & Hbr & Hef & Hal & Hrg & Hintf
            & Hfl);
      rewrite Hrun
  end.
  apply pool_inv_all_free in Hinv as (_ & Hcnt & Hfree).
  clear Hrun. destruct d2 as [w2 cs2 br2 rx2 ef2 al2 rg2 intf2 lg2 fl2].
  cbn -[Z.eqb] in *. subst.
  set (start_err := if negb (sie =? 0) then sie
                    else if negb (uok && cok) then - ENOMEM else serr).
  destruct (start_err =? 0) eqn:Es; cbn -[Z.eqb].
  2: { eexists. split; [reflexivity|]. cbn -[Z.eqb]. rewrite Es. split_and!; try done.
       - intros E. rewrite E in Es. done.
       - intros _ _ E. rewrite E in Es. done. }
  apply Z.eqb_eq in Es.
  assert (Hok : (sie =? 0) && uok && cok && (serr =? 0) = true).
  { unfold start_err in Es. destruct (sie =? 0) eqn:E1; cbn in Es; [|lia].
    destruct uok, cok; cbn in Es; try done. by apply Z.eqb_eq in Es as ->. }
  rewrite Hok. rewrite Es. change (0 =? 0) with true. cbn -[Z.eqb].
  destruct (cret =? 0) eqn:Ec; cbn -[Z.eqb].
  - apply Z.eqb_eq in Ec as ->. eexists. split; [reflexivity|]. cbn.
    split_and!; try done.
    intros _. split_and!; try done.
    by rewrite removelast_last, last_snoc.
  - eexists. split; [reflexivity|]. cbn -[Z.eqb].
    split_and!; try done.
    intros ->. done.
Qed.

Lemma probe_outcomes_witness :
  exists d',
    panda_usb_probe enable_refused unprobed_device = Some (- 32, d') /\
    dev_allocated d' = false /\
    dev_registered d' = false /\
    (true = true -> dev_intfdata d' = true) /\
    (- 32 = 0 ->
       dev_can_state d' = CAN_STATE_STOPPED /\
       dev_bitrate d' = PANDA_BITRATE /\
       dev_echo_flag d' = true /\
       rx_submitted d' = [rx_poll_urb] /\
       tx_submitted (priv (dev_world d')) = [] /\
       free_ctx_cnt (priv (dev_world d')) = Z.of_nat PANDA_MAX_TX_URBS /\
       (forall i c, tx_context (priv (dev_world d')) !! i = Some c ->
                    ndx c = PANDA_CTX_FREE) /\
       last (removelast (dev_log d')) = Some (LvControlMsg 0x1337)) /\
    (true = true -> 0 = 0 -> 0 = 0 -> - 32 ≠ 0 ->
       rx_submitted d' = [rx_poll_urb] /\
       forall alloc_ok retval u,
         lift (panda_usb_read_int_callback alloc_ok retval u) d' = None).
Proof.
  apply (probe_outcomes enable_refused unprobed_device);
    [reflexivity | reflexivity | vm_compute; reflexivity].
Defined.

(** ** A completed receive URB *)

(** The receive handler leaves the transmit side of the device alone. *)
Lemma deliver_all_frame alloc_ok msgs :
  forall k w,
    Forall (fun m => length (msg_data m) = 8%nat) msgs ->
    exists w',
      deliver_all alloc_ok k msgs w = Some (tt, w') /\
      tx_context (priv w') = tx_context (priv w) /\
      free_ctx_cnt (priv w') = free_ctx_cnt (priv w) /\
      tx_submitted (priv w') = tx_submitted (priv w) /\
      echo_skb (netdev (priv w')) = echo_skb (netdev (priv w)) /\
      queue_stopped (netdev (priv w')) = queue_stopped (netdev (priv w)) /\
      device_present (netdev (priv w')) = device_present (netdev (priv w)) /\
      tx_packets (stats (netdev (priv w'))) = tx_packets (stats (netdev (priv w))).
Proof.
  induction msgs as [|m ms IH]; intros k w Hall; cbn [deliver_all].
  - by exists w.
  - apply Forall_cons in Hall as [Hm Hms].
    rewrite (bind_Some _ _ _ _ _ (process_can_rx_run (alloc_ok k) m w Hm)).
    edestruct (IH (S k)) as (w' & -> & Hc & Hn & Hs & He & Hq & Hp & Ht); [done|].
    exists w'. split; [done|]. rewrite Hc, Hn, Hs, He, Hq, Hp, Ht.
    by destruct (alloc_ok k).
Qed.

Lemma resubmit_read_frame retval w :
  exists w',
    panda_usb_resubmit_read retval w = Some (tt, w') /\
    tx_context (priv w') = tx_context (priv w) /\
    free_ctx_cnt (priv w') = free_ctx_cnt (priv w) /\
    tx_submitted (priv w') = tx_submitted (priv w) /\
    echo_skb (netdev (priv w')) = echo_skb (netdev (priv w)) /\
    stats (netdev (priv w')) = stats (netdev (priv w)) /\
    (retval ≠ - ENODEV ->
       queue_stopped (netdev (priv w')) = queue_stopped (netdev (priv w)) /\
       device_present (netdev (priv w')) = device_present (netdev (priv w))).
Proof.
  unfold panda_usb_resubmit_read, netif_device_detach, modify_netdev, modify_priv, emit.
  unfold_monad. destruct (retval =? - ENODEV) eqn:E; cbn.
  - eexists. split; [reflexivity|]. cbn. split_and!; try done.
    intros Hne. apply Z.eqb_eq in E. done.
  - destruct (retval =? 0); cbn; eexists; (split; [reflexivity|]); cbn; done.
Qed.

Lemma read_int_callback_frame alloc_ok retval u w :
  device_present (netdev (priv w)) = true ->
  urb_status u = 0 ->
  0 <= actual_length u <= Z.of_nat (length (transfer_buffer u)) ->
  length (transfer_buffer u) = Z.to_nat PANDA_USB_RX_BUFF_SIZE ->
  retval ≠ - ENODEV ->
  exists w',
    panda_usb_read_int_callback alloc_ok retval u w = Some (tt, w') /\
    tx_context (priv w') = tx_context (priv w) /\
    free_ctx_cnt (priv w') = free_ctx_cnt (priv w) /\
    tx_submitted (priv w') = tx_submitted (priv w) /\
    echo_skb (netdev (priv w')) = echo_skb (netdev (priv w)) /\
    queue_stopped (netdev (priv w')) = queue_stopped (netdev (priv w)) /\
    device_present (netdev (priv w')) = true /\
    tx_packets (stats (netdev (priv w'))) = tx_packets (stats (netdev (priv w))) /\
    existsb is_resubmit (events_since w w') = true.
Proof.
  intros Hpres Hst Hlen Hbuf Hret.
  destruct (read_int_callback_run alloc_ok retval u w Hpres Hst Hlen Hbuf)
    as (w' & Hrun & Hev).
  exists w'. split; [done|].
  assert (Hsmall : 0 <= actual_length u < 2 ^ 31 - 16).
  { rewrite Hbuf in Hlen. unfold PANDA_USB_RX_BUFF_SIZE in Hlen. lia. }
  pose proof (read_int_loop_spec alloc_ok u (Z.to_nat (actual_length u / 16))
                (S (Z.to_nat (actual_length u))) 0 w Hsmall (proj2 Hlen)) as Hloop.
  change (16 * Z.of_nat 0) with 0 in Hloop.
  fold (complete_messages u) in Hloop.
  destruct (deliver_all_frame alloc_ok (complete_messages u) 0 w
              (complete_messages_data u Hlen))
    as (w1 & Hdel & Hc & Hn & Hs & He & Hq & Hp & Ht).
  rewrite (bind_Some _ _ _ _ _ Hdel) in Hloop.
  assert (Hloop' : exists w2,
             panda_usb_read_int_loop (S (Z.to_nat (actual_length u))) alloc_ok u 0 0 w
               = Some (tt, w2) /\ priv w2 = priv w1).
  { rewrite Hloop; cycle 1.
    - reflexivity.
    - assert (actual_length u / 16 <= actual_length u)
        by (apply Z.div_le_upper_bound; lia).
      lia.
    - destruct (actual_length u mod 16 =? 0); cbn [negb when].
      + by exists w1.
      + eexists. split; reflexivity. }
  destruct Hloop' as (w2 & Hrun2 & Hpriv).
  destruct (resubmit_read_frame retval w2)
    as (w3 & Hrun3 & Hc3 & Hn3 & Hs3 & He3 & Hst3 & Hqp).
  destruct (Hqp Hret) as [Hq3 Hp3].
  assert (w' = w3) as ->.
  { unfold panda_usb_read_int_callback, netif_device_present, get_priv in Hrun.
    unfold_monad. rewrite Hpres, Hst in Hrun. cbn [negb Z.eqb] in Hrun.
    rewrite Hrun2 in Hrun. congruence. }
  rewrite Hc3, Hn3, Hs3, He3, Hst3, Hq3, Hp3, Hpriv, Hc, Hn, Hs, He, Hq, Hp, Ht.
  split_and!; try done.
  rewrite Hev, !existsb_app. unfold resubmit_events. cbn. by rewrite !orb_true_r.
Qed.

(** Closing the interface before the receive URB has ever completed, and
    opening it again: [panda_usb_close] cancels every anchored receive
    URB, the cancelled handler does not resubmit, and [panda_usb_open]
    neither submits a URB nor calls [panda_usb_start].  The device is
    active with its queue started and every slot free, and no receive URB
    is anchored or in flight. *)
Theorem close_then_open_stops_polling d hs :
  dev_allocated d = true ->
  device_present (netdev (priv (dev_world d))) = true ->
  length (echo_skb (netdev (priv (dev_world d)))) = PANDA_MAX_TX_URBS ->
  0 <= tx_packets (stats (netdev (priv (dev_world d)))) < 2 ^ 64 ->
  pool_inv (mk_pool (dev_world d) hs) ->
  urb_context <$> rev (tx_submitted (priv (dev_world d))) = Some <$> hs ->
  rx_in_flight d = rx_submitted d ->
  exists d1 d2,
    panda_usb_close d = Some (0, d1) /\
    panda_usb_open 0 d1 = Some (0, d2) /\
    dev_can_state d2 = CAN_STATE_ERROR_ACTIVE /\
    queue_stopped (netdev (priv (dev_world d2))) = false /\
    rx_submitted d2 = [] /\
    rx_in_flight d2 = [] /\
    (LvSubmitReadUrb ∉ log_since d d2) /\
    free_ctx_cnt (priv (dev_world d2)) = Z.of_nat PANDA_MAX_TX_URBS.
Proof.
  intros Hal Hpres Hecho Hrange Hinv Hus Hfl.
  destruct (close_run d hs Hal Hpres Hecho Hrange Hinv Hus)
    as (d1 & Hrun & Hcs & Hrx & Htx & Hinv' & Htp & Hq & Hal1 & Hlog & Hfl1 & _).
  apply pool_inv_all_free in Hinv' as (_ & Hcnt & Hfree).
  rewrite Hfl, remove_urbs_all in Hfl1 by (symmetry; apply Permutation_rev).
  exists d1. destruct d as [w cs br rx ef al rg intf lg fl].
  destruct d1 as [w1 cs1 br1 rx1 ef1 al1 rg1 intf1 lg1 fl1].
  unfold log_since. cbn in *. subst.
  eexists. split; [done|]. split; [reflexivity|]. cbn.
  split_and!; try done.
  rewrite <- !app_assoc, drop_app_length. cbn.
  intros H. repeat (apply elem_of_cons in H as [H|H]; [discriminate|]).
  by apply elem_of_nil in H.
Qed.

Lemma close_then_open_stops_polling_witness :
  exists d1 d2,
    panda_usb_close running_device = Some (0, d1) /\
    panda_usb_open 0 d1 = Some (0, d2) /\
    dev_can_state d2 = CAN_STATE_ERROR_ACTIVE /\
    queue_stopped (netdev (priv (dev_world d2))) = false /\
    rx_submitted d2 = [] /\
    rx_in_flight d2 = [] /\
    (LvSubmitReadUrb ∉ log_since running_device d2) /\
    free_ctx_cnt (priv (dev_world d2)) = Z.of_nat PANDA_MAX_TX_URBS.
Proof.
  apply (close_then_open_stops_polling running_device [1%nat; 0%nat]);
    [vm_compute; reflexivity
    | vm_compute; reflexivity
    | vm_compute; reflexivity
    | vm_compute; split; [discriminate|reflexivity]
    | exact running_device_pool
    | vm_compute; reflexivity
    | vm_compute; reflexivity].
Defined.

(** Once the receive URB has completed and its handler has submitted it
    again, [panda_usb_close] no longer stops it.  The USB core takes the
    URB off the [rx_submitted] anchor before it runs the handler, and the
    handler resubmits without anchoring; so the URB is in flight on an
    empty anchor, [usb_kill_anchored_urbs] finds nothing to cancel, and
    after close the device is stopped with the receive URB still in
    flight. *)
Theorem resubmitted_urb_survives_close alloc_ok u completed d hs :
  dev_allocated d = true ->
  device_present (netdev (priv (dev_world d))) = true ->
  length (echo_skb (netdev (priv (dev_world d)))) = PANDA_MAX_TX_URBS ->
  0 <= tx_packets (stats (netdev (priv (dev_world d)))) < 2 ^ 64 ->
  pool_inv (mk_pool (dev_world d) hs) ->
  urb_context <$> rev (tx_submitted (priv (dev_world d))) = Some <$> hs ->
  rx_submitted d = [u] ->
  rx_in_flight d = [u] ->
  urb_status completed = 0 ->
  0 <= actual_length completed <= Z.of_nat (length (transfer_buffer completed)) ->
  length (transfer_buffer completed) = Z.to_nat PANDA_USB_RX_BUFF_SIZE ->
  exists d1 d2,
    usb_giveback_rx alloc_ok 0 u completed d = Some (tt, d1) /\
    rx_submitted d1 = [] /\
    rx_in_flight d1 = [completed] /\
    panda_usb_close d1 = Some (0, d2) /\
    dev_can_state d2 = CAN_STATE_STOPPED /\
    rx_submitted d2 = [] /\
    rx_in_flight d2 = [completed].
Proof.
  destruct d as [w cs br rx ef al rg intf lg fl].
  cbn [dev_world dev_allocated rx_submitted rx_in_flight].
  intros -> Hpres Hecho Hrange Hinv Hus -> -> Hst Hlen Hbuf.
  destruct (read_int_callback_frame alloc_ok 0 completed w Hpres Hst Hlen Hbuf)
    as (w' & Hrun & Hc & Hn & Hs & He & Hq & Hp & Ht & Hre); [done|].
  assert (Hgive : usb_giveback_rx alloc_ok 0 u completed
                    (mk_device w cs br [u] ef true rg intf lg [u]) =
                  Some (tt, mk_device w' cs br [] ef true rg intf lg [completed])).
  { unfold usb_giveback_rx. unfold_life.
    cbn -[panda_usb_read_int_callback events_since].
    rewrite !(bool_decide_eq_true_2 (u = u)) by done.
    rewrite bool_decide_eq_true_2 by (by left).
    cbn -[panda_usb_read_int_callback events_since].
    rewrite Hrun. cbn -[events_since]. rewrite Hre. reflexivity. }
  destruct (close_run (mk_device w' cs br [] ef true rg intf lg [completed]) hs)
    as (d2 & Hclose & Hcs & Hrx & _ & _ & _ & _ & _ & _ & Hfl & _);
    [done|done|by cbn; rewrite He|by cbn; rewrite Ht
    |by apply (pool_inv_ext w)|by cbn; rewrite Hs|].
  eexists _, d2. split; [exact Hgive|]. cbn. split_and!; done.
Qed.

Lemma resubmitted_urb_survives_close_witness :
  exists d1 d2,
    usb_giveback_rx (fun _ => true) 0 rx_poll_urb partial_urb running_device
      = Some (tt, d1) /\
    rx_submitted d1 = [] /\
    rx_in_flight d1 = [partial_urb] /\
    panda_usb_close d1 = Some (0, d2) /\
    dev_can_state d2 = CAN_STATE_STOPPED /\
    rx_submitted d2 = [] /\
    rx_in_flight d2 = [partial_urb].
Proof.
  apply (resubmitted_urb_survives_close (fun _ => true) rx_poll_urb partial_urb
           running_device [1%nat; 0%nat]);
    [vm_compute; reflexivity
    | vm_compute; reflexivity
    | vm_compute; reflexivity
    | vm_compute; split; [discriminate|reflexivity]
    | exact running_device_pool
    | vm_compute; reflexivity
    | vm_compute; reflexivity
    | vm_compute; reflexivity
    | reflexivity
    | vm_compute; split; discriminate
    | vm_compute; reflexivity].
Defined.

(** ** Closing a detached device *)

(** The completion of a transmit URB on a device that is gone only frees
    the transfer buffer. *)
Lemma write_bulk_callback_gone u h w :
  urb_context u = Some h ->
  device_present (netdev (priv w)) = false ->
  panda_usb_write_bulk_callback u w =
    Some (tt, mk_world (priv w) (trace w ++ [EvUsbFreeCoherent])).
Proof.
  intros Hctx Hpres. unfold panda_usb_write_bulk_callback. rewrite Hctx.
  unfold netif_device_present, emit, get_priv. unfold_monad.
  cbn. by rewrite Hpres.
Qed.

Lemma complete_each_tx_gone us w :
  Forall (fun u => is_Some (urb_context u)) us ->
  device_present (netdev (priv w)) = false ->
  exists w',
    complete_each panda_usb_write_bulk_callback us w = Some (tt, w') /\
    priv w' = priv w.
Proof.
  revert w. induction us as [|u us IH]; intros w Hall Hpres; [by exists w|].
  apply Forall_cons in Hall as [[h Hh] Hall]. cbn [complete_each].
  rewrite (bind_Some _ _ _ _ _ (write_bulk_callback_gone (killed u) h w Hh Hpres)).
  destruct (IH (mk_world (priv w) (trace w ++ [EvUsbFreeCoherent])) Hall Hpres)
    as (w' & Hrun & Hpriv).
  by exists w'.
Qed.

(** [panda_usb_close] on a device that has been detached: the transmit
    URBs in flight are cancelled and leave the anchor, but their
    completion handler returns before it releases anything, so every
    slot they held stays busy and the count stays where it was.
    [close_candev] then flushes the echo array: the buffers of the frames
    that were in flight are freed, and each is counted in [tx_dropped] and
    [tx_aborted_errors]; no other counter changes.  Nothing but
    [panda_usb_start], which only [panda_usb_probe] calls, resets the
    pool. *)
Theorem close_on_detached_keeps_slots d :
  dev_allocated d = true ->
  device_present (netdev (priv (dev_world d))) = false ->
  Forall (fun u => is_Some (urb_context u)) (tx_submitted (priv (dev_world d))) ->
  0 <= tx_dropped (stats (netdev (priv (dev_world d)))) < 2 ^ 64 ->
  0 <= tx_aborted_errors (stats (netdev (priv (dev_world d)))) < 2 ^ 64 ->
  exists d',
    panda_usb_close d = Some (0, d') /\
    tx_context (priv (dev_world d')) = tx_context (priv (dev_world d)) /\
    free_ctx_cnt (priv (dev_world d')) = free_ctx_cnt (priv (dev_world d)) /\
    echo_skb (netdev (priv (dev_world d')))
      = replicate (length (echo_skb (netdev (priv (dev_world d))))) None /\
    tx_dropped (stats (netdev (priv (dev_world d'))))
      = ulong (tx_dropped (stats (netdev (priv (dev_world d))))
               + Z.of_nat (occupied (echo_skb (netdev (priv (dev_world d)))))) /\
    tx_aborted_errors (stats (netdev (priv (dev_world d'))))
      = ulong (tx_aborted_errors (stats (netdev (priv (dev_world d))))
               + Z.of_nat (occupied (echo_skb (netdev (priv (dev_world d)))))) /\
    rx_packets (stats (netdev (priv (dev_world d'))))
      = rx_packets (stats (netdev (priv (dev_world d)))) /\
    rx_bytes (stats (netdev (priv (dev_world d'))))
      = rx_bytes (stats (netdev (priv (dev_world d)))) /\
    tx_packets (stats (netdev (priv (dev_world d'))))
      = tx_packets (stats (netdev (priv (dev_world d)))) /\
    tx_bytes (stats (netdev (priv (dev_world d'))))
      = tx_bytes (stats (netdev (priv (dev_world d)))) /\
    tx_submitted (priv (dev_world d')) = [] /\
    rx_submitted d' = [] /\
    queue_stopped (netdev (priv (dev_world d'))) = true /\
    dev_can_state d' = CAN_STATE_STOPPED.
Proof.
  destruct d as [w cs br rx ef al rg intf lg fl]. cbn [dev_world dev_allocated].
  intros -> Hpres Hall Hd Ha.
  set (w1 := mk_world (set_netdev (set_queue_stopped true (netdev (priv w))) (priv w))
               (trace w ++ [EvNetifStopQueue])).
  destruct (complete_each_tx_gone (rev (tx_submitted (priv w))) w1)
    as (w2 & Hrun & Hpriv); [by apply Forall_rev|done|].
  unfold panda_usb_close, panda_urb_unlink, usb_kill_anchored_tx, close_candev.
  unfold_life.
  cbn -[complete_each netif_stop_queue usb_kill_anchored_rx can_flush_echo_skb].
  change (netif_stop_queue w) with (Some (tt, w1)).
  cbn -[complete_each usb_kill_anchored_rx can_flush_echo_skb].
  rewrite kill_anchored_rx_run.
  cbn -[complete_each can_flush_echo_skb]. rewrite Hrun.
  cbn -[can_flush_echo_skb].
  match goal with
  | |- context [can_flush_echo_skb ?w3] =>
      destruct (flush_run w3)
        as (w4 & Hflush & Hc & Hcnt & Hsub & Hq & Hp & Hrp & Hrb & Htp & Htb & Hecho
            & Htd & Hta);
      rewrite Hflush
  end.
  cbn -[Nat.iter occupied] in Hc, Hcnt, Hsub, Hq, Hp, Hrp, Hrb, Htp, Htb, Hecho, Htd, Hta.
  rewrite Hpriv in Hc, Hcnt, Hq, Hrp, Hrb, Htp, Htb, Hecho, Htd, Hta.
  cbn -[Nat.iter occupied] in Hq, Hrp, Hrb, Htp, Htb, Hecho, Htd, Hta.
  rewrite iter_ulong in Htd, Hta by done.
  eexists. split; [reflexivity|]. cbn. split_and!; done.
Qed.

Lemma close_on_detached_keeps_slots_witness :
  exists d',
    panda_usb_close detached_device = Some (0, d') /\
    tx_context (priv (dev_world d')) = tx_context (priv (dev_world detached_device)) /\
    free_ctx_cnt (priv (dev_world d')) = free_ctx_cnt (priv (dev_world detached_device)) /\
    echo_skb (netdev (priv (dev_world d')))
      = replicate (length (echo_skb (netdev (priv (dev_world detached_device))))) None /\
    tx_dropped (stats (netdev (priv (dev_world d'))))
      = ulong (tx_dropped (stats (netdev (priv (dev_world detached_device))))
               + Z.of_nat (occupied (echo_skb (netdev (priv (dev_world detached_device)))))) /\
    tx_aborted_errors (stats (netdev (priv (dev_world d'))))
      = ulong (tx_aborted_errors (stats (netdev (priv (dev_world detached_device))))
               + Z.of_nat (occupied (echo_skb (netdev (priv (dev_world detached_device)))))) /\
    rx_packets (stats (netdev (priv (dev_world d'))))
      = rx_packets (stats (netdev (priv (dev_world detached_device)))) /\
    rx_bytes (stats (netdev (priv (dev_world d'))))
      = rx_bytes (stats (netdev (priv (dev_world detached_device)))) /\
    tx_packets (stats (netdev (priv (dev_world d'))))
      = tx_packets (stats (netdev (priv (dev_world detached_device)))) /\
    tx_bytes (stats (netdev (priv (dev_world d'))))
      = tx_bytes (stats (netdev (priv (dev_world detached_device)))) /\
    tx_submitted (priv (dev_world d')) = [] /\
    rx_submitted d' = [] /\
    queue_stopped (netdev (priv (dev_world d'))) = true /\
    dev_can_state d' = CAN_STATE_STOPPED.
Proof.
  apply (close_on_detached_keeps_slots detached_device);
    [reflexivity
    | reflexivity
    | vm_compute; repeat constructor; eexists; reflexivity
    | vm_compute; split; [discriminate|reflexivity]
    | vm_compute; split; [discriminate|reflexivity]].
Defined.
